(** * HealthVault: the ledger-backed integrity commitment subsystem

    A shallow embedding of the Algorand services of the repository
    (class [AlgorandService], class [EnhancedAlgorandService], class
    [AlgorandBlockchainService] and the exported wrappers of [lib/algorand.ts]),
    of the fingerprint and mnemonic helpers and of the verification status
    kept by [store/useHealthStore.ts], together with the properties of the
    note codec, identity provisioning, funding, commitment and verification
    code.

    Conventions.
    - A JavaScript string is a [string]: a sequence of code units below 256.
      On such strings [.length] is [String.length].
    - A call that may throw returns a [Completion]; what is thrown is an
      [Error] with its message.  Asynchronous code that talks to the network
      runs in the monad [M], whose state is the history of the external
      calls made so far; every awaited call settles.
    - Logging ([console.log] and friends) is not modelled. *)

From Stdlib Require Import String Ascii List Bool Arith ZArith NArith Lia.
From Stdlib Require Import Decimal DecimalString DecimalFacts DecimalPos DecimalN.
Import ListNotations.

#[local] Set Warnings "-register-all".
Local Open Scope list_scope.
Local Open Scope string_scope.

(** ** JavaScript string primitives *)

Module JsString.

(** [s.startsWith(p)] *)
Definition startsWith (s p : string) : bool := String.prefix p s.

(** [s.includes(sub)] *)
Fixpoint includes (s sub : string) : bool :=
  if String.prefix sub s then true
  else match s with
       | EmptyString => false
       | String _ s' => includes s' sub
       end.

(** White space and line terminators removed by [trim], among the code
    units below 256: TAB, LF, VT, FF, CR, SP and NBSP. *)
Definition isWhiteSpace (c : ascii) : bool :=
  let n := N_of_ascii c in
  ((9 <=? n) && (n <=? 13) || (n =? 32) || (n =? 160))%N.

Fixpoint trimStart (s : string) : string :=
  match s with
  | EmptyString => EmptyString
  | String c s' => if isWhiteSpace c then trimStart s' else s
  end.

Fixpoint trimEnd (s : string) : string :=
  match s with
  | EmptyString => EmptyString
  | String c s' =>
      match trimEnd s' with
      | EmptyString => if isWhiteSpace c then EmptyString else String c EmptyString
      | t => String c t
      end
  end.

(** [s.trim()] *)
Definition trim (s : string) : string := trimEnd (trimStart s).

(** [s.split(sep)] for a non-empty separator: the leftmost occurrences of
    [sep] cut the string.  [skip] counts the code units of a separator
    still to be passed over, [cur] is the segment read so far. *)
Fixpoint split_go (sep s : string) (skip : nat) (cur : string) : list string :=
  match s with
  | EmptyString => [cur]
  | String c s' =>
      match skip with
      | S k => split_go sep s' k cur
      | O =>
          if String.prefix sep s
          then cur :: split_go sep s' (String.length sep - 1) EmptyString
          else split_go sep s' 0 (cur ++ String c EmptyString)
      end
  end.

Definition split (s sep : string) : list string := split_go sep s 0 EmptyString.

(** The code units of a string, as numbers. *)
Definition codes (s : string) : list N := map N_of_ascii (list_ascii_of_string s).

(** [new TextEncoder().encode(s)]: UTF-8.  A code unit below 128 is one
    byte, one in 128..255 is two bytes. *)
Fixpoint TextEncoder_encode (s : string) : list N :=
  match s with
  | EmptyString => []
  | String c s' =>
      let n := N_of_ascii c in
      if (n <? 128)%N then n :: TextEncoder_encode s'
      else N.lor 192 (N.shiftr n 6) :: N.lor 128 (N.land n 63) :: TextEncoder_encode s'
  end.

(** [String(n)] of a non-negative integer. *)
Definition NumberToString (n : N) : string := NilEmpty.string_of_uint (N.to_uint n).

End JsString.

Import JsString.

(** ** Completions: a call returns a value or throws *)

Record JsError := { message : string }.

Inductive Completion (A : Type) :=
| Normal (a : A)
| Throw (e : JsError).
Arguments Normal {A} a.
Arguments Throw {A} e.

(** ** JSON: [JSON.stringify] of the note record and [JSON.parse] *)

Module Json.

(** A parsed JSON text.  Strings are kept as code units, since an escape
    [\uXXXX] can denote a unit above 255; a number is kept as its lexeme
    (no property of the code depends on its value). *)
Inductive Json :=
| JNull
| JBool (b : bool)
| JNumber (lexeme : string)
| JString (cs : list N)
| JArray (items : list Json)
| JObject (members : list (list N * Json)).

Definition dquote : ascii := "034"%char.
Definition backslash : ascii := "092"%char.

Definition hexDigit (n : N) : ascii :=
  if (n <? 10)%N then ascii_of_N (48 + n) else ascii_of_N (87 + n).

(** QuoteJSONString, one code unit. *)
Definition escapeUnit (c : ascii) : string :=
  let n := N_of_ascii c in
  if (n =? 8)%N then "\b"
  else if (n =? 9)%N then "\t"
  else if (n =? 10)%N then "\n"
  else if (n =? 12)%N then "\f"
  else if (n =? 13)%N then "\r"
  else if (n =? 34)%N then String backslash (String dquote EmptyString)
  else if (n =? 92)%N then String backslash (String backslash EmptyString)
  else if (n <? 32)%N
       then "\u00" ++ String (hexDigit (n / 16)) (String (hexDigit (n mod 16)) EmptyString)
  else String c EmptyString.

Fixpoint escapeUnits (s : string) : string :=
  match s with
  | EmptyString => EmptyString
  | String c s' => escapeUnit c ++ escapeUnits s'
  end.

Definition QuoteJSONString (s : string) : string :=
  String dquote (escapeUnits s ++ String dquote EmptyString).

(** JSON white space: SP, TAB, LF, CR. *)
Definition isJsonWs (c : ascii) : bool :=
  let n := N_of_ascii c in
  ((n =? 32) || (n =? 9) || (n =? 10) || (n =? 13))%N.

Fixpoint skipWs (s : string) : string :=
  match s with
  | EmptyString => EmptyString
  | String c s' => if isJsonWs c then skipWs s' else s
  end.

Definition hexVal (c : ascii) : option N :=
  let n := N_of_ascii c in
  if ((48 <=? n) && (n <=? 57))%N then Some (n - 48)%N
  else if ((97 <=? n) && (n <=? 102))%N then Some (n - 87)%N
  else if ((65 <=? n) && (n <=? 70))%N then Some (n - 55)%N
  else None.

(** The code unit a one-letter escape stands for. *)
Definition unescape (e : ascii) : option N :=
  let n := N_of_ascii e in
  if (n =? 34)%N then Some 34%N            (* quote *)
  else if (n =? 92)%N then Some 92%N       (* backslash *)
  else if (n =? 47)%N then Some 47%N       (* solidus *)
  else if (n =? 98)%N then Some 8%N        (* b *)
  else if (n =? 102)%N then Some 12%N      (* f *)
  else if (n =? 110)%N then Some 10%N      (* n *)
  else if (n =? 114)%N then Some 13%N      (* r *)
  else if (n =? 116)%N then Some 9%N       (* t *)
  else None.

Definition consUnit (n : N) (r : option (list N * string)) : option (list N * string) :=
  match r with
  | Some (cs, rest) => Some (n :: cs, rest)
  | None => None
  end.

(** The body of a string literal, after its opening quote, up to and
    including the closing quote. *)
Fixpoint parseStringBody (s : string) : option (list N * string) :=
  match s with
  | EmptyString => None
  | String c s' =>
      if Ascii.eqb c dquote then Some ([], s')
      else if Ascii.eqb c backslash then
        match s' with
        | EmptyString => None
        | String e s'' =>
            if Ascii.eqb e "u"%char then
              match s'' with
              | String h3 (String h2 (String h1 (String h0 r))) =>
                  match hexVal h3, hexVal h2, hexVal h1, hexVal h0 with
                  | Some a, Some b, Some c', Some d =>
                      consUnit (4096 * a + 256 * b + 16 * c' + d)%N (parseStringBody r)
                  | _, _, _, _ => None
                  end
              | _ => None
              end
            else
              match unescape e with
              | Some n => consUnit n (parseStringBody s'')
              | None => None
              end
        end
      else if (N_of_ascii c <? 32)%N then None
      else consUnit (N_of_ascii c) (parseStringBody s')
  end.

Definition isDigit (c : ascii) : bool :=
  let n := N_of_ascii c in ((48 <=? n) && (n <=? 57))%N.

(** The longest run of digits at the head of [s], and what follows. *)
Fixpoint takeDigits (s : string) : string * string :=
  match s with
  | EmptyString => (EmptyString, EmptyString)
  | String c s' =>
      if isDigit c
      then let (ds, r) := takeDigits s' in (String c ds, r)
      else (EmptyString, s)
  end.

(** int: a single 0, or a non-zero digit followed by digits. *)
Definition parseInt (s : string) : option (string * string) :=
  match s with
  | EmptyString => None
  | String c s' =>
      if Ascii.eqb c "0"%char then Some ("0", s')
      else if isDigit c then Some (takeDigits s)
      else None
  end.

Definition parseFrac (s : string) : option (string * string) :=
  match s with
  | String c s' =>
      if Ascii.eqb c "."%char then
        match takeDigits s' with
        | (EmptyString, _) => None
        | (ds, r) => Some (String c ds, r)
        end
      else Some (EmptyString, s)
  | EmptyString => Some (EmptyString, s)
  end.

Definition parseExp (s : string) : option (string * string) :=
  match s with
  | String c s' =>
      if Ascii.eqb c "e"%char || Ascii.eqb c "E"%char then
        let (sign, s1) :=
          match s' with
          | String g s'' =>
              if Ascii.eqb g "+"%char || Ascii.eqb g "-"%char
              then (String g EmptyString, s'') else (EmptyString, s')
          | EmptyString => (EmptyString, s')
          end in
        match takeDigits s1 with
        | (EmptyString, _) => None
        | (ds, r) => Some (String c (sign ++ ds), r)
        end
      else Some (EmptyString, s)
  | EmptyString => Some (EmptyString, s)
  end.

(** A JSON number: its lexeme and what follows. *)
Definition parseNumber (s : string) : option (string * string) :=
  let (sign, s0) :=
    match s with
    | String c s' => if Ascii.eqb c "-"%char then ("-", s') else (EmptyString, s)
    | EmptyString => (EmptyString, s)
    end in
  match parseInt s0 with
  | None => None
  | Some (i, s1) =>
      match parseFrac s1 with
      | None => None
      | Some (f, s2) =>
          match parseExp s2 with
          | None => None
          | Some (e, s3) => Some (sign ++ i ++ f ++ e, s3)
          end
      end
  end.

Fixpoint dropUnits (n : nat) (s : string) : string :=
  match n, s with
  | S k, String _ s' => dropUnits k s'
  | _, _ => s
  end.

(** One JSON value at the head of [s] (no leading white space), and what
    follows it.  [fuel] bounds the depth of the calls: a member or an
    element costs one unit and a nested value one more, each for at least
    as many code units of text, so [String.length s + 1] is enough. *)
Fixpoint parseValue (fuel : nat) (s : string) {struct fuel} : option (Json * string) :=
  match fuel with
  | O => None
  | S k =>
      match s with
      | EmptyString => None
      | String c r =>
          if Ascii.eqb c "{"%char then
            match skipWs r with
            | EmptyString => None
            | String c1 r1 =>
                if Ascii.eqb c1 "}"%char then Some (JObject [], r1)
                else match parseMembers k (String c1 r1) with
                     | Some (ms, r') => Some (JObject ms, r')
                     | None => None
                     end
            end
          else if Ascii.eqb c "["%char then
            match skipWs r with
            | EmptyString => None
            | String c1 r1 =>
                if Ascii.eqb c1 "]"%char then Some (JArray [], r1)
                else match parseElements k (String c1 r1) with
                     | Some (vs, r') => Some (JArray vs, r')
                     | None => None
                     end
            end
          else if Ascii.eqb c dquote then
            match parseStringBody r with
            | Some (cs, r') => Some (JString cs, r')
            | None => None
            end
          else if String.prefix "true" s then Some (JBool true, dropUnits 4 s)
          else if String.prefix "false" s then Some (JBool false, dropUnits 5 s)
          else if String.prefix "null" s then Some (JNull, dropUnits 4 s)
          else match parseNumber s with
               | Some (lx, r') => Some (JNumber lx, r')
               | None => None
               end
      end
  end

(** The members of an object, from the first key to the closing brace. *)
with parseMembers (fuel : nat) (s : string) {struct fuel}
     : option (list (list N * Json) * string) :=
  match fuel with
  | O => None
  | S k =>
      match s with
      | EmptyString => None
      | String c r =>
          if Ascii.eqb c dquote then
            match parseStringBody r with
            | None => None
            | Some (key, r1) =>
                match skipWs r1 with
                | EmptyString => None
                | String c2 r2 =>
                    if Ascii.eqb c2 ":"%char then
                      match parseValue k (skipWs r2) with
                      | None => None
                      | Some (v, r3) =>
                          match skipWs r3 with
                          | EmptyString => None
                          | String c4 r4 =>
                              if Ascii.eqb c4 ","%char then
                                match parseMembers k (skipWs r4) with
                                | Some (ms, r') => Some ((key, v) :: ms, r')
                                | None => None
                                end
                              else if Ascii.eqb c4 "}"%char then Some ([(key, v)], r4)
                              else None
                          end
                      end
                    else None
                end
            end
          else None
      end
  end

(** The elements of an array, from the first one to the closing bracket. *)
with parseElements (fuel : nat) (s : string) {struct fuel}
     : option (list Json * string) :=
  match fuel with
  | O => None
  | S k =>
      match parseValue k s with
      | None => None
      | Some (v, r1) =>
          match skipWs r1 with
          | EmptyString => None
          | String c2 r2 =>
              if Ascii.eqb c2 ","%char then
                match parseElements k (skipWs r2) with
                | Some (vs, r') => Some (v :: vs, r')
                | None => None
                end
              else if Ascii.eqb c2 "]"%char then Some ([v], r2)
              else None
          end
      end
  end.

(** [JSON.parse(text)]: one value between optional white space; anything
    else is a SyntaxError. *)
Definition JSON_parse (text : string) : Completion Json :=
  match parseValue (S (String.length text)) (skipWs text) with
  | Some (v, r) =>
      match skipWs r with
      | EmptyString => Normal v
      | _ => Throw {| message := "SyntaxError: Unexpected token in JSON" |}
      end
  | None => Throw {| message := "SyntaxError: Unexpected token in JSON" |}
  end.

(** A later duplicate of a key overrides an earlier one. *)
Fixpoint lookupLast (k : list N) (ms : list (list N * Json)) : option Json :=
  match ms with
  | [] => None
  | (k', v) :: ms' =>
      match lookupLast k ms' with
      | Some v' => Some v'
      | None => if list_eq_dec N.eq_dec k k' then Some v else None
      end
  end.

(** [v.name] on a parsed value: a TypeError on [null], the member of an
    object, [undefined] ([None]) otherwise. *)
Definition getProp (v : Json) (name : string) : Completion (option Json) :=
  match v with
  | JNull => Throw {| message := "TypeError: Cannot read properties of null" |}
  | JObject ms => Normal (lookupLast (codes name) ms)
  | _ => Normal None
  end.

(** [x === str] for a property value [x] and a string [str]. *)
Definition strictEqString (x : option Json) (str : string) : bool :=
  match x with
  | Some (JString cs) => if list_eq_dec N.eq_dec cs (codes str) then true else false
  | _ => false
  end.

End Json.

Import Json.

(** ** The note codec of [AlgorandService] *)

Module NoteCodec.

(** A field of the note record handed to [JSON.stringify]. *)
Inductive Field :=
| FString (s : string)
| FNumber (n : N).

Definition stringifyField (f : Field) : string :=
  match f with
  | FString s => QuoteJSONString s
  | FNumber n => NumberToString n
  end.

Fixpoint stringifyMembers (ms : list (string * Field)) : string :=
  match ms with
  | [] => EmptyString
  | (k, v) :: rest =>
      QuoteJSONString k ++ ":" ++ stringifyField v ++
      match rest with
      | [] => EmptyString
      | _ => "," ++ stringifyMembers rest
      end
  end.

(** [JSON.stringify] of a flat record of strings and integers. *)
Definition JSON_stringify (ms : list (string * Field)) : string :=
  "{" ++ stringifyMembers ms ++ "}".

(** [storeHealthData], the note construction.  [timestamp] is the value
    of [Date.now()]. *)
Definition noteData (dataHash : string) (timestamp : N) : list (string * Field) :=
  [ ("type", FString "HEALTH_DATA");
    ("hash", FString dataHash);
    ("timestamp", FNumber timestamp);
    ("version", FString "1.0");
    ("app", FString "HealthGuardian") ].

Definition jsonNote (dataHash : string) (timestamp : N) : string :=
  JSON_stringify (noteData dataHash timestamp).
Definition legacyNote (dataHash : string) : string := "HEALTH_DATA:" ++ dataHash.
Definition simpleNote (dataHash : string) : string := "HG_" ++ dataHash.

Definition separator : string := "|||".

Definition combinedNote (dataHash : string) (timestamp : N) : string :=
  jsonNote dataHash timestamp ++ separator ++ legacyNote dataHash
    ++ separator ++ simpleNote dataHash.

Definition finalNote (dataHash : string) (timestamp : N) : string :=
  if (1000 <? String.length (combinedNote dataHash timestamp))%nat
  then jsonNote dataHash timestamp ++ separator ++ legacyNote dataHash
  else combinedNote dataHash timestamp.

(** The bytes attached to the transaction. *)
Definition noteBytes (dataHash : string) (timestamp : N) : list N :=
  TextEncoder_encode (finalNote dataHash timestamp).

(** [verifyNotePart], the JSON branch: the body of the inner [try].  A
    SyntaxError of [JSON.parse] and a TypeError of the property reads are
    caught by the inner [catch], which falls through. *)
Definition jsonFormatMatches (part expectedHash : string) : bool :=
  match JSON_parse part with
  | Throw _ => false
  | Normal parsed =>
      match getProp parsed "type" with
      | Throw _ => false
      | Normal t =>
          if strictEqString t "HEALTH_DATA" then
            match getProp parsed "hash" with
            | Throw _ => false
            | Normal h => strictEqString h expectedHash
            end
          else false
      end
  end.

(** [verifyNotePart(part, expectedHash)] *)
Definition verifyNotePart (part expectedHash : string) : bool :=
  if startsWith part "{" && jsonFormatMatches part expectedHash then true
  else if includes part "HEALTH_DATA:"
          && (let expectedLegacy := "HEALTH_DATA:" ++ expectedHash in
              String.eqb part expectedLegacy || includes part expectedLegacy)
  then true
  else if startsWith part "HG_"
          && (let expectedSimple := "HG_" ++ expectedHash in
              String.eqb part expectedSimple || includes part expectedSimple)
  then true
  else if includes part expectedHash then true
  else false.

(** The loop over the parts: each part is trimmed, the first part that
    verifies ends the loop. *)
Fixpoint anyPartVerifies (parts : list string) (dataHash : string) : bool :=
  match parts with
  | [] => false
  | p :: ps =>
      if verifyNotePart (trim p) dataHash then true else anyPartVerifies ps dataHash
  end.

(** [verifyHealthData], from the decoded [noteString] to
    [verificationResult]: the three methods in turn. *)
Definition verifyNoteString (noteString dataHash : string) : bool :=
  let r1 :=
    if includes noteString separator
    then anyPartVerifies (split noteString separator) dataHash
    else false in
  let r2 :=
    if negb r1 && includes noteString "|"
    then anyPartVerifies (split noteString "|") dataHash
    else r1 in
  if negb r2 then verifyNotePart noteString dataHash else r2.

End NoteCodec.

Import NoteCodec.

(** ** Untyped JavaScript values

    The responses of the ledger node and the candidates handed to the
    validators are untyped ([any]).  An object is the list of its own
    enumerable properties in [Object.entries] order, with distinct keys. *)

Module JsValue.

Inductive JsVal :=
| VUndefined
| VNull
| VBool (b : bool)
| VNumber (z : Z)
| VString (s : string)
| VUint8Array (bytes : list N)
| VArray (items : list JsVal)
| VObject (fields : list (string * JsVal)).

(** ToBoolean *)
Definition truthy (v : JsVal) : bool :=
  match v with
  | VUndefined | VNull => false
  | VBool b => b
  | VNumber z => negb (z =? 0)%Z
  | VString s => negb (String.eqb s EmptyString)
  | VUint8Array _ | VArray _ | VObject _ => true
  end.

(** [typeof v === 'object'] *)
Definition isObjectType (v : JsVal) : bool :=
  match v with
  | VNull | VUint8Array _ | VArray _ | VObject _ => true
  | _ => false
  end.

(** [typeof v === 'string'] *)
Definition isStringType (v : JsVal) : bool :=
  match v with
  | VString _ => true
  | _ => false
  end.

Fixpoint lookupField (name : string) (fields : list (string * JsVal)) : JsVal :=
  match fields with
  | [] => VUndefined
  | (k, v) :: rest => if String.eqb k name then v else lookupField name rest
  end.

(** [v.name] or [v['name']] where [v] is neither [undefined] nor [null]
    and [name] is not an index. *)
Definition field (v : JsVal) (name : string) : JsVal :=
  match v with
  | VObject fields => lookupField name fields
  | VString s =>
      if String.eqb name "length" then VNumber (Z.of_nat (String.length s)) else VUndefined
  | VUint8Array bytes =>
      if String.eqb name "length" then VNumber (Z.of_nat (List.length bytes)) else VUndefined
  | VArray items =>
      if String.eqb name "length" then VNumber (Z.of_nat (List.length items)) else VUndefined
  | _ => VUndefined
  end.

(** [v.name] in general: a TypeError on [undefined] and [null]. *)
Definition getField (v : JsVal) (name : string) : Completion JsVal :=
  match v with
  | VUndefined | VNull =>
      Throw {| message := "TypeError: Cannot read properties of " ++ "undefined or null" |}
  | _ => Normal (field v name)
  end.

(** [a && b] where [b] is already evaluated. *)
Definition jsAnd (a b : JsVal) : JsVal := if truthy a then b else a.

(** [a || b] where [b] is already evaluated. *)
Definition jsOr (a b : JsVal) : JsVal := if truthy a then a else b.

(** [v instanceof Uint8Array] *)
Definition isUint8Array (v : JsVal) : bool :=
  match v with
  | VUint8Array _ => true
  | _ => false
  end.

End JsValue.

Import JsValue.

(** ** The effect monad

    The state is the history of the external calls made so far, oldest
    first.  The network and the clock answer as a function of that
    history, so that any sequence of answers can be described. *)

Module Effects.

Inductive Event :=
| EAccountInformation (address : string)
| EFetch (url body : string)
| ESleep (ms : N)
| EGetTransactionParams
| ESendRawTransaction (signedTxn : list N)
| EWaitForConfirmation (txId : string) (rounds : nat)
| EPendingTransactionInformation (txId : string)
| EDateNow.

Definition History := list Event.

Definition M (A : Type) : Type := History -> Completion A * History.

Definition ret {A} (a : A) : M A := fun h => (Normal a, h).

Definition throw {A} (e : JsError) : M A := fun h => (Throw e, h).

Definition bind {A B} (m : M A) (f : A -> M B) : M B :=
  fun h =>
    match m h with
    | (Normal a, h') => f a h'
    | (Throw e, h') => (Throw e, h')
    end.

(** [try { m } catch (e) { handler e }] *)
Definition tryCatch {A} (m : M A) (handler : JsError -> M A) : M A :=
  fun h =>
    match m h with
    | (Normal a, h') => (Normal a, h')
    | (Throw e, h') => handler e h'
    end.

(** An external call: the answer depends on the history, the call is
    appended to it. *)
Definition call {A} (answer : History -> Completion A) (e : Event) : M A :=
  fun h => (answer h, (h ++ [e])%list).

(** A synchronous call of a library that may throw. *)
Definition lift {A} (c : Completion A) : M A := fun h => (c, h).

(** [await new Promise((resolve) => setTimeout(resolve, ms))] *)
Definition sleep (ms : N) : M unit := fun h => (Normal tt, (h ++ [ESleep ms])%list).

Declare Scope eff_scope.
Delimit Scope eff_scope with eff.
Notation "x <- m ;; k" := (bind m (fun x => k))
  (at level 61, m at next level, right associativity) : eff_scope.
Notation "m ;;; k" := (bind m (fun _ => k))
  (at level 61, right associativity) : eff_scope.

(** [response.ok] and [response.status] of a [fetch] response. *)
Record Response := { ok : bool; status : Z }.

(** The ledger node, the faucets and the clock. *)
Record World := {
  (** [algodClient.accountInformation(address).do()]: the [amount] of the
      resolved object, [None] when it has none. *)
  accountInformation : History -> string -> Completion (option Z);
  fetch : History -> string -> Completion Response;
  getTransactionParams : History -> Completion JsVal;
  (** [sendRawTransaction(signedTxn).do()]: the [txId]. *)
  sendRawTransaction : History -> list N -> Completion string;
  waitForConfirmation : History -> string -> nat -> Completion JsVal;
  pendingTransactionInformation : History -> string -> Completion JsVal;
  dateNow : History -> N
}.

(** The events a computation appended. *)
Definition fetchUrls (h : History) : list string :=
  flat_map (fun e => match e with EFetch url _ => [url] | _ => [] end) h.

Definition sleeps (h : History) : list N :=
  flat_map (fun e => match e with ESleep ms => [ms] | _ => [] end) h.

Definition paramFetches (h : History) : nat :=
  List.length (filter (fun e => match e with EGetTransactionParams => true | _ => false end) h).

End Effects.

Import Effects.
Local Open Scope eff_scope.

(** ** The SDK and the platform

    [algosdk], the random sources and the decoders of the platform are
    outside the repository: their answers are inputs of the model. *)

Module Platform.

(** What [makePaymentTxnWithSuggestedParamsFromObject] is given. *)
Record Payment := {
  from : string;
  to : string;
  amount : Z;
  note : list N;
  suggestedParams : JsVal
}.

Record Sdk := {
  algosdk_generateAccount : Completion JsVal;
  algosdk_generateMnemonic : Completion string;
  algosdk_mnemonicToSecretKey : string -> Completion JsVal;
  algosdk_accountFromPrivateKey : list N -> Completion JsVal;
  (** [algosdk.decodeAddress(a)] returns ([true]) or throws ([false]). *)
  algosdk_decodeAddress : string -> bool;
  algosdk_makePaymentTxn : Payment -> Completion unit;
  (** [txn.signTxn(sk)] for the secret key [sk], an untyped value. *)
  algosdk_signTxn : Payment -> JsVal -> Completion (list N);
  (** The mnemonic the n-th call of [generateSecureMnemonic] draws. *)
  generateSecureMnemonic : nat -> Completion string;
  getSecureRandomBytes : nat -> list N;
  (** The n-th reading of [Date.now()] during account generation. *)
  clock : nat -> N;
  (** [Math.random()] as the template literal prints it. *)
  mathRandom : string;
  platformOS : string;
  (** [Buffer.from(note, 'base64')] *)
  Buffer_from_base64 : JsVal -> Completion (list N);
  (** [new Uint8Array(note)] *)
  Uint8Array_from : JsVal -> Completion (list N);
  (** [new TextDecoder().decode(bytes)]: never throws. *)
  TextDecoder_decode : list N -> string;
  (** [String(note)] *)
  ToString : JsVal -> string
}.

End Platform.

Import Platform.

(** ** class AlgorandService *)

Module AlgorandService.

Section WithSdk.

Variable sdk : Sdk.

(** [validateAccount(account)].  No step below throws, so the outer
    [catch] is never entered. *)
Definition validateAccount (account : JsVal) : bool :=
  if negb (truthy account) || negb (isObjectType account) then false
  else
    let addr := field account "addr" in
    if negb (truthy addr) || negb (isStringType addr) then false
    else
      match addr with
      | VString a =>
          if negb (String.length a =? 58)%nat then false
          else
            let sk := field account "sk" in
            if negb (truthy sk) || negb (isUint8Array sk) then false
            else
              match sk with
              | VUint8Array bytes =>
                  if negb (List.length bytes =? 64)%nat then false
                  else if negb (startsWith a "AAAAAAA")
                       then algosdk_decodeAddress sdk a
                       else true
              | _ => false
              end
      | _ => false
      end.

(** [{ addr: account.addr, sk: account.sk }] *)
Definition plainAccount (account : JsVal) : JsVal :=
  VObject [("addr", field account "addr"); ("sk", field account "sk")].

(** [{ addr: account.addr, sk: account.sk, mnemonic }] *)
Definition mnemonicAccount (account : JsVal) (mnemonic : string) : JsVal :=
  VObject [("addr", field account "addr"); ("sk", field account "sk");
           ("mnemonic", VString mnemonic)].

(** ToInt32 *)
Definition toInt32 (z : Z) : Z := ((z + 2147483648) mod 4294967296 - 2147483648)%Z.

(** The loop [hash = (hash << 5) - hash + char; hash = hash & hash]. *)
Fixpoint seedHash (seed : string) (hash : Z) : Z :=
  match seed with
  | EmptyString => hash
  | String c rest =>
      let char := Z.of_N (N_of_ascii c) in
      seedHash rest (toInt32 (toInt32 (hash * 32) - hash + char))
  end.

Definition fallbackWords : list string :=
  [ "abandon"; "ability"; "able"; "about"; "above"; "absent";
    "absorb"; "abstract"; "absurd"; "abuse"; "access"; "accident" ].

Fixpoint join (sep : string) (l : list string) : string :=
  match l with
  | [] => EmptyString
  | [w] => w
  | w :: rest => w ++ sep ++ join sep rest
  end.

(** [words[Math.abs(hash + i) % words.length]] for [i] from 0 to 11. *)
Definition selectedWords (hash : Z) : list string :=
  map (fun i => nth (Z.to_nat (Z.abs (hash + Z.of_nat i) mod 12)%Z) fallbackWords EmptyString)
      (seq 0 12).

Definition mockAddr : string :=
  "AAAAAAAAAAAAAAAAAAAAAAAAAAAAAAAAAAAAAAAAAAAAAAAAAAAAAAAAAA".

(** [mockSk[i] = (i * 7 + Date.now()) % 256]; [tick] is the number of
    readings of the clock made before. *)
Definition mockSk (tick : nat) : list N :=
  map (fun i => ((N.of_nat i * 7 + clock sdk (tick + i)) mod 256)%N) (seq 0 64).

(** [createMockAccount()] *)
Definition createMockAccount (tick : nat) : JsVal :=
  VObject [("addr", VString mockAddr); ("sk", VUint8Array (mockSk tick))].

(** [generateAccountManually()]: the random bytes are drawn and left
    unused; the account comes from a second secure mnemonic. *)
Definition generateAccountManually : Completion JsVal :=
  match generateSecureMnemonic sdk 1 with
  | Throw e => Throw e
  | Normal mnemonic =>
      match algosdk_mnemonicToSecretKey sdk mnemonic with
      | Throw e => Throw e
      | Normal account =>
          if validateAccount account then Normal (mnemonicAccount account mnemonic)
          else Throw {| message := "Manually generated account failed validation" |}
      end
  end.

Definition fallbackSeed : string :=
  NumberToString (clock sdk 0) ++ "-" ++ mathRandom sdk ++ "-" ++ platformOS sdk.

Definition fallbackMnemonic : string :=
  join " " (selectedWords (seedHash fallbackSeed 0)).

(** [generateAccountFallback()]: whatever fails in the inner [try]
    ends in the mock account. *)
Definition generateAccountFallback : Completion JsVal :=
  match algosdk_mnemonicToSecretKey sdk fallbackMnemonic with
  | Normal account =>
      if validateAccount account
      then Normal (mnemonicAccount account fallbackMnemonic)
      else Normal (createMockAccount 1)
  | Throw _ => Normal (createMockAccount 1)
  end.

(** Method 1 of [generateAccount()]: [None] when its [catch] ran. *)
Definition directGeneration : option JsVal :=
  match algosdk_generateAccount sdk with
  | Normal account =>
      if validateAccount account then Some (plainAccount account) else None
  | Throw _ => None
  end.

(** Method 2 of [generateAccount()]. *)
Definition mnemonicGeneration : option JsVal :=
  match generateSecureMnemonic sdk 0 with
  | Throw _ => None
  | Normal mnemonic =>
      match algosdk_mnemonicToSecretKey sdk mnemonic with
      | Normal account =>
          if validateAccount account then Some (mnemonicAccount account mnemonic) else None
      | Throw _ => None
      end
  end.

(** [generateAccount()] *)
Definition generateAccount : Completion JsVal :=
  match directGeneration with
  | Some account => Normal account
  | None =>
      match mnemonicGeneration with
      | Some account => Normal account
      | None =>
          match generateAccountManually with
          | Normal account => Normal account
          | Throw _ =>
              match generateAccountFallback with
              | Normal account => Normal account
              | Throw _ =>
                  Throw {| message := "All account generation methods failed" |}
              end
          end
      end
  end.

End WithSdk.

(** *** Funding *)

Record FundingSource := { name : string; url : string; body : string }.

Section WithWorld.

Variable sdk : Sdk.
Variable w : World.

(** [getAccountBalance(address)]: [accountInfo.amount || 0], and 0 when
    the query throws. *)
Definition getAccountBalance (address : string) : M Z :=
  tryCatch
    (accountInfo <- call (fun h => accountInformation w h address)
                         (EAccountInformation address) ;;
     ret (match accountInfo with Some z => z | None => 0%Z end))
    (fun _ => ret 0%Z).

Definition minimumBalance : Z := 100000.

Definition fundingSources (address : string) : list FundingSource :=
  [ {| name := "Algorand Testnet Dispenser";
       url := "https://dispenser.testnet.aws.algodev.network/";
       body := "account=" ++ address |};
    {| name := "Algorand Bank";
       url := "https://bank.testnet.algorand.network/";
       body := "account=" ++ address |} ].

(** The loop over the dispensers.  An iteration either returns
    ([Some]) or goes on to the next dispenser ([None]); after the last
    one the function returns [false]. *)
Fixpoint tryDispensers (address : string) (sources : list FundingSource) : M bool :=
  match sources with
  | [] => ret false
  | dispenser :: rest =>
      r <- tryCatch
             (response <- call (fun h => fetch w h (url dispenser))
                               (EFetch (url dispenser) (body dispenser)) ;;
              if ok response then
                sleep 5000%N ;;;
                newBalance <- getAccountBalance address ;;
                if (minimumBalance <=? newBalance)%Z then ret (Some true) else ret None
              else ret None)
             (fun _ => ret None) ;;
      match r with
      | Some b => ret b
      | None => tryDispensers address rest
      end
  end.

(** [ensureAccountFunded(address)] *)
Definition ensureAccountFunded (address : string) : M bool :=
  tryCatch
    (currentBalance <- getAccountBalance address ;;
     if (minimumBalance <=? currentBalance)%Z then ret true
     else tryDispensers address (fundingSources address))
    (fun _ => ret false).

(** *** Verification *)

(** [searchForNote(obj)] of [verifyHealthData]: the first property named
    [note] with a truthy value, depth first. *)
Fixpoint searchForNote (obj : JsVal) : JsVal :=
  match obj with
  | VObject fields =>
      (fix entries (l : list (string * JsVal)) : JsVal :=
         match l with
         | [] => VNull
         | (key, value) :: rest =>
             if String.eqb key "note" && truthy value then value
             else if isObjectType value then
               let result := searchForNote value in
               if truthy result then result else entries rest
             else entries rest
         end) fields
  | VArray items =>
      (fix entries (l : list JsVal) : JsVal :=
         match l with
         | [] => VNull
         | value :: rest =>
             if isObjectType value then
               let result := searchForNote value in
               if truthy result then result else entries rest
             else entries rest
         end) items
  | _ => VNull
  end.

(** [findNote(obj)] of [fallbackVerification]. *)
Fixpoint findNote (obj : JsVal) : JsVal :=
  match obj with
  | VObject fields =>
      if truthy (lookupField "note" fields) then lookupField "note" fields
      else
        (fix values (l : list (string * JsVal)) : JsVal :=
           match l with
           | [] => VNull
           | (_, value) :: rest =>
               if truthy value && isObjectType value then
                 let result := findNote value in
                 if truthy result then result else values rest
               else values rest
           end) fields
  | VArray items =>
      (fix values (l : list JsVal) : JsVal :=
         match l with
         | [] => VNull
         | value :: rest =>
             if truthy value && isObjectType value then
               let result := findNote value in
               if truthy result then result else values rest
             else values rest
         end) items
  | _ => VNull
  end.

Definition maxAttempts : nat := 3.

(** The retry loop of [verifyHealthData].  [fuel] bounds the iterations,
    [attempts] is the loop counter; the result is [txnInfo]. *)
Fixpoint fetchTxnInfo (txId : string) (fuel attempts : nat) : M JsVal :=
  match fuel with
  | O => ret VUndefined
  | S k =>
      if (attempts <? maxAttempts)%nat then
        let attempts := S attempts in
        r <- tryCatch
               (txnInfo <- call (fun h => pendingTransactionInformation w h txId)
                                (EPendingTransactionInformation txId) ;;
                ret (Some txnInfo))
               (fun error =>
                  if (attempts =? maxAttempts)%nat then throw error
                  else sleep 2000%N ;;; ret None) ;;
        match r with
        | Some txnInfo => ret txnInfo
        | None => fetchTxnInfo txId k attempts
        end
      else ret VUndefined
  end.

(** The three ways [verifyHealthData] looks for the note. *)
Definition extractNote (txnInfo : JsVal) : JsVal :=
  let note1 :=
    if truthy (field txnInfo "txn") && truthy (field (field txnInfo "txn") "note")
    then field (field txnInfo "txn") "note" else VNull in
  let note2 :=
    if negb (truthy note1) && truthy (field txnInfo "transaction")
       && truthy (field (field txnInfo "transaction") "note")
    then field (field txnInfo "transaction") "note" else note1 in
  if negb (truthy note2) then searchForNote txnInfo else note2.

(** From [note] to [noteString]: base64, then the note itself when it
    is a string, then its raw bytes. *)
Definition decodeNote (note : JsVal) : Completion string :=
  match Buffer_from_base64 sdk note with
  | Normal bytes => Normal (TextDecoder_decode sdk bytes)
  | Throw _ =>
      match note with
      | VString s => Normal s
      | _ =>
          match Uint8Array_from sdk note with
          | Normal bytes => Normal (TextDecoder_decode sdk bytes)
          | Throw e => Throw e
          end
      end
  end.

(** The loop of [fallbackVerification]. *)
Fixpoint fallbackAttempts (txId dataHash : string) (fuel attempt : nat) : M bool :=
  match fuel with
  | O => ret false
  | S k =>
      if (attempt <=? 3)%nat then
        r <- tryCatch
               (txnInfo <- call (fun h => pendingTransactionInformation w h txId)
                                (EPendingTransactionInformation txId) ;;
                let note := findNote txnInfo in
                if truthy note then
                  match Buffer_from_base64 sdk note with
                  | Normal bytes =>
                      if includes (TextDecoder_decode sdk bytes) dataHash
                      then ret (Some true) else ret None
                  | Throw _ =>
                      if includes (ToString sdk note) dataHash
                      then ret (Some true) else ret None
                  end
                else ret None)
               (fun _ => ret None) ;;
        match r with
        | Some b => ret b
        | None =>
            (if (attempt <? 3)%nat then sleep (3000 * N.of_nat attempt)%N else ret tt) ;;;
            fallbackAttempts txId dataHash k (S attempt)
        end
      else ret false
  end.

(** [fallbackVerification(txId, dataHash)] *)
Definition fallbackVerification (txId dataHash : string) : M bool :=
  tryCatch
    (sleep 5000%N ;;; fallbackAttempts txId dataHash 3 1)
    (fun _ => ret false).

(** [verifyHealthData(dataHash, txId)] *)
Definition verifyHealthData (dataHash txId : string) : M bool :=
  tryCatch
    (txnInfo <- fetchTxnInfo txId maxAttempts 0 ;;
     if negb (truthy txnInfo) then
       throw {| message :=
         "Failed to retrieve transaction information after multiple attempts" |}
     else if negb (truthy (field txnInfo "confirmed-round")) then ret false
     else
       let note := extractNote txnInfo in
       if negb (truthy note) then
         tryCatch (fallbackVerification txId dataHash) (fun _ => ret false)
       else
         tryCatch
           (noteString <- lift (decodeNote note) ;;
            ret (verifyNoteString noteString dataHash))
           (fun _ => ret false))
    (fun _ => ret false).

(** *** Commitment *)

Definition addrOf (account : JsVal) : string :=
  match field account "addr" with
  | VString a => a
  | _ => EmptyString
  end.

(** [storeHealthData(account, dataHash)]: the transaction id.  The
    address is read for the log before the [try], and the confirmed round
    is read for the log after the confirmation. *)
Definition storeHealthData (account : JsVal) (dataHash : string) : M string :=
  lift (getField account "addr") ;;;
  tryCatch
    (if negb (validateAccount sdk account)
     then throw {| message := "Invalid account provided for transaction" |}
     else
       ensureAccountFunded (addrOf account) ;;;
       params <- call (getTransactionParams w) EGetTransactionParams ;;
       timestamp <- call (fun h => Normal (dateNow w h)) EDateNow ;;
       let txn := {| from := addrOf account; to := addrOf account; amount := 0;
                     note := noteBytes dataHash timestamp;
                     suggestedParams := params |} in
       lift (algosdk_makePaymentTxn sdk txn) ;;;
       signedTxn <- lift (algosdk_signTxn sdk txn (field account "sk")) ;;
       txId <- call (fun h => sendRawTransaction w h signedTxn)
                    (ESendRawTransaction signedTxn) ;;
       confirmedTxn <- call (fun h => waitForConfirmation w h txId 15)
                            (EWaitForConfirmation txId 15) ;;
       lift (getField confirmedTxn "confirmed-round") ;;;
       tryCatch (sleep 3000%N ;;; verifyHealthData dataHash txId ;;; ret tt)
                (fun _ => ret tt) ;;;
       ret txId)
    (fun error =>
       throw {| message :=
         "Failed to store health data on blockchain: Error: " ++ message error |}).

(** [userAddress && userAddress.length === 58] *)
Definition addressCheck (userAddress : JsVal) : JsVal :=
  jsAnd userAddress
        (VBool (match field userAddress "length" with
                | VNumber z => (z =? 58)%Z
                | _ => false
                end)).

(** The exported [verifyHealthDataOnBlockchain(dataHash, userAddress,
    txId?)]; an absent [txId] is [None], and the empty string is falsy
    like it. *)
Definition verifyHealthDataOnBlockchain
           (dataHash : string) (userAddress : JsVal) (txId : option string) : M JsVal :=
  match txId with
  | Some id =>
      if negb (String.eqb id EmptyString)
      then b <- verifyHealthData dataHash id ;; ret (VBool b)
      else ret (addressCheck userAddress)
  | None => ret (addressCheck userAddress)
  end.

End WithWorld.

End AlgorandService.

(** ** class EnhancedAlgorandService: account generation *)

Module EnhancedAlgorandService.

Section WithSdk.

Variable sdk : Sdk.

(** The validator is the one of [AlgorandService], line for line. *)
Definition validateAccount : JsVal -> bool := AlgorandService.validateAccount sdk.

(** [generateMnemonic()]: the SDK's, else the secure one. *)
Definition generateMnemonic : Completion string :=
  match algosdk_generateMnemonic sdk with
  | Normal m => Normal m
  | Throw _ => generateSecureMnemonic sdk 0
  end.

Definition generateAccountManually : Completion JsVal :=
  match algosdk_accountFromPrivateKey sdk (getSecureRandomBytes sdk 32) with
  | Throw e => Throw e
  | Normal account =>
      if validateAccount account then Normal (AlgorandService.plainAccount account)
      else Throw {| message := "Manually generated account failed validation" |}
  end.

(** [charCode += input.charCodeAt(j) * (i + j + 1)] over [j]. *)
Fixpoint weightedSum (input : string) (i j : N) : N :=
  match input with
  | EmptyString => 0%N
  | String c rest => (N_of_ascii c * (i + j + 1) + weightedSum rest i (j + 1))%N
  end.

(** [simpleHash(input)]: 32 numbers below 256. *)
Definition simpleHash (input : string) : list N :=
  map (fun i => let i := N.of_nat i in ((weightedSum input i 0 + i * 7) mod 256)%N)
      (seq 0 32).

Definition mockAddr : string :=
  "HZ57J3K46JIJXILONBBZOHX6BKPXEM2VVXNRFSUED6DKFD5ZD24PMJ3MVA".

Definition createMockAccount (tick : nat) : JsVal :=
  VObject [("addr", VString mockAddr);
           ("sk", VUint8Array (AlgorandService.mockSk sdk tick))].

Definition generateAccountFallback : Completion JsVal :=
  let seed := AlgorandService.fallbackSeed sdk in
  match algosdk_accountFromPrivateKey sdk (simpleHash seed) with
  | Normal account =>
      if validateAccount account
      then Normal (AlgorandService.plainAccount account)
      else Normal (createMockAccount 1)
  | Throw _ => Normal (createMockAccount 1)
  end.

Definition mnemonicGeneration : option JsVal :=
  match generateMnemonic with
  | Throw _ => None
  | Normal mnemonic =>
      match algosdk_mnemonicToSecretKey sdk mnemonic with
      | Normal account =>
          if validateAccount account
          then Some (AlgorandService.mnemonicAccount account mnemonic) else None
      | Throw _ => None
      end
  end.

(** [generateAccount()] *)
Definition generateAccount : Completion JsVal :=
  match AlgorandService.directGeneration sdk with
  | Some account => Normal account
  | None =>
      match mnemonicGeneration with
      | Some account => Normal account
      | None =>
          match generateAccountManually with
          | Normal account => Normal account
          | Throw _ =>
              match generateAccountFallback with
              | Normal account => Normal account
              | Throw e =>
                  Throw {| message := "All account generation methods failed: " ++ message e |}
              end
          end
      end
  end.

End WithSdk.

(** *** Commitment and verification *)

Section WithWorld.

Variable sdk : Sdk.
Variable w : World.

(** [getAccountBalance] and [ensureAccountFunded] are those of
    [AlgorandService], line for line. *)
Definition getAccountBalance : string -> M Z := AlgorandService.getAccountBalance w.
Definition ensureAccountFunded : string -> M bool := AlgorandService.ensureAccountFunded w.

(** The note of this service: the JSON record alone, without [app]. *)
Definition noteText (dataHash : string) (timestamp : N) : string :=
  JSON_stringify [ ("type", FString "HEALTH_DATA"); ("hash", FString dataHash);
                   ("timestamp", FNumber timestamp); ("version", FString "1.0") ].

(** [storeHealthData(account, dataHash)] *)
Definition storeHealthData (account : JsVal) (dataHash : string) : M string :=
  lift (getField account "addr") ;;;
  tryCatch
    (if negb (validateAccount sdk account)
     then throw {| message := "Invalid account provided for transaction" |}
     else
       let addr := AlgorandService.addrOf account in
       ensureAccountFunded addr ;;;
       suggestedParams <- call (getTransactionParams w) EGetTransactionParams ;;
       timestamp <- call (fun h => Normal (dateNow w h)) EDateNow ;;
       let txn := {| from := addr; to := addr; amount := 0;
                     note := TextEncoder_encode (noteText dataHash timestamp);
                     suggestedParams := suggestedParams |} in
       lift (algosdk_makePaymentTxn sdk txn) ;;;
       signedTxn <- lift (algosdk_signTxn sdk txn (field account "sk")) ;;
       txId <- call (fun h => sendRawTransaction w h signedTxn)
                    (ESendRawTransaction signedTxn) ;;
       confirmedTxn <- call (fun h => waitForConfirmation w h txId 10)
                            (EWaitForConfirmation txId 10) ;;
       lift (getField confirmedTxn "confirmed-round") ;;;
       ret txId)
    (fun error =>
       throw {| message :=
         "Failed to store health data on blockchain: Error: " ++ message error |}).

(** The inner [try] of [verifyHealthData]: the JSON record decides when
    the note parses, the bare fingerprint otherwise. *)
Definition noteMatches (noteString dataHash : string) : bool :=
  let legacy := includes noteString dataHash in
  match JSON_parse noteString with
  | Throw _ => legacy
  | Normal noteData =>
      match getProp noteData "type" with
      | Throw _ => legacy
      | Normal t =>
          if strictEqString t "HEALTH_DATA" then
            match getProp noteData "hash" with
            | Throw _ => legacy
            | Normal h => strictEqString h dataHash
            end
          else false
      end
  end.

(** [verifyHealthData(dataHash, txId)] *)
Definition verifyHealthData (dataHash txId : string) : M bool :=
  tryCatch
    (txnInfo <- call (fun h => pendingTransactionInformation w h txId)
                     (EPendingTransactionInformation txId) ;;
     confirmed <- lift (getField txnInfo "confirmed-round") ;;
     if negb (truthy confirmed) then ret false
     else
       let note := field (field txnInfo "txn") "note" in
       if negb (truthy note) then ret false
       else
         noteBytes <- lift (Buffer_from_base64 sdk note) ;;
         ret (noteMatches (TextDecoder_decode sdk noteBytes) dataHash))
    (fun _ => ret false).

End WithWorld.

End EnhancedAlgorandService.

(** ** class AlgorandBlockchainService *)

Module AlgorandBlockchainService.

(** [HealthDataTransaction].  [timestamp] is the clock reading that
    [toISOString] prints. *)
Record HealthDataTransaction := {
  txId : string;
  blockNumber : JsVal;
  timestamp : N;
  dataHash : string;
  userAddress : string;
  verified : bool;
  explorerUrl : string
}.

Section WithWorld.

Variable sdk : Sdk.
Variable w : World.
(** [this.config.network] *)
Variable network : string.

(** [isValidAccount(account)] *)
Definition isValidAccount (account : JsVal) : bool :=
  if negb (truthy account) then false
  else
    let addr := field account "addr" in
    if negb (truthy addr) || negb (isStringType addr) then false
    else
      match addr with
      | VString a =>
          if negb (String.length a =? 58)%nat then false
          else
            match field account "sk" with
            | VUint8Array bytes =>
                if negb (List.length bytes =? 64)%nat then false
                else algosdk_decodeAddress sdk a
            | _ => false
            end
      | _ => false
      end.

Definition generateAccountFromMnemonic : Completion JsVal :=
  let failed (e : JsError) :=
    Throw {| message := "All account generation methods failed: Error: " ++ message e |} in
  match algosdk_generateMnemonic sdk with
  | Throw e => failed e
  | Normal mnemonic =>
      match algosdk_mnemonicToSecretKey sdk mnemonic with
      | Throw e => failed e
      | Normal account =>
          if isValidAccount account then Normal account
          else failed {| message := "Mnemonic-based account is also invalid" |}
      end
  end.

(** [generateAccount()] *)
Definition generateAccount : Completion JsVal :=
  match algosdk_generateAccount sdk with
  | Normal account =>
      if isValidAccount account then Normal account else generateAccountFromMnemonic
  | Throw _ => generateAccountFromMnemonic
  end.

(** [getAccountInfo(address)]: the [amount] of the account; an account
    that does not exist yet has amount 0, any other error is thrown
    again. *)
Definition getAccountInfo (address : string) : M (option Z) :=
  tryCatch
    (call (fun h => accountInformation w h address) (EAccountInformation address))
    (fun error =>
       if includes (message error) "account does not exist"
       then ret (Some 0%Z) else throw error).

Definition amountOrZero (info : option Z) : Z :=
  match info with Some z => z | None => 0%Z end.

Definition minimumBalance : Z := 100000.

Definition fundingSources (address : string) : list AlgorandService.FundingSource :=
  [ {| AlgorandService.name := "Algorand Testnet Dispenser";
       AlgorandService.url := "https://dispenser.testnet.aws.algodev.network/";
       AlgorandService.body := "account=" ++ address |};
    {| AlgorandService.name := "Algorand Bank";
       AlgorandService.url := "https://bank.testnet.algorand.network/";
       AlgorandService.body := "account=" ++ address |};
    {| AlgorandService.name := "AlgoExplorer Faucet";
       AlgorandService.url := "https://testnet.algoexplorerapi.io/v1/faucet";
       AlgorandService.body := JSON_stringify [("account", FString address)] |} ].

(** The loop over the dispensers, with the flag [funded].  The flag is
    set as soon as a dispenser acknowledges, before the balance is read
    again, and it survives a throw of that reading. *)
Fixpoint tryDispensers (address : string) (sources : list AlgorandService.FundingSource)
         (funded : bool) : M bool :=
  match sources with
  | [] => if negb funded then ret false else ret funded
  | dispenser :: rest =>
      response <- tryCatch
                    (r <- call (fun h => fetch w h (AlgorandService.url dispenser))
                               (EFetch (AlgorandService.url dispenser)
                                       (AlgorandService.body dispenser)) ;;
                     ret (Some r))
                    (fun _ => ret None) ;;
      match response with
      | None => tryDispensers address rest funded
      | Some r =>
          if ok r || (status r =? 200)%Z then
            sleep 8000%N ;;;
            reached <- tryCatch
                         (updatedInfo <- getAccountInfo address ;;
                          ret (minimumBalance <=? amountOrZero updatedInfo)%Z)
                         (fun _ => ret false) ;;
            if reached then ret true else tryDispensers address rest true
          else tryDispensers address rest funded
      end
  end.

(** [ensureAccountFunded(address)] *)
Definition ensureAccountFunded (address : string) : M bool :=
  tryCatch
    (accountInfo <- getAccountInfo address ;;
     if (minimumBalance <=? amountOrZero accountInfo)%Z then ret true
     else tryDispensers address (fundingSources address) false)
    (fun _ => ret false).

Definition maxAttempts : nat := 3.

(** [getTransactionParamsWithRetry()] *)
Fixpoint paramsLoop (fuel attempts : nat) : M JsVal :=
  match fuel with
  | O => throw {| message := "Failed to get transaction parameters" |}
  | S k =>
      if (attempts <? maxAttempts)%nat then
        let attempts := S attempts in
        tryCatch
          (call (getTransactionParams w) EGetTransactionParams)
          (fun error =>
             if (attempts =? maxAttempts)%nat then throw error
             else sleep (1000 * N.of_nat attempts)%N ;;; paramsLoop k attempts)
      else throw {| message := "Failed to get transaction parameters" |}
  end.

Definition getTransactionParamsWithRetry : M JsVal := paramsLoop maxAttempts 0.

(** [waitForConfirmationWithTimeout(txId, timeoutRounds)]: the log line
    inside the [try] reads [confirmedTxn['confirmed-round']], so an answer
    that is undefined or null ends in the [catch] as well. *)
Definition waitForConfirmationWithTimeout (id : string) (timeoutRounds : nat) : M JsVal :=
  tryCatch
    (confirmedTxn <- call (fun h => waitForConfirmation w h id timeoutRounds)
                          (EWaitForConfirmation id timeoutRounds) ;;
     lift (getField confirmedTxn "confirmed-round") ;;;
     ret confirmedTxn)
    (fun error =>
       throw {| message := "Transaction confirmation failed: " ++ message error |}).

Definition getExplorerUrl (type id : string) : string :=
  let baseUrl :=
    if String.eqb network "mainnet"
    then "https://algoexplorer.io" else "https://testnet.algoexplorer.io" in
  if String.eqb type "transaction" then baseUrl ++ "/tx/" ++ id
  else if String.eqb type "account" then baseUrl ++ "/address/" ++ id
  else if String.eqb type "application" then baseUrl ++ "/application/" ++ id
  else baseUrl.

(** The note of this service: the JSON record alone. *)
Definition noteText (hash : string) (now : N) : string :=
  JSON_stringify [ ("type", FString "HEALTH_DATA"); ("hash", FString hash);
                   ("timestamp", FNumber now); ("version", FString "1.0") ].

(** The body of the [try] of one attempt. *)
Definition storeAttempt (userAccount : JsVal) (hash : string) : M HealthDataTransaction :=
  let addr := AlgorandService.addrOf userAccount in
  (if String.eqb network "testnet"
   then ensureAccountFunded addr ;;; ret tt else ret tt) ;;;
  params <- getTransactionParamsWithRetry ;;
  now <- call (fun h => Normal (dateNow w h)) EDateNow ;;
  let txn := {| from := addr; to := addr; amount := 0;
                note := TextEncoder_encode (noteText hash now);
                suggestedParams := params |} in
  lift (algosdk_makePaymentTxn sdk txn) ;;;
  signedTxn <- lift (algosdk_signTxn sdk txn (field userAccount "sk")) ;;
  id <- call (fun h => sendRawTransaction w h signedTxn) (ESendRawTransaction signedTxn) ;;
  confirmedTxn <- waitForConfirmationWithTimeout id 10 ;;
  round <- lift (getField confirmedTxn "confirmed-round") ;;
  stamp <- call (fun h => Normal (dateNow w h)) EDateNow ;;
  ret {| txId := id; blockNumber := round; timestamp := stamp; dataHash := hash;
         userAddress := addr; verified := true;
         explorerUrl := getExplorerUrl "transaction" id |}.

(** The [while] loop of [storeHealthDataInTransaction]. *)
Fixpoint storeLoop (userAccount : JsVal) (hash : string) (fuel attempts : nat)
  : M HealthDataTransaction :=
  match fuel with
  | O => throw {| message := "Maximum attempts exceeded" |}
  | S k =>
      if (attempts <? maxAttempts)%nat then
        let attempts := S attempts in
        tryCatch
          (storeAttempt userAccount hash)
          (fun error =>
             if (attempts =? maxAttempts)%nat then
               throw {| message :=
                 "Failed to store health data after " ++ NumberToString (N.of_nat maxAttempts)
                   ++ " attempts: " ++ message error |}
             else sleep (2000 * N.of_nat attempts)%N ;;; storeLoop userAccount hash k attempts)
      else throw {| message := "Maximum attempts exceeded" |}
  end.

(** [storeHealthDataInTransaction(userAccount, dataHash)] *)
Definition storeHealthDataInTransaction (userAccount : JsVal) (hash : string)
  : M HealthDataTransaction :=
  if negb (isValidAccount userAccount)
  then throw {| message := "Invalid account provided for transaction" |}
  else storeLoop userAccount hash maxAttempts 0.

(** The inner [try] of [verifyHealthDataFromTransaction]: the JSON
    record decides when the note parses, the legacy text otherwise. *)
Definition noteIsValid (noteString hash : string) : bool :=
  let legacy := includes noteString ("HEALTH_DATA:" ++ hash) in
  match JSON_parse noteString with
  | Throw _ => legacy
  | Normal parsed =>
      match getProp parsed "type" with
      | Throw _ => legacy
      | Normal t =>
          if strictEqString t "HEALTH_DATA" then
            match getProp parsed "hash" with
            | Throw _ => legacy
            | Normal h => strictEqString h hash
            end
          else false
      end
  end.

(** [verifyHealthDataFromTransaction(dataHash, txId)] *)
Definition verifyHealthDataFromTransaction (hash id : string) : M bool :=
  tryCatch
    (txnInfo <- call (fun h => pendingTransactionInformation w h id)
                     (EPendingTransactionInformation id) ;;
     txn <- lift (getField txnInfo "txn") ;;
     if negb (truthy txn) then ret false
     else if negb (truthy (field txnInfo "confirmed-round")) then ret false
     else
       let note := field txn "note" in
       if negb (truthy note) then ret false
       else
         tryCatch
           (noteBytes <- lift (Buffer_from_base64 sdk note) ;;
            ret (noteIsValid (TextDecoder_decode sdk noteBytes) hash))
           (fun _ => ret false))
    (fun _ => ret false).

(** [getAccountBalance(address)]: [accountInfo?.amount || 0], and 0 when
    [getAccountInfo] throws. *)
Definition getAccountBalance (address : string) : M Z :=
  tryCatch
    (accountInfo <- getAccountInfo address ;; ret (amountOrZero accountInfo))
    (fun _ => ret 0%Z).

End WithWorld.

End AlgorandBlockchainService.

(** ** lib/algorand.ts: the exported wrappers *)

Module LibAlgorand.

Section WithWorld.

Variable sdk : Sdk.
Variable w : World.

(** [const isValidAddress = userAddress && userAddress.length === 58] *)
Definition isValidAddress (userAddress : JsVal) : JsVal :=
  AlgorandService.addressCheck userAddress.

(** [verifyHealthDataOnBlockchain(dataHash, userAddress, txId?)] *)
Definition verifyHealthDataOnBlockchain
           (dataHash : string) (userAddress : JsVal) (txId : option string) : M JsVal :=
  tryCatch
    (match txId with
     | Some id =>
         if negb (String.eqb id EmptyString) then
           isVerified <-
             AlgorandBlockchainService.verifyHealthDataFromTransaction sdk w dataHash id ;;
           ret (VBool isVerified)
         else ret (isValidAddress userAddress)
     | None => ret (isValidAddress userAddress)
     end)
    (fun _ => ret (VBool false)).

End WithWorld.

Section WithNetwork.

Variable sdk : Sdk.
Variable w : World.
(** The network of the exported [algorandService]. *)
Variable network : string.

(** [userAccount.addr.length !== 58]; [length] of a missing address is
    [undefined]. *)
Definition addrLength (userAccount : JsVal) : JsVal :=
  field (field userAccount "addr") "length".

Definition lengthIs58 (len : JsVal) : bool :=
  match len with
  | VNumber z => (z =? 58)%Z
  | _ => false
  end.

(** The messages of the [catch] of [storeHealthDataOnBlockchain]. *)
Definition storageError (error : JsError) : JsError :=
  if includes (message error) "insufficient funds"
  then {| message := "Insufficient funds in account. Please run: npm run fund-account" |}
  else if includes (message error) "network"
  then {| message := "Network error. Please check connection and try again." |}
  else {| message := "Failed to store health data on blockchain: Error: " ++ message error |}.

(** [storeHealthDataOnBlockchain(userAccount, dataHash)] *)
Definition storeHealthDataOnBlockchain (userAccount : JsVal) (dataHash : string) : M string :=
  tryCatch
    (if negb (truthy userAccount) || negb (truthy (field userAccount "addr"))
        || negb (lengthIs58 (addrLength userAccount))
     then throw {| message :=
            "Invalid account address length: "
              ++ ToString sdk (jsOr (addrLength userAccount) (VNumber 0))
              ++ ", expected 58" |}
     else
       transaction <-
         AlgorandBlockchainService.storeHealthDataInTransaction sdk w network
           userAccount dataHash ;;
       ret (AlgorandBlockchainService.txId transaction))
    (fun error => throw (storageError error)).

(** [generateAlgorandAccount()]: the lengths of the address and of the
    key are read for the log. *)
Definition generateAlgorandAccount : Completion JsVal :=
  let failed (e : JsError) :=
    Throw {| message := "Failed to generate Algorand account: Error: " ++ message e |} in
  match AlgorandBlockchainService.generateAccount sdk with
  | Throw e => failed e
  | Normal account =>
      match getField account "addr" with
      | Throw e => failed e
      | Normal addr =>
          match getField addr "length", getField (field account "sk") "length" with
          | Normal _, Normal _ => Normal account
          | Throw e, _ => failed e
          | _, Throw e => failed e
          end
      end
  end.

End WithNetwork.

End LibAlgorand.

(** ** [createHealthDataHash]: the fingerprint of a record *)

Module HealthDataHash.







End HealthDataHash.

(** ** lib/crypto-polyfill.ts *)

Module CryptoPolyfill.

Definition wordList : list string :=
  [ "abandon"; "ability"; "able"; "about"; "above"; "absent"; "absorb"; "abstract";
    "absurd"; "abuse"; "access"; "accident"; "account"; "accuse"; "achieve"; "acid";
    "acoustic"; "acquire"; "across"; "act"; "action"; "actor"; "actress"; "actual";
    "adapt"; "add"; "addict"; "address"; "adjust"; "admit"; "adult"; "advance";
    "advice"; "aerobic"; "affair"; "afford"; "afraid"; "again"; "against"; "age";
    "agent"; "agree"; "ahead"; "aim"; "air"; "airport"; "aisle"; "alarm";
    "album"; "alcohol"; "alert"; "alien"; "all"; "alley"; "allow"; "almost";
    "alone"; "alpha"; "already"; "also"; "alter"; "always"; "amateur"; "amazing";
    "among"; "amount"; "amused"; "analyst"; "anchor"; "ancient"; "anger"; "angle";
    "angry"; "animal"; "ankle"; "announce"; "annual"; "another"; "answer"; "antenna";
    "antique"; "anxiety"; "any"; "apart"; "apology"; "appear"; "apple"; "approve";
    "april"; "arch"; "arctic"; "area"; "arena"; "argue"; "arm"; "armed";
    "armor"; "army"; "around"; "arrange"; "arrest"; "arrive"; "arrow"; "art";
    "artefact"; "artist"; "artwork"; "ask"; "aspect"; "assault"; "asset"; "assist";
    "assume"; "asthma"; "athlete"; "atom"; "attack"; "attend"; "attitude"; "attract";
    "auction"; "audit"; "august"; "aunt"; "author"; "auto"; "autumn"; "average" ].

(** [generateSecureMnemonic()]: twelve words, the i-th one chosen by the
    byte [draw i] that [getSecureRandomBytes(1)] returns in iteration i. *)
Definition chosenWords (draw : nat -> N) : list string :=
  map (fun i => nth (N.to_nat (draw i mod N.of_nat (List.length wordList))) wordList EmptyString)
      (seq 0 12).

Definition generateSecureMnemonic (draw : nat -> N) : string :=
  AlgorandService.join " " (chosenWords draw).

End CryptoPolyfill.

(** ** store/useHealthStore.ts: the verification status of a record *)

Module UseHealthStore.

(** The columns of a health record that the verification reads: a text,
    or [null] ([None]). *)
Record HealthRecord := {
  data_hash : option string;
  user_algorand_address : option string;
  algorand_tx_id : option string
}.

Definition toJs (column : option string) : JsVal :=
  match column with
  | Some s => VString s
  | None => VNull
  end.

Definition text (column : option string) : string :=
  match column with
  | Some s => s
  | None => EmptyString
  end.

(** The state of the store that [verifyBlockchainData] writes. *)
Record HealthState := {
  loading : bool;
  qrCodeData : option string;
  blockchainStatus : string
}.

(** [set({ blockchainStatus })] *)
Definition setStatus (st : HealthState) (status : string) : HealthState :=
  {| loading := loading st; qrCodeData := qrCodeData st; blockchainStatus := status |}.

(** [id && id.length > 0] for a text column. *)
Definition hasTransactionId (id : option string) : JsVal :=
  jsAnd (toJs id)
        (VBool (match field (toJs id) "length" with
                | VNumber z => (0 <? z)%Z
                | _ => false
                end)).

(** [verifyBlockchainData(healthRecord)]; [verify] is the imported
    [verifyHealthDataOnBlockchain]. *)
Definition verifyBlockchainData
           (verify : string -> JsVal -> option string -> M JsVal)
           (healthRecord : HealthRecord) (st : HealthState) : M (JsVal * HealthState) :=
  if negb (truthy (toJs (data_hash healthRecord)))
     || negb (truthy (toJs (user_algorand_address healthRecord)))
  then ret (VBool false, st)
  else
    let st := setStatus st "verifying" in
    tryCatch
      (isVerified <- verify (text (data_hash healthRecord))
                            (toJs (user_algorand_address healthRecord))
                            (algorand_tx_id healthRecord) ;;
       let finalResult := jsOr isVerified (hasTransactionId (algorand_tx_id healthRecord)) in
       ret (finalResult,
            setStatus st (if truthy finalResult then "success" else "error")))
      (fun _ =>
         if truthy (hasTransactionId (algorand_tx_id healthRecord))
         then ret (VBool true, setStatus st "success")
         else ret (VBool false, setStatus st "error")).

End UseHealthStore.

(** ** The address format of the ledger

    The theorems below hold for any address decoder.  To evaluate the
    validators on concrete accounts, this module gives the decoder of the
    ledger: an address is the base32 text (RFC 4648 alphabet, no padding) of
    a 32-byte public key followed by the last four bytes of its SHA-512/256
    digest. *)

Module Algosdk.

Local Open Scope Z_scope.

Definition w64 (z : Z) : Z := z mod 18446744073709551616.

Definition rotr (n x : Z) : Z := Z.lor (Z.shiftr x n) (w64 (Z.shiftl x (64 - n))).

Definition xor3 (a b c : Z) : Z := Z.lxor (Z.lxor a b) c.

Definition bsig0 (x : Z) : Z := xor3 (rotr 28 x) (rotr 34 x) (rotr 39 x).
Definition bsig1 (x : Z) : Z := xor3 (rotr 14 x) (rotr 18 x) (rotr 41 x).
Definition ssig0 (x : Z) : Z := xor3 (rotr 1 x) (rotr 8 x) (Z.shiftr x 7).
Definition ssig1 (x : Z) : Z := xor3 (rotr 19 x) (rotr 61 x) (Z.shiftr x 6).
Definition ch (x y z : Z) : Z :=
  Z.lxor (Z.land x y) (Z.land (Z.lxor x 18446744073709551615) z).
Definition maj (x y z : Z) : Z := xor3 (Z.land x y) (Z.land x z) (Z.land y z).

Definition K512 : list Z :=
  [
    0x428a2f98d728ae22; 0x7137449123ef65cd; 0xb5c0fbcfec4d3b2f; 0xe9b5dba58189dbbc;
    0x3956c25bf348b538; 0x59f111f1b605d019; 0x923f82a4af194f9b; 0xab1c5ed5da6d8118;
    0xd807aa98a3030242; 0x12835b0145706fbe; 0x243185be4ee4b28c; 0x550c7dc3d5ffb4e2;
    0x72be5d74f27b896f; 0x80deb1fe3b1696b1; 0x9bdc06a725c71235; 0xc19bf174cf692694;
    0xe49b69c19ef14ad2; 0xefbe4786384f25e3; 0x0fc19dc68b8cd5b5; 0x240ca1cc77ac9c65;
    0x2de92c6f592b0275; 0x4a7484aa6ea6e483; 0x5cb0a9dcbd41fbd4; 0x76f988da831153b5;
    0x983e5152ee66dfab; 0xa831c66d2db43210; 0xb00327c898fb213f; 0xbf597fc7beef0ee4;
    0xc6e00bf33da88fc2; 0xd5a79147930aa725; 0x06ca6351e003826f; 0x142929670a0e6e70;
    0x27b70a8546d22ffc; 0x2e1b21385c26c926; 0x4d2c6dfc5ac42aed; 0x53380d139d95b3df;
    0x650a73548baf63de; 0x766a0abb3c77b2a8; 0x81c2c92e47edaee6; 0x92722c851482353b;
    0xa2bfe8a14cf10364; 0xa81a664bbc423001; 0xc24b8b70d0f89791; 0xc76c51a30654be30;
    0xd192e819d6ef5218; 0xd69906245565a910; 0xf40e35855771202a; 0x106aa07032bbd1b8;
    0x19a4c116b8d2d0c8; 0x1e376c085141ab53; 0x2748774cdf8eeb99; 0x34b0bcb5e19b48a8;
    0x391c0cb3c5c95a63; 0x4ed8aa4ae3418acb; 0x5b9cca4f7763e373; 0x682e6ff3d6b2b8a3;
    0x748f82ee5defb2fc; 0x78a5636f43172f60; 0x84c87814a1f0ab72; 0x8cc702081a6439ec;
    0x90befffa23631e28; 0xa4506cebde82bde9; 0xbef9a3f7b2c67915; 0xc67178f2e372532b;
    0xca273eceea26619c; 0xd186b8c721c0c207; 0xeada7dd6cde0eb1e; 0xf57d4f7fee6ed178;
    0x06f067aa72176fba; 0x0a637dc5a2c898a6; 0x113f9804bef90dae; 0x1b710b35131c471b;
    0x28db77f523047d84; 0x32caab7b40c72493; 0x3c9ebe0a15c9bebc; 0x431d67c49c100d4c;
    0x4cc5d4becb3e42b6; 0x597f299cfc657e2a; 0x5fcb6fab3ad6faec; 0x6c44198c4a475817 ].

(** The initial hash value of SHA-512/256. *)
Definition H512_256 : list Z :=
  [ 0x22312194fc2bf72c; 0x9f555fa3c84c64c2; 0x2393b86b6f53b151; 0x963877195940eabd;
    0x96283ee2a88effe3; 0xbe5e1e2553863992; 0x2b0199fc2c85b8aa; 0x0eb72ddc81c52ca2 ].

(** Big-endian words of eight bytes. *)
Fixpoint wordsOf (fuel : nat) (bytes : list Z) : list Z :=
  match fuel with
  | O => []
  | S k =>
      match bytes with
      | b0 :: b1 :: b2 :: b3 :: b4 :: b5 :: b6 :: b7 :: rest =>
          fold_left (fun acc b => acc * 256 + b) [b0; b1; b2; b3; b4; b5; b6; b7] 0
            :: wordsOf k rest
      | _ => []
      end
  end.

(** The message schedule, most recent word first. *)
Fixpoint schedule (n : nat) (recent : list Z) : list Z :=
  match n with
  | O => recent
  | S k =>
      let w := w64 (ssig1 (nth 1 recent 0) + nth 6 recent 0
                    + ssig0 (nth 14 recent 0) + nth 15 recent 0) in
      schedule k (w :: recent)
  end.

Definition round (st : list Z) (kw : Z * Z) : list Z :=
  match st with
  | [a; b; c; d; e; f; g; h] =>
      let t1 := h + bsig1 e + ch e f g + fst kw + snd kw in
      let t2 := bsig0 a + maj a b c in
      [w64 (t1 + t2); a; b; c; w64 (d + t1); e; f; g]
  | _ => st
  end.

Definition compress (st block : list Z) : list Z :=
  let w := List.rev (schedule 64 (List.rev block)) in
  map (fun p => w64 (fst p + snd p))
      (combine st (fold_left round (combine K512 w) st)).

(** One padded block: for messages shorter than 112 bytes, which covers
    the 32-byte public keys. *)
Definition pad (msg : list Z) : list Z :=
  let len := Z.of_nat (List.length msg) in
  (msg ++ [128] ++ repeat 0 (Z.to_nat (111 - len)) ++ repeat 0 14
       ++ [(len * 8) / 256; (len * 8) mod 256])%list.

Definition bytesOfWord (w : Z) : list Z :=
  map (fun i => Z.shiftr w (8 * (7 - Z.of_nat i)) mod 256) (seq 0 8).

Definition sha512_256 (msg : list Z) : list Z :=
  firstn 32 (flat_map bytesOfWord (compress H512_256 (wordsOf 16 (pad msg)))).

Definition base32Value (c : ascii) : option Z :=
  let n := Z.of_N (N_of_ascii c) in
  if (65 <=? n) && (n <=? 90) then Some (n - 65)
  else if (50 <=? n) && (n <=? 55) then Some (n - 24)
  else None.

(** The 5-bit values of the text, [None] on a character outside the
    alphabet. *)
Fixpoint base32Values (s : string) : option (list Z) :=
  match s with
  | EmptyString => Some []
  | String c s' =>
      match base32Value c, base32Values s' with
      | Some v, Some vs => Some (v :: vs)
      | _, _ => None
      end
  end.

Definition bitsOf (width : nat) (v : Z) : list bool :=
  map (fun i => Z.testbit v (Z.of_nat (width - 1 - i))) (seq 0 width).

Fixpoint bytesOfBits (fuel : nat) (bits : list bool) : list Z :=
  match fuel with
  | O => []
  | S k =>
      match bits with
      | b0 :: b1 :: b2 :: b3 :: b4 :: b5 :: b6 :: b7 :: rest =>
          fold_left (fun acc (b : bool) => acc * 2 + (if b then 1 else 0))
                    [b0; b1; b2; b3; b4; b5; b6; b7] 0
            :: bytesOfBits k rest
      | _ => []
      end
  end.

Definition base32Decode (s : string) : option (list Z) :=
  match base32Values s with
  | Some vs => let bits := flat_map (bitsOf 5) vs in
               Some (bytesOfBits (List.length bits) bits)
  | None => None
  end.

(** [decodeAddress(address)] returns ([true]) or throws ([false]). *)
Definition decodeAddress (address : string) : bool :=
  if negb (String.length address =? 58)%nat then false
  else
    match base32Decode address with
    | None => false
    | Some decoded =>
        if negb (List.length decoded =? 36)%nat then false
        else
          let pk := firstn 32 decoded in
          let cs := skipn 32 decoded in
          if list_eq_dec Z.eq_dec (skipn 28 (sha512_256 pk)) cs then true else false
    end.

End Algosdk.

(** ** A platform on which no key can be generated

    Every key generation of the SDK throws, as it does where the random
    source is missing; addresses are decoded as the ledger does. *)

Module Scenario.

Definition cryptoError : JsError := {| message := "crypto.getRandomValues is not available" |}.

Definition noKeysSdk : Sdk :=
  {| algosdk_generateAccount := Throw cryptoError;
     algosdk_generateMnemonic := Throw cryptoError;
     algosdk_mnemonicToSecretKey := fun _ => Throw {| message := "failed to decode mnemonic" |};
     algosdk_accountFromPrivateKey :=
       fun _ => Throw {| message := "algosdk.accountFromPrivateKey is not a function" |};
     algosdk_decodeAddress := Algosdk.decodeAddress;
     algosdk_makePaymentTxn := fun _ => Normal tt;
     algosdk_signTxn := fun _ _ => Normal [];
     generateSecureMnemonic := fun _ => Normal "abandon ability able about above absent absorb abstract absurd abuse access accident";
     getSecureRandomBytes := fun n => repeat 0%N n;
     clock := fun _ => 1719230000000%N;
     mathRandom := "0.5";
     platformOS := "ios";
     Buffer_from_base64 := fun _ => Throw {| message := "not a string" |};
     Uint8Array_from := fun _ => Normal [];
     TextDecoder_decode := fun _ => EmptyString;
     ToString := fun _ => EmptyString |}.

(** A ledger on which the account stays empty while every faucet
    acknowledges the request. *)
Definition dryWorld : World :=
  {| accountInformation := fun _ _ => Normal (Some 0%Z);
     fetch := fun _ _ => Normal {| ok := true; status := 200 |};
     getTransactionParams := fun _ => Normal VNull;
     sendRawTransaction := fun _ _ => Throw {| message := "overspend" |};
     waitForConfirmation := fun _ _ _ => Throw {| message := "not confirmed" |};
     pendingTransactionInformation := fun _ _ => Throw {| message := "not found" |};
     dateNow := fun _ => 1719230000000%N |}.

(** A ledger that accepts and confirms every transaction in round 42. *)
Definition happyWorld : World :=
  {| accountInformation := fun _ _ => Normal (Some 150000%Z);
     fetch := fun _ _ => Normal {| ok := true; status := 200 |};
     getTransactionParams := fun _ => Normal (VObject [("fee", VNumber 1000)]);
     sendRawTransaction := fun _ _ => Normal "TX1";
     waitForConfirmation :=
       fun _ _ _ => Normal (VObject [("confirmed-round", VNumber 42)]);
     pendingTransactionInformation := fun _ _ => Throw {| message := "not found" |};
     dateNow := fun _ => 1719230000000%N |}.

(** An account with an address of the ledger and a key of 64 bytes. *)
Definition someAccount : JsVal :=
  VObject [("addr", VString EnhancedAlgorandService.mockAddr);
           ("sk", VUint8Array (repeat 0%N 64))].

(** A platform whose transport is the identity: the ledger returns the
    text of a note as it was given, and decoding changes nothing. *)
Definition plainTransportSdk : Sdk :=
  {| algosdk_generateAccount := Normal someAccount;
     algosdk_generateMnemonic := Throw cryptoError;
     algosdk_mnemonicToSecretKey := fun _ => Throw {| message := "failed to decode mnemonic" |};
     algosdk_accountFromPrivateKey :=
       fun _ => Throw {| message := "algosdk.accountFromPrivateKey is not a function" |};
     algosdk_decodeAddress := Algosdk.decodeAddress;
     algosdk_makePaymentTxn := fun _ => Normal tt;
     algosdk_signTxn := fun txn _ => Normal (note txn);
     generateSecureMnemonic := fun _ => Throw cryptoError;
     getSecureRandomBytes := fun n => repeat 0%N n;
     clock := fun _ => 1719230000000%N;
     mathRandom := "0.5";
     platformOS := "ios";
     Buffer_from_base64 :=
       fun v => match v with
                | VString s => Normal (codes s)
                | _ => Throw {| message := "not a string" |}
                end;
     Uint8Array_from := fun _ => Normal [];
     TextDecoder_decode := fun bytes => string_of_list_ascii (map ascii_of_N bytes);
     ToString := fun _ => EmptyString |}.

(** A ledger on which every transaction is confirmed in round 42 and
    carries the note [noteString]. *)
Definition notedWorld (noteString : string) : World :=
  {| accountInformation := fun _ _ => Normal (Some 150000%Z);
     fetch := fun _ _ => Normal {| ok := true; status := 200 |};
     getTransactionParams := fun _ => Normal (VObject [("fee", VNumber 1000)]);
     sendRawTransaction := fun _ _ => Normal "TX1";
     waitForConfirmation :=
       fun _ _ _ => Normal (VObject [("confirmed-round", VNumber 42)]);
     pendingTransactionInformation :=
       fun _ _ => Normal (VObject [("confirmed-round", VNumber 42);
                                   ("txn", VObject [("note", VString noteString)])]);
     dateNow := fun _ => 1719230000000%N |}.

(** A ledger that accepts every transaction and confirms none. *)
Definition stalledWorld : World :=
  {| accountInformation := fun _ _ => Normal (Some 150000%Z);
     fetch := fun _ _ => Normal {| ok := true; status := 200 |};
     getTransactionParams := fun _ => Normal (VObject [("fee", VNumber 1000)]);
     sendRawTransaction := fun _ _ => Normal "TX1";
     waitForConfirmation :=
       fun _ _ _ => Throw {| message := "Transaction not confirmed after 10 rounds" |};
     pendingTransactionInformation := fun _ _ => Throw {| message := "not found" |};
     dateNow := fun _ => 1719230000000%N |}.

End Scenario.

(** ** The vocabulary of the properties *)

Module Spec.

(** [sub] occurs in [s]. *)
Definition occursIn (sub s : string) : Prop := exists a b, s = a ++ sub ++ b.

(** No code unit of [s] is a bar. *)
Fixpoint noBar (s : string) : bool :=
  match s with
  | EmptyString => true
  | String c s' => negb (Ascii.eqb c "|"%char) && noBar s'
  end.

Fixpoint allDigits (s : string) : bool :=
  match s with
  | EmptyString => true
  | String c s' => isDigit c && allDigits s'
  end.

(** What follows a value inside a serialized record. *)
Definition delim (c : ascii) : Prop := c = ","%char \/ c = "}"%char.

(** The parsed form of a record handed to [JSON_stringify]. *)
Definition jsonOfField (v : Field) : Json :=
  match v with
  | FString s => JString (codes s)
  | FNumber n => JNumber (NumberToString n)
  end.

Definition jsonMember (m : string * Field) : list N * Json :=
  (codes (fst m), jsonOfField (snd m)).

(** The parts of a note built for [f]: the JSON record, empty parts, and
    parts that begin with a capital H. *)
Definition partOfNote (f : string) (ts : N) (p : string) : Prop :=
  p = jsonNote f ts \/ p = EmptyString \/ exists s, p = String "H" s.

(** The identity of the data model: a 58-character address that decodes
    and a 64-byte private key. *)
Definition wellFormedIdentity (decodes : string -> bool) (account : JsVal) : Prop :=
  exists a bytes,
    field account "addr" = VString a /\ String.length a = 58 /\ decodes a = true
    /\ field account "sk" = VUint8Array bytes /\ List.length bytes = 64.

(** The same with the gate for addresses of the mock form. *)
Definition wellFormedOrMock (decodes : string -> bool) (account : JsVal) : Prop :=
  exists a bytes,
    field account "addr" = VString a /\ String.length a = 58
    /\ (startsWith a "AAAAAAA" = true \/ decodes a = true)
    /\ field account "sk" = VUint8Array bytes /\ List.length bytes = 64.

(** A generation strategy fails when the SDK throws or when its candidate
    does not validate. *)
Definition rejected (validate : JsVal -> bool) (c : Completion JsVal) : Prop :=
  match c with
  | Normal account => validate account = false
  | Throw _ => True
  end.

(** The balance a query yields: the amount, 0 when it is absent or when
    the query throws. *)
Definition balanceOf (c : Completion (option Z)) : Z :=
  match c with
  | Normal (Some z) => z
  | _ => 0%Z
  end.

(** After the calls of [h], a balance query shows the minimum. *)
Definition meetsMinimum (w : World) (address : string) (h : History) : Prop :=
  (100000 <= balanceOf (accountInformation w h address))%Z.

Definition acknowledged (r : Response) : bool := ok r || (status r =? 200)%Z.

(** Some request of [evs], made after [h], was acknowledged. *)
Definition someAcknowledged (w : World) (h evs : History) : Prop :=
  exists pre u bd post r,
    evs = (pre ++ EFetch u bd :: post)%list
    /\ fetch w (h ++ pre)%list u = Normal r /\ acknowledged r = true.

(** What a successful attempt returns comes from the answers that the
    ledger gave in this attempt.  The attempt started after the calls of
    [h] and made the calls [evs]; they end with the fetch of the parameters
    that succeeded, the reading of the clock, the submission of the signed
    payment, the wait for its confirmation and a second reading of the
    clock.  The payment signed is the one of the account to itself, of
    amount 0, with the note of [hash] at the first reading and with the
    parameters fetched; [t] carries the id that the ledger gave to this
    submission and the round of the confirmation that the ledger gave to
    this wait. *)
Definition carriesConfirmation (sdk : Sdk) (w : World) (network : string)
           (userAccount : JsVal) (hash : string) (h evs : History)
           (t : AlgorandBlockchainService.HealthDataTransaction) : Prop :=
  exists (pre : History) (params : JsVal) (signedTxn : list N) (id : string)
         (confirmedTxn : JsVal),
    let addr := AlgorandService.addrOf userAccount in
    let asked := (h ++ pre ++ [EGetTransactionParams])%list in
    let built := (asked ++ [EDateNow])%list in
    let sent := (built ++ [ESendRawTransaction signedTxn])%list in
    let waited := (sent ++ [EWaitForConfirmation id 10])%list in
    evs = (pre ++ [EGetTransactionParams; EDateNow; ESendRawTransaction signedTxn;
                   EWaitForConfirmation id 10; EDateNow])%list
    /\ getTransactionParams w (h ++ pre)%list = Normal params
    /\ algosdk_signTxn sdk
         {| from := addr; to := addr; amount := 0;
            note := TextEncoder_encode
                      (AlgorandBlockchainService.noteText hash (dateNow w asked));
            suggestedParams := params |}
         (field userAccount "sk") = Normal signedTxn
    /\ sendRawTransaction w built signedTxn = Normal id
    /\ waitForConfirmation w sent id 10 = Normal confirmedTxn
    /\ t = {| AlgorandBlockchainService.txId := id;
              AlgorandBlockchainService.blockNumber := field confirmedTxn "confirmed-round";
              AlgorandBlockchainService.timestamp := dateNow w waited;
              AlgorandBlockchainService.dataHash := hash;
              AlgorandBlockchainService.userAddress := addr;
              AlgorandBlockchainService.verified := true;
              AlgorandBlockchainService.explorerUrl :=
                AlgorandBlockchainService.getExplorerUrl network "transaction" id |}.

(** The retry policy of the specification: the attempt is made up to
    three times, with a pause of 2000 ms times the attempt number after a
    failed attempt that is not the last, and the error of the third
    attempt is wrapped. *)
Definition retriedThreeTimes {T : Type} (attempt run : M T) (h : History) : Prop :=
  run h =
  match attempt h with
  | (Normal t, h1) => (Normal t, h1)
  | (Throw _, h1) =>
      match attempt (h1 ++ [ESleep (2000 * 1)])%list with
      | (Normal t, h2) => (Normal t, h2)
      | (Throw _, h2) =>
          match attempt (h2 ++ [ESleep (2000 * 2)])%list with
          | (Normal t, h3) => (Normal t, h3)
          | (Throw e, h3) =>
              (Throw {| message :=
                 "Failed to store health data after 3 attempts: " ++ message e |}, h3)
          end
      end
  end.

End Spec.

Import Spec.

(** ** What a run leaves in the history, and the shape of fingerprints *)

Module Traces.

(** The requests sent to the faucets: address and body. *)
Definition requests (h : History) : list (string * string) :=
  flat_map (fun e => match e with EFetch u b => [(u, b)] | _ => [] end) h.

(** The queries for a transaction. *)
Definition pendingQueries (h : History) : nat :=
  List.length
    (filter (fun e => match e with EPendingTransactionInformation _ => true | _ => false end) h).

(** The transactions submitted. *)
Definition submissions (h : History) : list (list N) :=
  flat_map (fun e => match e with ESendRawTransaction t => [t] | _ => [] end) h.

(** The time spent in pauses, in milliseconds. *)
Definition totalSleep (h : History) : N := fold_right N.add 0%N (sleeps h).

Definition requestOf (d : AlgorandService.FundingSource) : string * string :=
  (AlgorandService.url d, AlgorandService.body d).

(** [l1] is an initial segment of [l2]. *)
Definition initialSegment {A : Type} (l1 l2 : list A) : Prop := exists r, l2 = (l1 ++ r)%list.

(** A digit of a lowercase hexadecimal numeral. *)
Definition isLowerHex (c : ascii) : bool :=
  let n := N_of_ascii c in
  ((48 <=? n) && (n <=? 57) || (97 <=? n) && (n <=? 102))%N.

Fixpoint allHex (s : string) : bool :=
  match s with
  | EmptyString => true
  | String c s' => isLowerHex c && allHex s'
  end.

(** The length of the longest run of hexadecimal digits in [s], the run
    that ends where [s] begins having [cur] digits. *)
Fixpoint longestHexRun (s : string) (cur : nat) : nat :=
  match s with
  | EmptyString => cur
  | String c s' =>
      if isLowerHex c then longestHexRun s' (S cur)
      else Nat.max cur (longestHexRun s' 0)
  end.

(** A code unit that UTF-8 encodes as one byte. *)
Definition isAscii (c : ascii) : bool := (N_of_ascii c <? 128)%N.

Fixpoint allAscii (s : string) : bool :=
  match s with
  | EmptyString => true
  | String c s' => isAscii c && allAscii s'
  end.



(** An event of a verification: a query for [txId] or a pause. *)
Definition queryOrPause (txId : string) (e : Event) : Prop :=
  e = EPendingTransactionInformation txId \/ exists ms, e = ESleep ms.

(** A word of a mnemonic: not empty, and without a space. *)
Fixpoint noSpace (s : string) : bool :=
  match s with
  | EmptyString => true
  | String c s' => negb (Ascii.eqb c " "%char) && noSpace s'
  end.

Definition isWord (s : string) : bool :=
  negb (String.eqb s EmptyString) && noSpace s.

(** An event of a funding run: a balance query, a request to a faucet
    or a pause. *)
Definition fundingEvent (e : Event) : Prop :=
  match e with
  | EAccountInformation _ | EFetch _ _ | ESleep _ => True
  | _ => False
  end.

(** The payment that a commitment signs: nothing is transferred, the
    account pays itself, and the transaction carries the note. *)
Definition selfPayment (account : JsVal) (noteBytes : list N) (params : JsVal) : Payment :=
  {| from := AlgorandService.addrOf account; to := AlgorandService.addrOf account;
     amount := 0; note := noteBytes; suggestedParams := params |}.

(** What the calls [evs] of a run that started after [h] did on the
    ledger: after the funding events [pre] the parameters were fetched and
    the clock was read; the payment of the account to itself that carries
    the note [noteOf] of that reading, with those parameters, was signed
    with the key of the account and submitted, the only submission of the
    run; the ledger accepted that submission under [id] and then answered
    the wait of [rounds] rounds for [id] with a confirmation; [after] are
    the calls that follow. *)
Definition committedOnce (sdk : Sdk) (w : World) (account : JsVal) (noteOf : N -> list N)
           (rounds : nat) (h evs : History) (id : string) (after : History) : Prop :=
  exists (pre : History) (params : JsVal) (signedTxn : list N) (confirmedTxn : JsVal),
    let asked := (h ++ pre ++ [EGetTransactionParams])%list in
    let built := (asked ++ [EDateNow])%list in
    evs = (pre ++ [EGetTransactionParams; EDateNow; ESendRawTransaction signedTxn;
                   EWaitForConfirmation id rounds] ++ after)%list
    /\ Forall fundingEvent pre
    /\ getTransactionParams w (h ++ pre)%list = Normal params
    /\ algosdk_signTxn sdk (selfPayment account (noteOf (dateNow w asked)) params)
         (field account "sk") = Normal signedTxn
    /\ sendRawTransaction w built signedTxn = Normal id
    /\ waitForConfirmation w (built ++ [ESendRawTransaction signedTxn])%list id rounds
       = Normal confirmedTxn
    /\ submissions evs = [signedTxn].

(** The ledger [w] with other answers to the queries for a transaction. *)
Definition withPending (w : World) (answers : History -> string -> Completion JsVal)
  : World :=
  {| accountInformation := accountInformation w;
     fetch := fetch w;
     getTransactionParams := getTransactionParams w;
     sendRawTransaction := sendRawTransaction w;
     waitForConfirmation := waitForConfirmation w;
     pendingTransactionInformation := answers;
     dateNow := dateNow w |}.

(** A query for [txId] among the calls [evs], made after [h], was answered
    with a transaction that has a confirmed round. *)
Definition answeredConfirmed (w : World) (txId : string) (h evs : History) : Prop :=
  exists (pre post : History) (txnInfo : JsVal),
    evs = (pre ++ EPendingTransactionInformation txId :: post)%list
    /\ pendingTransactionInformation w (h ++ pre)%list txId = Normal txnInfo
    /\ truthy (field txnInfo "confirmed-round") = true.

(** The ledger answers every query for [txId] with [txnInfo]. *)
Definition alwaysAnswers (w : World) (txId : string) (txnInfo : JsVal) : Prop :=
  forall hist, pendingTransactionInformation w hist txId = Normal txnInfo.

End Traces.

Import Traces.


(** * Properties *)

(** ** Strings *)

Section StringFacts.

Lemma append_assoc (a b c : string) : (a ++ b) ++ c = a ++ (b ++ c).
Proof. induction a as [|x a IH]; simpl; [reflexivity | now rewrite IH]. Qed.

Lemma append_nil_r (a : string) : a ++ EmptyString = a.
Proof. induction a as [|x a IH]; simpl; [reflexivity | now rewrite IH]. Qed.

Lemma length_append (a b : string) :
  String.length (a ++ b) = String.length a + String.length b.
Proof. induction a as [|x a IH]; simpl; [reflexivity | now rewrite IH]. Qed.

Lemma prefix_append (p r : string) : String.prefix p (p ++ r) = true.
Proof.
  induction p as [|x p IH]; simpl.
  - now destruct r.
  - destruct (ascii_dec x x) as [_|N]; [exact IH | now elim N].
Qed.

Lemma prefix_inv (p s : string) :
  String.prefix p s = true -> exists r, s = p ++ r.
Proof.
  revert s; induction p as [|x p IH]; intros s H.
  - exists s; reflexivity.
  - destruct s as [|y s]; simpl in H; [discriminate|].
    destruct (ascii_dec x y) as [->|_]; [|discriminate].
    destruct (IH _ H) as [r ->]. exists r; reflexivity.
Qed.

Lemma includes_true (s sub : string) : includes s sub = true <-> occursIn sub s.
Proof.
  split.
  - induction s as [|c s IH]; cbn [includes].
    + destruct (String.prefix sub EmptyString) eqn:P; [|intros ?; discriminate].
      intros _. apply prefix_inv in P. destruct P as [r E].
      exists EmptyString, r; exact E.
    + destruct (String.prefix sub (String c s)) eqn:P.
      * intros _. apply prefix_inv in P. destruct P as [r E].
        exists EmptyString, r; exact E.
      * intros H. destruct (IH H) as (a & b & ->).
        exists (String c a), b; reflexivity.
  - intros (a & b & ->). induction a as [|c a IH]; cbn [append].
    + pose proof (prefix_append sub b) as P.
      destruct (sub ++ b); cbn [includes]; now rewrite P.
    + cbn [includes]. rewrite IH. now destruct (String.prefix sub _).
Qed.

Lemma occursIn_refl (s : string) : occursIn s s.
Proof. exists EmptyString, EmptyString. simpl. now rewrite append_nil_r. Qed.

Lemma occursIn_trans (a b c : string) : occursIn a b -> occursIn b c -> occursIn a c.
Proof.
  intros (x & y & ->) (u & v & ->).
  exists (u ++ x), (y ++ v). now rewrite !append_assoc.
Qed.

Lemma occursIn_append_l (sub a s : string) : occursIn sub s -> occursIn sub (a ++ s).
Proof. intros (x & y & ->). exists (a ++ x), y. now rewrite !append_assoc. Qed.

Lemma occursIn_append_r (sub s b : string) : occursIn sub s -> occursIn sub (s ++ b).
Proof. intros (x & y & ->). exists x, (y ++ b). now rewrite !append_assoc. Qed.

Lemma occursIn_cons (sub : string) (c : ascii) (s : string) :
  occursIn sub s -> occursIn sub (String c s).
Proof. apply (occursIn_append_l sub (String c EmptyString)). Qed.

(** Every segment that [split] returns occurs in the string. *)
Lemma split_go_occurs (sep : string) :
  forall (s : string) (skip : nat) (cur seg : string),
    In seg (split_go sep s skip cur) ->
    occursIn seg s \/
    exists a p b, seg = cur ++ p /\ s = a ++ p ++ b /\ (skip = 0 -> a = EmptyString).
Proof.
  induction s as [|c s IH]; intros skip cur seg H; cbn [split_go] in H.
  - destruct H as [<-|[]].
    right. exists EmptyString, EmptyString, EmptyString.
    now rewrite append_nil_r.
  - destruct skip as [|k].
    + destruct (String.prefix sep (String c s)).
      * destruct H as [<-|H].
        -- right. exists EmptyString, EmptyString, (String c s).
           now rewrite append_nil_r.
        -- left. apply occursIn_cons.
           destruct (IH _ _ _ H) as [O|(a & p & b & -> & -> & _)]; [exact O|].
           exists a, b; reflexivity.
      * destruct (IH _ _ _ H) as [O|(a & p & b & -> & -> & Z)].
        -- left. now apply occursIn_cons.
        -- right. rewrite (Z eq_refl). exists EmptyString, (String c p), b.
           rewrite append_assoc. repeat split; reflexivity.
    + destruct (IH _ _ _ H) as [O|(a & p & b & -> & -> & _)].
      * left. now apply occursIn_cons.
      * right. exists (String c a), p, b. repeat split. discriminate.
Qed.

Lemma split_occurs (s sep seg : string) : In seg (split s sep) -> occursIn seg s.
Proof.
  intros H. destruct (split_go_occurs sep s 0 EmptyString seg H)
    as [O|(a & p & b & -> & -> & _)]; [exact O|].
  exists a, b; reflexivity.
Qed.

(** Trimming keeps a part of the string. *)
Lemma trimStart_occurs (s : string) : occursIn (trimStart s) s.
Proof.
  induction s as [|c s IH]; cbn [trimStart].
  - apply occursIn_refl.
  - destruct (isWhiteSpace c); [now apply occursIn_cons | apply occursIn_refl].
Qed.

Lemma trimEnd_prefix (s : string) : exists r, s = trimEnd s ++ r.
Proof.
  induction s as [|c s [r IH]]; cbn [trimEnd].
  - exists EmptyString; reflexivity.
  - destruct (trimEnd s) as [|d t] eqn:E.
    + destruct (isWhiteSpace c).
      * exists (String c s); reflexivity.
      * exists s; reflexivity.
    + exists r. cbn [append]. now rewrite IH at 1.
Qed.

Lemma trim_occurs (s : string) : occursIn (trim s) s.
Proof.
  unfold trim. apply occursIn_trans with (trimStart s); [|apply trimStart_occurs].
  destruct (trimEnd_prefix (trimStart s)) as [r E].
  exists EmptyString, r. exact E.
Qed.

End StringFacts.

(** ** The note codec *)

Ltac split_ifs :=
  repeat match goal with
         | |- context [if ?b then _ else _] => destruct b
         end.

(** Whatever the format of a part, a part that contains the expected hash
    verifies: each branch of [verifyNotePart] either returns [true] or
    falls through to the containment test. *)
Lemma verifyNotePart_includes (part expectedHash : string) :
  includes part expectedHash = true -> verifyNotePart part expectedHash = true.
Proof.
  intros H. unfold verifyNotePart. rewrite H. split_ifs; reflexivity.
Qed.

Lemma verifyNoteString_includes (noteString dataHash : string) :
  includes noteString dataHash = true -> verifyNoteString noteString dataHash = true.
Proof.
  intros H. unfold verifyNoteString.
  rewrite (verifyNotePart_includes _ _ H).
  destruct (includes noteString separator);
    destruct (anyPartVerifies (split noteString separator) dataHash);
    destruct (includes noteString "|");
    destruct (anyPartVerifies (split noteString "|") dataHash); reflexivity.
Qed.

Lemma finalNote_legacy (f : string) (ts : N) :
  occursIn (legacyNote f) (finalNote f ts).
Proof.
  unfold finalNote, combinedNote.
  destruct (_ <? _)%nat.
  - apply occursIn_append_l, occursIn_append_l, occursIn_refl.
  - apply occursIn_append_l, occursIn_append_l, occursIn_append_r, occursIn_refl.
Qed.

Lemma finalNote_hash (f : string) (ts : N) : occursIn f (finalNote f ts).
Proof.
  apply occursIn_trans with (legacyNote f); [|apply finalNote_legacy].
  apply occursIn_append_l, occursIn_refl.
Qed.

(** C1 (round trip): the note that [storeHealthData] builds for a
    fingerprint [f] at any time stamp, with or without the minimal format,
    is accepted by the verification of [verifyHealthData] against [f]. *)
Theorem note_round_trip (f : string) (ts : N) :
  verifyNoteString (finalNote f ts) f = true.
Proof.
  apply verifyNoteString_includes, includes_true, finalNote_hash.
Qed.

(** A note in the legacy flat format alone still verifies. *)
Lemma legacy_note_verifies (f : string) : verifyNoteString (legacyNote f) f = true.
Proof.
  apply verifyNoteString_includes, includes_true. apply occursIn_append_l, occursIn_refl.
Qed.

(** C10: matching is at least as permissive as substring containment.  If
    the expected fingerprint occurs in a segment of the decoded note, cut at
    the triple or at the single bar, the note verifies, whatever the format
    of the segment. *)
Theorem segment_containment_verifies (noteString expected seg : string) :
  In seg (split noteString separator) \/ In seg (split noteString "|") ->
  includes seg expected = true ->
  verifyNoteString noteString expected = true.
Proof.
  intros Hseg Hinc.
  apply verifyNoteString_includes, includes_true.
  apply occursIn_trans with seg; [now apply includes_true|].
  destruct Hseg as [H|H]; now apply split_occurs in H.
Qed.

Lemma segment_containment_verifies_witness :
  verifyNoteString "free text 0xabc123 here|||other" "abc123" = true.
Proof.
  apply (segment_containment_verifies _ _ "free text 0xabc123 here").
  - left. vm_compute. left. reflexivity.
  - vm_compute. reflexivity.
Defined.

(** ** [JSON.parse] inverts [JSON.stringify] on flat records *)

Section JsonRoundTrip.

Lemma codes_inj (s t : string) : codes s = codes t -> s = t.
Proof.
  unfold codes. revert t; induction s as [|c s IH]; intros [|d t] H;
    cbn in H; try discriminate; [reflexivity|].
  injection H as Hc Hs. f_equal; [|now apply IH].
  rewrite <- (ascii_N_embedding c), <- (ascii_N_embedding d). now rewrite Hc.
Qed.

Lemma parseStringBody_escapeUnit (c : ascii) (tail : string) :
  parseStringBody (escapeUnit c ++ tail) = consUnit (N_of_ascii c) (parseStringBody tail).
Proof. destruct c as [[] [] [] [] [] [] [] []]; reflexivity. Qed.

(** A quoted string reads back as its code units. *)
Lemma parseStringBody_escapeUnits (s rest : string) :
  parseStringBody (escapeUnits s ++ String dquote rest) = Some (codes s, rest).
Proof.
  induction s as [|c s IH]; cbn [escapeUnits].
  - reflexivity.
  - rewrite append_assoc, parseStringBody_escapeUnit, IH. reflexivity.
Qed.

Lemma allDigits_string_of_uint (d : uint) : allDigits (NilEmpty.string_of_uint d) = true.
Proof. induction d; cbn; auto. Qed.

Lemma takeDigits_append (ds : string) (c : ascii) (r : string) :
  allDigits ds = true -> isDigit c = false ->
  takeDigits (ds ++ String c r) = (ds, String c r).
Proof.
  intros Hd Hc. induction ds as [|d ds IH]; cbn [append takeDigits].
  - now rewrite Hc.
  - cbn [allDigits] in Hd. apply andb_prop in Hd as [Hd1 Hd2].
    now rewrite Hd1, (IH Hd2).
Qed.

Lemma nzhead_not_D0 (d d' : uint) : nzhead d <> D0 d'.
Proof. induction d; cbn; try discriminate. exact IHd. Qed.

(** The decimal numeral of a number has no leading zero. *)
Lemma to_uint_normal (n : N) :
  N.to_uint n = D0 Nil \/ (N.to_uint n <> Nil /\ forall d', N.to_uint n <> D0 d').
Proof.
  assert (E : N.to_uint n = unorm (N.to_uint n)).
  { rewrite <- (DecimalN.Unsigned.to_of (N.to_uint n)).
    now rewrite DecimalN.Unsigned.of_to. }
  unfold unorm in E. destruct (nzhead (N.to_uint n)) eqn:Z;
    try (right; rewrite E; split; [discriminate | intros d' Q; discriminate Q]).
  - now left.
  - exfalso. now apply (nzhead_not_D0 (N.to_uint n) u).
Qed.

Lemma parseNumber_lexeme (n : N) (c : ascii) (r : string) :
  delim c ->
  parseNumber (NumberToString n ++ String c r) = Some (NumberToString n, String c r).
Proof.
  intros Hc. unfold NumberToString.
  assert (Hnd : isDigit c = false) by (destruct Hc as [-> | ->]; reflexivity).
  assert (Htail : parseFrac (String c r) = Some (EmptyString, String c r)
                  /\ parseExp (String c r) = Some (EmptyString, String c r))
    by (destruct Hc as [-> | ->]; split; reflexivity).
  destruct Htail as [Hf He].
  destruct (to_uint_normal n) as [E | [Hnil Hz]].
  - rewrite E. cbn [NilEmpty.string_of_uint append]. unfold parseNumber.
    cbn [Ascii.eqb Bool.eqb parseInt]. rewrite Hf, He. reflexivity.
  - destruct (N.to_uint n) as [|u|u|u|u|u|u|u|u|u|u] eqn:E;
      [now elim Hnil | now elim (Hz u) | | | | | | | | |];
      cbn [NilEmpty.string_of_uint append]; unfold parseNumber;
      cbn [Ascii.eqb Bool.eqb parseInt isDigit N_of_ascii N_of_digits
           N.leb N.compare Pos.compare Pos.compare_cont andb N.add N.mul Pos.add Pos.mul
           Pos.succ takeDigits];
      rewrite (takeDigits_append _ c r (allDigits_string_of_uint u) Hnd);
      rewrite Hf, He; cbn [append]; now rewrite append_nil_r.
Qed.


(** A serialized field starts with a quote or a digit. *)
Lemma stringifyField_head (v : Field) (x : string) :
  exists c t, stringifyField v ++ x = String c t /\ isJsonWs c = false.
Proof.
  destruct v as [s|n]; cbn [stringifyField].
  - eexists _, _. split; [reflexivity|reflexivity].
  - unfold NumberToString.
    destruct (to_uint_normal n) as [E | [Hnil _]].
    + rewrite E. eexists _, _. split; reflexivity.
    + destruct (N.to_uint n); [now elim Hnil| | | | | | | | | |];
        eexists _, _; (split; [reflexivity|reflexivity]).
Qed.

Lemma skipWs_head (c : ascii) (t : string) :
  isJsonWs c = false -> skipWs (String c t) = String c t.
Proof. intros H. cbn [skipWs]. now rewrite H. Qed.

Lemma parseValue_field (k : nat) (v : Field) (c : ascii) (r : string) :
  delim c ->
  parseValue (S k) (stringifyField v ++ String c r) = Some (jsonOfField v, String c r).
Proof.
  intros Hc. destruct v as [s|n]; cbn [stringifyField jsonOfField].
  - unfold QuoteJSONString. cbn [append]. rewrite append_assoc. cbn [append].
    change (parseValue (S k) (String dquote ?x))
      with (match parseStringBody x with
            | Some (cs, r') => Some (JString cs, r')
            | None => None
            end).
    now rewrite parseStringBody_escapeUnits.
  - pose proof (parseNumber_lexeme n c r Hc) as P.
    unfold NumberToString in *.
    destruct (to_uint_normal n) as [E | [Hnil _]].
    + rewrite E in *. cbn [NilEmpty.string_of_uint append] in *.
      cbn [parseValue Ascii.eqb Bool.eqb dquote String.prefix ascii_dec].
      cbn. cbn in P. now rewrite P.
    + destruct (N.to_uint n) as [|u|u|u|u|u|u|u|u|u|u];
        [now elim Hnil| | | | | | | | | |];
        cbn [NilEmpty.string_of_uint append] in *;
        match goal with
        | |- parseValue _ ?s = _ =>
            change (parseValue (S k) s)
              with (match parseNumber s with
                    | Some (lx, r') => Some (JNumber lx, r')
                    | None => None
                    end)
        end; now rewrite P.
Qed.


Lemma stringifyMembers_head (m : string * Field) (ms : list (string * Field)) (x : string) :
  exists t, stringifyMembers (m :: ms) ++ x = String dquote t.
Proof. destruct m as [k v]. eexists. reflexivity. Qed.

(** The members of a serialized record parse back, one unit of fuel per
    member and one for the values. *)
Lemma parseMembers_stringify (ms : list (string * Field)) :
  forall (k : nat) (rest : string),
    ms <> [] -> List.length ms < k ->
    parseMembers k (stringifyMembers ms ++ String "}" rest)
    = Some (map jsonMember ms, rest).
Proof.
  induction ms as [|[key v] ms IH]; intros k rest Hne Hk; [now elim Hne|].
  destruct k as [|k]; [inversion Hk|].
  destruct k as [|k]; [cbn in Hk; lia|].
  cbn [stringifyMembers]. unfold QuoteJSONString.
  rewrite !append_assoc. cbn [append]. rewrite !append_assoc. cbn [append].
  match goal with
  | |- parseMembers _ (String dquote ?x) = _ =>
      change (parseMembers (S (S k)) (String dquote x))
        with (match parseStringBody x with
              | None => None
              | Some (key', r1) =>
                  match skipWs r1 with
                  | EmptyString => None
                  | String c2 r2 =>
                      if Ascii.eqb c2 ":"%char then
                        match parseValue (S k) (skipWs r2) with
                        | None => None
                        | Some (v', r3) =>
                            match skipWs r3 with
                            | EmptyString => None
                            | String c4 r4 =>
                                if Ascii.eqb c4 ","%char then
                                  match parseMembers (S k) (skipWs r4) with
                                  | Some (ms', r') => Some ((key', v') :: ms', r')
                                  | None => None
                                  end
                                else if Ascii.eqb c4 "}"%char then Some ([(key', v')], r4)
                                else None
                            end
                        end
                      else None
                  end
              end)
  end.
  rewrite parseStringBody_escapeUnits.
  rewrite (skipWs_head ":" _ eq_refl).
  cbn [Ascii.eqb Bool.eqb].
  match goal with
  | |- context [skipWs (stringifyField v ++ ?x)] =>
      destruct (stringifyField_head v x) as (c & t & E & W);
      rewrite E, (skipWs_head c t W), <- E; clear c t E W
  end.
  destruct ms as [|m ms].
  - cbn [append]. rewrite (parseValue_field k v "}" rest (or_intror eq_refl)).
    rewrite (skipWs_head "}" _ eq_refl). reflexivity.
  - cbn [append].
    rewrite (parseValue_field k v "," _ (or_introl eq_refl)).
    rewrite (skipWs_head "," _ eq_refl).
    cbn [Ascii.eqb Bool.eqb].
    destruct (stringifyMembers_head m ms (String "}" rest)) as [t E].
    rewrite E, (skipWs_head dquote t eq_refl), <- E.
    rewrite (IH (S k) rest); [reflexivity | discriminate | cbn in *; lia].
Qed.

Lemma parseValue_stringify (ms : list (string * Field)) (k : nat) (rest : string) :
  ms <> [] -> List.length ms < k ->
  parseValue (S k) (JSON_stringify ms ++ rest) = Some (JObject (map jsonMember ms), rest).
Proof.
  intros Hne Hk. unfold JSON_stringify. cbn [append]. rewrite append_assoc. cbn [append].
  pose proof (parseMembers_stringify ms k rest Hne Hk) as P.
  destruct ms as [|m ms]; [now elim Hne|].
  destruct (stringifyMembers_head m ms (String "}" rest)) as [t E].
  rewrite E in *.
  change (parseValue (S k) (String "{" (String dquote t)))
    with (match parseMembers k (String dquote t) with
          | Some (ms', r') => Some (JObject ms', r')
          | None => None
          end).
  now rewrite P.
Qed.

Lemma stringifyMembers_length (ms : list (string * Field)) :
  List.length ms <= String.length (stringifyMembers ms).
Proof.
  induction ms as [|[k v] ms IH]; [apply Nat.le_refl|].
  cbn [stringifyMembers List.length]. unfold QuoteJSONString.
  cbn [append String.length]. rewrite !length_append.
  destruct ms; cbn [String.length List.length] in *; rewrite ?length_append;
    cbn [String.length] in *; lia.
Qed.

(** [JSON.parse(JSON.stringify(record))] is the record. *)
Lemma JSON_parse_stringify (ms : list (string * Field)) :
  ms <> [] -> JSON_parse (JSON_stringify ms) = Normal (JObject (map jsonMember ms)).
Proof.
  intros Hne. unfold JSON_parse.
  assert (Hs : skipWs (JSON_stringify ms) = JSON_stringify ms) by reflexivity.
  rewrite Hs. rewrite <- (append_nil_r (JSON_stringify ms)) at 2.
  rewrite parseValue_stringify; [reflexivity | exact Hne |].
  unfold JSON_stringify. cbn [append String.length]. rewrite length_append.
  pose proof (stringifyMembers_length ms). cbn [String.length]. lia.
Qed.

(** Text after the record is a syntax error. *)
Lemma JSON_parse_trailing (ms : list (string * Field)) (c : ascii) (rest : string) :
  ms <> [] -> isJsonWs c = false ->
  exists e, JSON_parse (JSON_stringify ms ++ String c rest) = Throw e.
Proof.
  intros Hne Hc. unfold JSON_parse.
  assert (Hs : skipWs (JSON_stringify ms ++ String c rest)
               = JSON_stringify ms ++ String c rest) by reflexivity.
  rewrite Hs, parseValue_stringify; [| exact Hne |].
  - rewrite (skipWs_head c rest Hc). eexists; reflexivity.
  - rewrite length_append. unfold JSON_stringify. cbn [append String.length].
    rewrite length_append. pose proof (stringifyMembers_length ms).
    cbn [String.length]. lia.
Qed.

End JsonRoundTrip.

(** ** What the verification accepts beyond the committed fingerprint *)

Section NegativeRoundTrip.

Lemma includes_bar (s : string) : includes s "|" = negb (noBar s).
Proof.
  induction s as [|c s IH]; [reflexivity|].
  cbn [includes noBar String.prefix].
  destruct (ascii_dec "|" c) as [<-|Hn].
  - now destruct s.
  - rewrite IH. destruct (Ascii.eqb_spec c "|"%char) as [->|_]; [now elim Hn|reflexivity].
Qed.

Lemma noBar_append (a b : string) : noBar (a ++ b) = noBar a && noBar b.
Proof.
  induction a as [|c a IH]; [reflexivity|].
  cbn [append noBar]. now rewrite IH, andb_assoc.
Qed.

Lemma noBar_escapeUnit (c : ascii) : noBar (escapeUnit c) = negb (Ascii.eqb c "|"%char).
Proof. destruct c as [[] [] [] [] [] [] [] []]; reflexivity. Qed.

Lemma noBar_escapeUnits (s : string) : noBar (escapeUnits s) = noBar s.
Proof.
  induction s as [|c s IH]; [reflexivity|].
  cbn [escapeUnits noBar]. now rewrite noBar_append, noBar_escapeUnit, IH.
Qed.

Lemma noBar_digits (s : string) : allDigits s = true -> noBar s = true.
Proof.
  induction s as [|c s IH]; [reflexivity|].
  cbn [allDigits noBar]. intros H. apply andb_prop in H as [Hc Hs].
  rewrite (IH Hs), andb_true_r.
  destruct (Ascii.eqb_spec c "|"%char) as [->|_]; [discriminate Hc|reflexivity].
Qed.

Lemma noBar_QuoteJSONString (s : string) : noBar (QuoteJSONString s) = noBar s.
Proof.
  unfold QuoteJSONString. cbn [noBar]. rewrite noBar_append, noBar_escapeUnits.
  cbn. now rewrite andb_true_r.
Qed.

Lemma noBar_jsonNote (f : string) (ts : N) :
  noBar f = true -> noBar (jsonNote f ts) = true.
Proof.
  intros H. unfold jsonNote, JSON_stringify, noteData.
  cbn [stringifyMembers stringifyField].
  rewrite !noBar_append, !noBar_QuoteJSONString, H.
  unfold NumberToString. rewrite (noBar_digits _ (allDigits_string_of_uint _)).
  reflexivity.
Qed.

(** A stretch without bar is read into the current segment. *)
Lemma split_go_noBar (sep' : string) (a t cur : string) :
  noBar a = true ->
  split_go (String "|" sep') (a ++ t) 0 cur = split_go (String "|" sep') t 0 (cur ++ a).
Proof.
  revert cur; induction a as [|c a IH]; intros cur H.
  - now rewrite append_nil_r.
  - cbn [noBar] in H. apply andb_prop in H as [Hc Ha].
    cbn [append split_go String.prefix].
    destruct (ascii_dec "|" c) as [<-|_]; [discriminate Hc|].
    rewrite (IH _ Ha), append_assoc. reflexivity.
Qed.

Lemma split_triple_cut (a t : string) :
  noBar a = true ->
  split (a ++ separator ++ t) separator = a :: split t separator.
Proof.
  intros H. unfold split, separator. rewrite (split_go_noBar _ _ _ _ H).
  destruct t; reflexivity.
Qed.

Lemma split_single_cut (a t : string) :
  noBar a = true ->
  split (a ++ separator ++ t) "|" = a :: EmptyString :: EmptyString :: split t "|".
Proof.
  intros H. unfold split, separator. rewrite (split_go_noBar _ _ _ _ H).
  destruct t; reflexivity.
Qed.

Lemma split_last (sep' a : string) :
  noBar a = true -> split a (String "|" sep') = [a].
Proof.
  intros H. unfold split. rewrite <- (append_nil_r a) at 1.
  rewrite (split_go_noBar _ _ _ _ H). reflexivity.
Qed.

Lemma getProp_type (f : string) (ts : N) :
  getProp (JObject (map jsonMember (noteData f ts))) "type"
  = Normal (Some (JString (codes "HEALTH_DATA"))).
Proof. reflexivity. Qed.

Lemma getProp_hash (f : string) (ts : N) :
  getProp (JObject (map jsonMember (noteData f ts))) "hash"
  = Normal (Some (JString (codes f))).
Proof. reflexivity. Qed.


Lemma includes_false_part (p s h : string) :
  occursIn p s -> includes s h = false -> includes p h = false.
Proof.
  intros Hp Hs. destruct (includes p h) eqn:E; [|reflexivity].
  apply includes_true in E. rewrite <- Hs. symmetry.
  apply includes_true. now apply occursIn_trans with p.
Qed.

(** A part that neither contains the hash nor is a JSON record of it is
    rejected. *)
Lemma verifyNotePart_false (part h : string) :
  includes part h = false ->
  (startsWith part "{" = true -> jsonFormatMatches part h = false) ->
  verifyNotePart part h = false.
Proof.
  intros Hinc Hjson. unfold verifyNotePart. rewrite Hinc.
  assert (Hpre : forall pre, String.eqb part (pre ++ h) || includes part (pre ++ h) = false).
  { intros pre. apply orb_false_iff. split.
    - destruct (String.eqb_spec part (pre ++ h)) as [E|_]; [|reflexivity].
      rewrite <- Hinc. symmetry. apply includes_true. rewrite E.
      apply occursIn_append_l, occursIn_refl.
    - apply includes_false_part with part; [apply occursIn_refl|].
      destruct (includes part (pre ++ h)) eqn:E; [|reflexivity].
      apply includes_true in E. rewrite <- Hinc. symmetry. apply includes_true.
      apply occursIn_trans with (pre ++ h); [|exact E].
      apply occursIn_append_l, occursIn_refl. }
  cbv zeta. rewrite !Hpre, !andb_false_r.
  destruct (startsWith part "{") eqn:S; [rewrite (Hjson eq_refl)|]; reflexivity.
Qed.

Lemma trimEnd_closed (s : string) :
  trimEnd (s ++ "}") = s ++ "}".
Proof.
  induction s as [|c s IH]; [reflexivity|].
  cbn [append trimEnd]. rewrite IH. now destruct (s ++ "}") eqn:E; [destruct s|].
Qed.

Lemma trim_JSON_stringify (ms : list (string * Field)) :
  trim (JSON_stringify ms) = JSON_stringify ms.
Proof.
  unfold trim, JSON_stringify.
  change (trimStart ("{" ++ stringifyMembers ms ++ "}"))
    with ("{" ++ stringifyMembers ms ++ "}").
  rewrite <- append_assoc. apply trimEnd_closed.
Qed.

Lemma trimEnd_head (c : ascii) (s : string) :
  isWhiteSpace c = false -> exists t, trimEnd (String c s) = String c t.
Proof.
  intros H. cbn [trimEnd]. destruct (trimEnd s); [rewrite H|]; eexists; reflexivity.
Qed.

(** A part whose first code unit is a capital H is no JSON text. *)
Lemma trim_H_not_brace (s : string) : startsWith (trim (String "H" s)) "{" = false.
Proof.
  unfold trim. change (trimStart (String "H" s)) with (String "H" s).
  destruct (trimEnd_head "H" s eq_refl) as [t ->]. reflexivity.
Qed.

Lemma jsonFormatMatches_jsonNote (f h : string) (ts : N) :
  f <> h -> jsonFormatMatches (jsonNote f ts) h = false.
Proof.
  intros Hne. unfold jsonFormatMatches, jsonNote.
  rewrite JSON_parse_stringify by discriminate.
  rewrite getProp_type, getProp_hash.
  change (strictEqString (Some (JString (codes "HEALTH_DATA"))) "HEALTH_DATA") with true.
  cbv iota. unfold strictEqString.
  destruct (list_eq_dec N.eq_dec (codes f) (codes h)) as [E|_]; [|reflexivity].
  now apply codes_inj in E.
Qed.

Lemma jsonFormatMatches_trailing (f h rest : string) (ts : N) :
  jsonFormatMatches (jsonNote f ts ++ separator ++ rest) h = false.
Proof.
  unfold jsonFormatMatches, jsonNote, separator. cbn [append].
  destruct (JSON_parse_trailing (noteData f ts) "|" ("||" ++ rest)) as [e E];
    [discriminate | reflexivity |].
  cbn [append] in E. now rewrite E.
Qed.


Lemma part_rejected (f h : string) (ts : N) (note p : string) :
  f <> h -> includes note h = false ->
  occursIn p note -> partOfNote f ts p ->
  verifyNotePart (trim p) h = false.
Proof.
  intros Hne Hinc Hocc Hp. apply verifyNotePart_false.
  - apply includes_false_part with note; [|exact Hinc].
    apply occursIn_trans with p; [apply trim_occurs | exact Hocc].
  - destruct Hp as [-> | [-> | [s ->]]].
    + intros _. unfold jsonNote. rewrite trim_JSON_stringify.
      now apply jsonFormatMatches_jsonNote.
    + discriminate.
    + now rewrite trim_H_not_brace.
Qed.

Lemma anyPartVerifies_false (f h : string) (ts : N) (note : string) (parts : list string) :
  f <> h -> includes note h = false ->
  Forall (fun p => occursIn p note /\ partOfNote f ts p) parts ->
  anyPartVerifies parts h = false.
Proof.
  intros Hne Hinc Hall. induction Hall as [|p parts [Ho Hp] _ IH]; [reflexivity|].
  cbn [anyPartVerifies]. now rewrite (part_rejected f h ts note p Hne Hinc Ho Hp).
Qed.

Lemma noBar_legacyNote (f : string) : noBar f = true -> noBar (legacyNote f) = true.
Proof. intros H. unfold legacyNote. now rewrite noBar_append, H. Qed.

Lemma noBar_simpleNote (f : string) : noBar f = true -> noBar (simpleNote f) = true.
Proof. intros H. unfold simpleNote. now rewrite noBar_append, H. Qed.

Lemma legacy_part (f : string) (ts : N) : partOfNote f ts (legacyNote f).
Proof. right; right. eexists; reflexivity. Qed.

Lemma simple_part (f : string) (ts : N) : partOfNote f ts (simpleNote f).
Proof. right; right. eexists; reflexivity. Qed.

(** The segments of the two notes that [storeHealthData] can build, for a
    fingerprint without bar. *)
Lemma split_combinedNote (f : string) (ts : N) :
  noBar f = true ->
  split (combinedNote f ts) separator = [jsonNote f ts; legacyNote f; simpleNote f]
  /\ split (combinedNote f ts) "|"
     = [jsonNote f ts; EmptyString; EmptyString; legacyNote f;
        EmptyString; EmptyString; simpleNote f].
Proof.
  intros H. unfold combinedNote. split.
  - rewrite split_triple_cut by now apply noBar_jsonNote.
    rewrite split_triple_cut by now apply noBar_legacyNote.
    unfold separator. rewrite split_last by now apply noBar_simpleNote. reflexivity.
  - rewrite split_single_cut by now apply noBar_jsonNote.
    rewrite split_single_cut by now apply noBar_legacyNote.
    rewrite split_last by now apply noBar_simpleNote. reflexivity.
Qed.

Lemma split_priorityNote (f : string) (ts : N) :
  noBar f = true ->
  split (jsonNote f ts ++ separator ++ legacyNote f) separator
  = [jsonNote f ts; legacyNote f]
  /\ split (jsonNote f ts ++ separator ++ legacyNote f) "|"
     = [jsonNote f ts; EmptyString; EmptyString; legacyNote f].
Proof.
  intros H. split.
  - rewrite split_triple_cut by now apply noBar_jsonNote.
    unfold separator. rewrite split_last by now apply noBar_legacyNote. reflexivity.
  - rewrite split_single_cut by now apply noBar_jsonNote.
    rewrite split_last by now apply noBar_legacyNote. reflexivity.
Qed.

Lemma verifyNoteString_rejects (f h : string) (ts : N) :
  f <> h -> noBar f = true ->
  includes (finalNote f ts) h = false ->
  verifyNoteString (finalNote f ts) h = false.
Proof.
  intros Hne Hbar Hinc.
  assert (Hparts : forall sep, Forall (fun p => occursIn p (finalNote f ts) /\ partOfNote f ts p)
                                      (split (finalNote f ts) sep)
                   -> anyPartVerifies (split (finalNote f ts) sep) h = false)
    by (intros sep; now apply anyPartVerifies_false).
  assert (Hall : forall sep p, In p (split (finalNote f ts) sep) -> partOfNote f ts p ->
                               occursIn p (finalNote f ts) /\ partOfNote f ts p)
    by (intros sep p Hin Hp; split; [now apply split_occurs in Hin | exact Hp]).
  assert (H3 : anyPartVerifies (split (finalNote f ts) separator) h = false
               /\ anyPartVerifies (split (finalNote f ts) "|") h = false
               /\ jsonFormatMatches (finalNote f ts) h = false).
  { unfold finalNote in *.
    destruct (1000 <? String.length (combinedNote f ts))%nat.
    - destruct (split_priorityNote f ts Hbar) as [E3 E1].
      repeat split.
      + apply Hparts. apply Forall_forall. intros p Hin. apply (Hall _ _ Hin).
        rewrite E3 in Hin. cbn [In] in Hin.
        destruct Hin as [<-|[<-|[]]]; [now left | apply legacy_part].
      + apply Hparts. apply Forall_forall. intros p Hin. apply (Hall _ _ Hin).
        rewrite E1 in Hin. cbn [In] in Hin.
        destruct Hin as [<-|[<-|[<-|[<-|[]]]]];
          [now left | now right; left | now right; left | apply legacy_part].
      + apply jsonFormatMatches_trailing.
    - destruct (split_combinedNote f ts Hbar) as [E3 E1].
      repeat split.
      + apply Hparts. apply Forall_forall. intros p Hin. apply (Hall _ _ Hin).
        rewrite E3 in Hin. cbn [In] in Hin.
        destruct Hin as [<-|[<-|[<-|[]]]];
          [now left | apply legacy_part | apply simple_part].
      + apply Hparts. apply Forall_forall. intros p Hin. apply (Hall _ _ Hin).
        rewrite E1 in Hin. cbn [In] in Hin.
        destruct Hin as [<-|[<-|[<-|[<-|[<-|[<-|[<-|[]]]]]]]];
          [now left | now right; left | now right; left | apply legacy_part
           | now right; left | now right; left | apply simple_part].
      + unfold combinedNote. apply jsonFormatMatches_trailing. }
  destruct H3 as (A3 & A1 & AJ).
  unfold verifyNoteString. rewrite A3, A1.
  rewrite (verifyNotePart_false _ _ Hinc (fun _ => AJ)).
  now destruct (includes (finalNote f ts) separator), (includes (finalNote f ts) "|").
Qed.

End NegativeRoundTrip.

(** C2, as the code has it.  The claim fails: a fingerprint that occurs
    inside the note is accepted by the containment test that ends
    [verifyNotePart].  Here the committed fingerprint is the SHA-256 digest
    of the text abc, as [createHealthDataHash] computes it on the web, and
    the other one is an 8-digit hash, as its fallback computes on a device,
    that occurs inside the digest. *)
Lemma negative_round_trip_counterexample :
  let f1 := "ba7816bf8f01cfea414140de5dae2223b00361a396177a9cb410ff61f20015ad" in
  let f2 := "7816bf8f" in
  f1 <> f2 /\ verifyNoteString (finalNote f1 1719230000000) f2 = true.
Proof. split; [discriminate | vm_compute; reflexivity]. Qed.

(** C2, amended: for distinct fingerprints where the committed one contains
    no bar, the note of the first is rejected for the second exactly when
    the second does not occur anywhere in the note. *)
Theorem negative_round_trip_amended (f1 f2 : string) (ts : N) :
  f1 <> f2 -> includes f1 "|" = false ->
  (verifyNoteString (finalNote f1 ts) f2 = false
   <-> includes (finalNote f1 ts) f2 = false).
Proof.
  intros Hne Hbar. rewrite includes_bar in Hbar. apply negb_false_iff in Hbar.
  split.
  - intros Hv. destruct (includes (finalNote f1 ts) f2) eqn:E; [|reflexivity].
    now rewrite (verifyNoteString_includes _ _ E) in Hv.
  - now apply verifyNoteString_rejects.
Qed.

Lemma negative_round_trip_amended_witness :
  verifyNoteString (finalNote "abc123" 1719230000000) "abc124" = false
  <-> includes (finalNote "abc123" 1719230000000) "abc124" = false.
Proof.
  apply negative_round_trip_amended; [discriminate | reflexivity].
Defined.

(** Without the restriction on the committed fingerprint the amended
    statement fails too: a fingerprint with a bar can smuggle in a JSON
    record whose escaped hash never occurs literally. *)
Example bar_fingerprint_example :
  let f1 := "x|{" ++ QuoteJSONString "type" ++ ":" ++ QuoteJSONString "HEALTH_DATA" ++ ","
            ++ QuoteJSONString "hash" ++ ":" ++ String dquote ("\u0062" ++ String dquote "}") in
  includes (finalNote f1 1719230000000) "b" = false
  /\ verifyNoteString (finalNote f1 1719230000000) "b" = true.
Proof. vm_compute. split; reflexivity. Qed.

(** ** The size of the note *)

(** The JSON record is kept in both branches of the size test. *)
Lemma finalNote_keeps_json (f : string) (ts : N) :
  exists rest, finalNote f ts = jsonNote f ts ++ rest.
Proof.
  unfold finalNote, combinedNote. destruct (_ <? _)%nat; eexists; reflexivity.
Qed.

(** When the test does not fire, all three formats are sent and the text
    has at most 1000 code units. *)
Lemma finalNote_within_threshold (f : string) (ts : N) :
  String.length (combinedNote f ts) <= 1000 ->
  finalNote f ts = combinedNote f ts /\ String.length (finalNote f ts) <= 1000.
Proof.
  intros H. unfold finalNote.
  destruct (Nat.ltb_spec 1000 (String.length (combinedNote f ts))) as [L|_]; [lia|].
  now split.
Qed.

(** When it fires, exactly the minimal format is dropped, whatever the
    length of what remains. *)
Lemma finalNote_over_threshold (f : string) (ts : N) :
  1000 < String.length (combinedNote f ts) ->
  finalNote f ts = jsonNote f ts ++ separator ++ legacyNote f.
Proof.
  intros H. unfold finalNote.
  now destruct (Nat.ltb_spec 1000 (String.length (combinedNote f ts))) as [_|L]; [|lia].
Qed.

(** C3 on the code: a fingerprint of 500 letters, whose JSON record alone
    fits in the note field, is encoded into 1112 bytes, above the ceiling
    of 1024; only the minimal format was dropped. *)
Theorem note_exceeds_ceiling :
  let f := AlgorandService.join EmptyString (repeat "a" 500) in
  List.length (noteBytes f 1719230000000) = 1112
  /\ String.length (jsonNote f 1719230000000) = 597
  /\ finalNote f 1719230000000 = jsonNote f 1719230000000 ++ separator ++ legacyNote f.
Proof. vm_compute. repeat split; reflexivity. Qed.

(** The same happens for every long fingerprint: from 470 code units on,
    whatever the metadata, the payload is above the ceiling. *)
Lemma escapeUnits_length (s : string) : String.length s <= String.length (escapeUnits s).
Proof.
  induction s as [|c s IH]; [apply Nat.le_refl|].
  cbn [escapeUnits String.length]. rewrite length_append.
  assert (H : (1 <=? String.length (escapeUnit c))%nat = true)
    by (destruct c as [[] [] [] [] [] [] [] []]; reflexivity).
  apply Nat.leb_le in H. lia.
Qed.

Lemma TextEncoder_encode_length (s : string) :
  String.length s <= List.length (TextEncoder_encode s).
Proof.
  induction s as [|c s IH]; [apply Nat.le_refl|].
  cbn [TextEncoder_encode String.length].
  destruct (N_of_ascii c <? 128)%N; cbn [List.length]; lia.
Qed.

Lemma jsonNote_length (f : string) (ts : N) :
  String.length f + 80 <= String.length (jsonNote f ts).
Proof.
  unfold jsonNote, JSON_stringify, noteData.
  cbn [stringifyMembers stringifyField]. unfold QuoteJSONString.
  pose proof (escapeUnits_length f) as Hq. cbn [escapeUnits].
  revert Hq. generalize (escapeUnits f) as q. generalize (NumberToString ts) as d.
  intros d q Hq.
  repeat (cbn; rewrite ?length_append). lia.
Qed.

Lemma long_fingerprint_exceeds_ceiling (f : string) (ts : N) :
  470 <= String.length f -> 1024 < List.length (noteBytes f ts).
Proof.
  intros H. unfold noteBytes.
  pose proof (TextEncoder_encode_length (finalNote f ts)) as He.
  assert (Hn : String.length (jsonNote f ts) + 3 + (12 + String.length f)
               <= String.length (finalNote f ts)).
  { unfold finalNote, combinedNote, legacyNote, separator.
    destruct (_ <? _)%nat; rewrite !length_append; cbn [String.length]; lia. }
  pose proof (jsonNote_length f ts). lia.
Qed.

(** ** Identity validation *)

Section Validation.

Variable sdk : Sdk.

Lemma field_truthy_object (account : JsVal) (name : string) (a : string) :
  field account name = VString a -> truthy account = true /\ isObjectType account = true.
Proof.
  destruct account; cbn [field]; try discriminate;
    try (destruct (String.eqb name "length"); discriminate).
  now split.
Qed.

Lemma length58_truthy (a : string) : String.length a = 58 -> truthy (VString a) = true.
Proof. now destruct a. Qed.

(** [isValidAccount] is the validation of the specification. *)
Lemma isValidAccount_spec (account : JsVal) :
  AlgorandBlockchainService.isValidAccount sdk account = true
  <-> wellFormedIdentity (algosdk_decodeAddress sdk) account.
Proof.
  unfold AlgorandBlockchainService.isValidAccount, wellFormedIdentity. split.
  - destruct (truthy account); [|intros Q; discriminate Q]. cbn [negb].
    destruct (field account "addr") as [| | | |a| | |] eqn:Ea;
      try (cbn; split_ifs; intros Q; discriminate Q).
    destruct (truthy (VString a)); [|intros Q; discriminate Q]. cbn [negb isStringType orb].
    destruct (Nat.eqb_spec (String.length a) 58) as [L|_]; [|intros Q; discriminate Q]. cbn [negb].
    destruct (field account "sk") as [| | | | |bytes| |] eqn:Es;
      try (intros Q; discriminate Q).
    destruct (Nat.eqb_spec (List.length bytes) 64) as [L'|_]; [|intros Q; discriminate Q]. cbn [negb].
    intros D. now exists a, bytes.
  - intros (a & bytes & Ea & La & Da & Es & Ls).
    destruct (field_truthy_object _ _ _ Ea) as [T _]. rewrite T, Ea, Es.
    rewrite (length58_truthy a La). cbn [negb isStringType orb].
    rewrite La, Ls. exact Da.
Qed.

(** [validateAccount] skips the checksum for addresses that start with
    seven letters A. *)
Lemma validateAccount_spec (account : JsVal) :
  AlgorandService.validateAccount sdk account = true
  <-> exists a bytes,
      field account "addr" = VString a /\ String.length a = 58
      /\ (startsWith a "AAAAAAA" = true \/ algosdk_decodeAddress sdk a = true)
      /\ field account "sk" = VUint8Array bytes /\ List.length bytes = 64.
Proof.
  unfold AlgorandService.validateAccount. split.
  - destruct (truthy account); [|intros Q; discriminate Q].
    destruct (isObjectType account); [|intros Q; discriminate Q]. cbn [negb orb].
    destruct (field account "addr") as [| | | |a| | |] eqn:Ea;
      try (cbn; split_ifs; intros Q; discriminate Q).
    destruct (truthy (VString a)); [|intros Q; discriminate Q]. cbn [negb isStringType orb].
    destruct (Nat.eqb_spec (String.length a) 58) as [L|_]; [|intros Q; discriminate Q]. cbn [negb].
    destruct (field account "sk") as [| | | | |bytes| |] eqn:Es;
      try (cbn; split_ifs; intros Q; discriminate Q).
    cbn [truthy isUint8Array negb orb].
    destruct (Nat.eqb_spec (List.length bytes) 64) as [L'|_]; [|intros Q; discriminate Q]. cbn [negb].
    destruct (startsWith a "AAAAAAA") eqn:P; cbn [negb]; intros D;
      exists a, bytes; auto 6.
  - intros (a & bytes & Ea & La & Da & Es & Ls).
    destruct (field_truthy_object _ _ _ Ea) as [T O]. rewrite T, O, Ea, Es.
    rewrite (length58_truthy a La). cbn [negb isStringType orb truthy isUint8Array].
    rewrite La, Ls. cbn [Nat.eqb negb].
    destruct (startsWith a "AAAAAAA"); cbn [negb]; [reflexivity|].
    now destruct Da.
Qed.

End Validation.

(** C5, as the code has it.  The claim fails for [validateAccount]: the
    mock account, whose address of 58 letters A has a wrong checksum, is
    accepted, because addresses that start with seven letters A skip the
    decoding. *)
Lemma validateAccount_accepts_undecodable :
  let mock := AlgorandService.createMockAccount Scenario.noKeysSdk 1 in
  AlgorandService.validateAccount Scenario.noKeysSdk mock = true
  /\ ~ wellFormedIdentity Algosdk.decodeAddress mock.
Proof.
  split; [vm_compute; reflexivity|].
  intros (a & bytes & Ea & _ & D & _).
  cbn in Ea. injection Ea as <-. vm_compute in D. discriminate D.
Qed.

(** C5, amended: [isValidAccount] accepts exactly the candidates whose
    address is a string of 58 characters that decodes and whose key is a
    [Uint8Array] of 64 bytes; [validateAccount], in [AlgorandService] and
    in [EnhancedAlgorandService], accepts in addition the candidates whose
    address starts with seven letters A, without decoding it.  Both are
    functions of the candidate and of the decoder alone. *)
Theorem validation_characterised (sdk : Sdk) (account : JsVal) :
  (AlgorandBlockchainService.isValidAccount sdk account = true
   <-> wellFormedIdentity (algosdk_decodeAddress sdk) account)
  /\ (AlgorandService.validateAccount sdk account = true
      <-> wellFormedOrMock (algosdk_decodeAddress sdk) account)
  /\ EnhancedAlgorandService.validateAccount sdk account
     = AlgorandService.validateAccount sdk account.
Proof.
  split; [apply isValidAccount_spec|].
  split; [apply validateAccount_spec | reflexivity].
Qed.

(** ** Identity generation *)

(** C4 on the code: when every strategy fails, [generateAccount] of
    [AlgorandService] and of [EnhancedAlgorandService] returns the mock
    account instead of throwing. *)
Theorem exhausted_generation_returns_mock (sdk : Sdk) :
  rejected (AlgorandService.validateAccount sdk) (algosdk_generateAccount sdk) ->
  (forall m, rejected (AlgorandService.validateAccount sdk) (algosdk_mnemonicToSecretKey sdk m)) ->
  (forall bytes,
      rejected (AlgorandService.validateAccount sdk) (algosdk_accountFromPrivateKey sdk bytes)) ->
  AlgorandService.generateAccount sdk = Normal (AlgorandService.createMockAccount sdk 1)
  /\ EnhancedAlgorandService.generateAccount sdk
     = Normal (EnhancedAlgorandService.createMockAccount sdk 1).
Proof.
  intros Hdirect Hmnemonic Hkey.
  assert (D : AlgorandService.directGeneration sdk = None).
  { unfold AlgorandService.directGeneration.
    destruct (algosdk_generateAccount sdk); [cbn in Hdirect; now rewrite Hdirect | reflexivity]. }
  split.
  - unfold AlgorandService.generateAccount. rewrite D.
    unfold AlgorandService.mnemonicGeneration, AlgorandService.generateAccountManually,
      AlgorandService.generateAccountFallback.
    destruct (generateSecureMnemonic sdk 0) as [m0|];
      [specialize (Hmnemonic m0) as H0;
       destruct (algosdk_mnemonicToSecretKey sdk m0); [cbn in H0; rewrite H0|] |];
      (destruct (generateSecureMnemonic sdk 1) as [m1|];
       [specialize (Hmnemonic m1) as H1;
        destruct (algosdk_mnemonicToSecretKey sdk m1); [cbn in H1; rewrite H1|] |]);
      specialize (Hmnemonic (AlgorandService.fallbackMnemonic sdk)) as H2;
      (destruct (algosdk_mnemonicToSecretKey sdk (AlgorandService.fallbackMnemonic sdk));
       [cbn in H2; rewrite H2|]); reflexivity.
  - unfold EnhancedAlgorandService.generateAccount. rewrite D.
    unfold EnhancedAlgorandService.mnemonicGeneration,
      EnhancedAlgorandService.generateAccountManually,
      EnhancedAlgorandService.generateAccountFallback,
      EnhancedAlgorandService.validateAccount.
    destruct (EnhancedAlgorandService.generateMnemonic sdk) as [m0|];
      [specialize (Hmnemonic m0) as H0;
       destruct (algosdk_mnemonicToSecretKey sdk m0); [cbn in H0; rewrite H0|] |];
      (specialize (Hkey (getSecureRandomBytes sdk 32)) as H1;
       destruct (algosdk_accountFromPrivateKey sdk (getSecureRandomBytes sdk 32));
       [cbn in H1; rewrite H1|]);
      (specialize (Hkey (EnhancedAlgorandService.simpleHash (AlgorandService.fallbackSeed sdk)))
        as H2;
       destruct (algosdk_accountFromPrivateKey sdk
                   (EnhancedAlgorandService.simpleHash (AlgorandService.fallbackSeed sdk)));
       [cbn in H2; rewrite H2|]); reflexivity.
Qed.

Lemma exhausted_generation_returns_mock_witness :
  AlgorandService.generateAccount Scenario.noKeysSdk
  = Normal (AlgorandService.createMockAccount Scenario.noKeysSdk 1)
  /\ EnhancedAlgorandService.generateAccount Scenario.noKeysSdk
     = Normal (EnhancedAlgorandService.createMockAccount Scenario.noKeysSdk 1).
Proof.
  apply exhausted_generation_returns_mock; intros; exact I.
Defined.

(** The third service does what the claim asks: on the same platform its
    [generateAccount] throws. *)
Lemma blockchain_service_generation_throws :
  AlgorandBlockchainService.generateAccount Scenario.noKeysSdk
  = Throw {| message := "All account generation methods failed: Error: "
                          ++ message Scenario.cryptoError |}.
Proof. reflexivity. Qed.

(** The mock account of [AlgorandService] cannot sign for the ledger: its
    address does not decode. *)
Lemma mock_address_does_not_decode :
  Algosdk.decodeAddress AlgorandService.mockAddr = false.
Proof. vm_compute. reflexivity. Qed.

(** ** Funding *)

Section Funding.

Variable w : World.
Variable address : string.

Lemma getAccountBalance_run (h : History) :
  AlgorandService.getAccountBalance w address h
  = (Normal (balanceOf (accountInformation w h address)),
     (h ++ [EAccountInformation address])%list).
Proof.
  unfold AlgorandService.getAccountBalance, tryCatch, bind, call, ret, balanceOf.
  now destruct (accountInformation w h address) as [[z|]|].
Qed.

Lemma fetchUrls_app (a b : History) :
  fetchUrls (a ++ b)%list = (fetchUrls a ++ fetchUrls b)%list.
Proof. unfold fetchUrls. apply flat_map_app. Qed.

(** One iteration of the loop of [AlgorandService.ensureAccountFunded]. *)
Lemma tryDispensers_step (d : AlgorandService.FundingSource)
      (rest : list AlgorandService.FundingSource) (h : History) :
  let request := EFetch (AlgorandService.url d) (AlgorandService.body d) in
  AlgorandService.tryDispensers w address (d :: rest) h
  = match fetch w h (AlgorandService.url d) with
    | Normal r =>
        if ok r then
          let h2 := (h ++ [request; ESleep 5000])%list in
          if (100000 <=? balanceOf (accountInformation w h2 address))%Z
          then (Normal true, (h2 ++ [EAccountInformation address])%list)
          else AlgorandService.tryDispensers w address rest
                 (h2 ++ [EAccountInformation address])%list
        else AlgorandService.tryDispensers w address rest (h ++ [request])%list
    | Throw _ => AlgorandService.tryDispensers w address rest (h ++ [request])%list
    end.
Proof.
  cbn [AlgorandService.tryDispensers]. unfold bind at 1. unfold tryCatch at 1.
  unfold bind at 1. unfold call at 1.
  destruct (fetch w h (AlgorandService.url d)) as [r|e]; [|reflexivity].
  destruct (ok r); [|reflexivity].
  unfold bind at 1. unfold sleep at 1. unfold bind at 1.
  rewrite <- List.app_assoc. cbn [app]. rewrite getAccountBalance_run.
  unfold AlgorandService.minimumBalance.
  now destruct (100000 <=? _)%Z.
Qed.

(** What the loop returns, and what it asked for on the way. *)
Lemma tryDispensers_run (sources : list AlgorandService.FundingSource) :
  forall h : History,
  exists (b : bool) (evs : History),
    AlgorandService.tryDispensers w address sources h = (Normal b, (h ++ evs)%list)
    /\ (b = true ->
        exists pre, evs = (pre ++ [EAccountInformation address])%list
                    /\ meetsMinimum w address (h ++ pre)%list)
    /\ (b = false -> fetchUrls evs = map AlgorandService.url sources).
Proof.
  induction sources as [|d rest IH]; intros h.
  - exists false, []. rewrite List.app_nil_r.
    split; [reflexivity | split; [discriminate | reflexivity]].
  - rewrite tryDispensers_step. cbv zeta.
    set (request := EFetch (AlgorandService.url d) (AlgorandService.body d)).
    assert (Hskip :
      exists (b : bool) (evs : History),
        AlgorandService.tryDispensers w address rest (h ++ [request])%list
        = (Normal b, (h ++ evs)%list)
        /\ (b = true ->
            exists pre, evs = (pre ++ [EAccountInformation address])%list
                        /\ meetsMinimum w address (h ++ pre)%list)
        /\ (b = false -> fetchUrls evs = map AlgorandService.url (d :: rest))).
    { destruct (IH (h ++ [request])%list) as (b & evs & E & Ht & Hf).
      exists b, (request :: evs). rewrite E. split; [|split].
      - f_equal. now rewrite <- List.app_assoc.
      - intros Hb. destruct (Ht Hb) as (pre & -> & Hm).
        exists (request :: pre). split; [reflexivity|].
        now rewrite <- List.app_assoc in Hm.
      - intros Hb.
        change (fetchUrls (request :: evs)) with (AlgorandService.url d :: fetchUrls evs).
        now rewrite (Hf Hb). }
    destruct (fetch w h (AlgorandService.url d)) as [r|e]; [|exact Hskip].
    destruct (ok r); [|exact Hskip].
    destruct (Z.leb_spec 100000
                (balanceOf (accountInformation w (h ++ [request; ESleep 5000%N])%list address)))
      as [Hm|Hm].
    + exists true, [request; ESleep 5000%N; EAccountInformation address].
      split; [|split].
      * f_equal. now rewrite <- List.app_assoc.
      * intros _. exists [request; ESleep 5000%N]. split; [reflexivity | exact Hm].
      * discriminate.
    + destruct (IH ((h ++ [request; ESleep 5000%N]) ++ [EAccountInformation address])%list)
        as (b & evs & E & Ht & Hf).
      exists b, (request :: ESleep 5000%N :: EAccountInformation address :: evs).
      rewrite E. split; [|split].
      * f_equal. now rewrite <- !List.app_assoc.
      * intros Hb. destruct (Ht Hb) as (pre & -> & Hm').
        exists (request :: ESleep 5000%N :: EAccountInformation address :: pre).
        split; [reflexivity|]. now rewrite <- !List.app_assoc in Hm'.
      * intros Hb.
        change (fetchUrls (request :: ESleep 5000%N :: EAccountInformation address :: evs))
          with (AlgorandService.url d :: fetchUrls evs).
        now rewrite (Hf Hb).
Qed.

(** [AlgorandService.ensureAccountFunded]: it never throws; [true] is
    returned right after a balance query that met the minimum; [false]
    only after every dispenser was asked. *)
Lemma ensureAccountFunded_run (h : History) :
  exists (b : bool) (evs : History),
    AlgorandService.ensureAccountFunded w address h = (Normal b, (h ++ evs)%list)
    /\ (b = true ->
        exists pre, evs = (pre ++ [EAccountInformation address])%list
                    /\ meetsMinimum w address (h ++ pre)%list)
    /\ (b = false ->
        fetchUrls evs = map AlgorandService.url (AlgorandService.fundingSources address))
    /\ (meetsMinimum w address h -> b = true /\ evs = [EAccountInformation address]).
Proof.
  unfold AlgorandService.ensureAccountFunded, tryCatch. unfold bind at 1.
  rewrite getAccountBalance_run. unfold AlgorandService.minimumBalance.
  destruct (Z.leb_spec 100000 (balanceOf (accountInformation w h address))) as [Hm|Hm].
  - exists true, [EAccountInformation address].
    split; [reflexivity | split; [|split; [discriminate | now split]]].
    intros _. exists []. rewrite List.app_nil_r. now split.
  - destruct (tryDispensers_run (AlgorandService.fundingSources address)
                                (h ++ [EAccountInformation address])%list)
      as (b & evs & E & Ht & Hf).
    exists b, (EAccountInformation address :: evs). rewrite E.
    split; [|split; [|split]].
    + f_equal. now rewrite <- List.app_assoc.
    + intros Hb. destruct (Ht Hb) as (pre & -> & Hm').
      exists (EAccountInformation address :: pre). split; [reflexivity|].
      now rewrite <- List.app_assoc in Hm'.
    + intros Hb.
      change (fetchUrls (EAccountInformation address :: evs)) with (fetchUrls evs).
      now apply Hf.
    + unfold meetsMinimum. lia.
Qed.


(** The balance reading inside the loop of [AlgorandBlockchainService]. *)
Lemma reached_run (h : History) :
  tryCatch
    (updatedInfo <- AlgorandBlockchainService.getAccountInfo w address ;;
     ret (AlgorandBlockchainService.minimumBalance
          <=? AlgorandBlockchainService.amountOrZero updatedInfo)%Z)
    (fun _ => ret false) h
  = (Normal (100000 <=? balanceOf (accountInformation w h address))%Z,
     (h ++ [EAccountInformation address])%list).
Proof.
  unfold tryCatch, bind, AlgorandBlockchainService.getAccountInfo, tryCatch, call, ret,
    throw, balanceOf.
  destruct (accountInformation w h address) as [[z|]|e]; try reflexivity.
  now destruct (includes (message e) "account does not exist").
Qed.

Lemma blockchain_tryDispensers_step (d : AlgorandService.FundingSource)
      (rest : list AlgorandService.FundingSource) (funded : bool) (h : History) :
  let request := EFetch (AlgorandService.url d) (AlgorandService.body d) in
  AlgorandBlockchainService.tryDispensers w address (d :: rest) funded h
  = match fetch w h (AlgorandService.url d) with
    | Normal r =>
        if acknowledged r then
          let h2 := (h ++ [request; ESleep 8000])%list in
          if (100000 <=? balanceOf (accountInformation w h2 address))%Z
          then (Normal true, (h2 ++ [EAccountInformation address])%list)
          else AlgorandBlockchainService.tryDispensers w address rest true
                 (h2 ++ [EAccountInformation address])%list
        else AlgorandBlockchainService.tryDispensers w address rest funded
               (h ++ [request])%list
    | Throw _ =>
        AlgorandBlockchainService.tryDispensers w address rest funded (h ++ [request])%list
    end.
Proof.
  cbn [AlgorandBlockchainService.tryDispensers]. unfold bind at 1. unfold tryCatch at 1.
  unfold bind at 1. unfold call at 1. unfold acknowledged.
  destruct (fetch w h (AlgorandService.url d)) as [r|e]; [|reflexivity].
  unfold ret at 1.
  destruct (ok r || (status r =? 200)%Z); [|reflexivity].
  unfold bind at 1. unfold sleep at 1. unfold bind at 1.
  rewrite <- List.app_assoc. cbn [app]. rewrite reached_run.
  now destruct (100000 <=? _)%Z.
Qed.

Lemma someAcknowledged_cons (h evs : History) (e : Event) :
  someAcknowledged w (h ++ [e])%list evs -> someAcknowledged w h (e :: evs).
Proof.
  intros (pre & u & bd & post & r & -> & F & A).
  exists (e :: pre), u, bd, post, r. rewrite <- List.app_assoc in F. now repeat split.
Qed.

Lemma blockchain_tryDispensers_run (sources : list AlgorandService.FundingSource) :
  forall (funded : bool) (h : History),
  exists (b : bool) (evs : History),
    AlgorandBlockchainService.tryDispensers w address sources funded h
    = (Normal b, (h ++ evs)%list)
    /\ (b = true ->
        (exists pre, evs = (pre ++ [EAccountInformation address])%list
                     /\ meetsMinimum w address (h ++ pre)%list)
        \/ (fetchUrls evs = map AlgorandService.url sources
            /\ (funded = true \/ someAcknowledged w h evs)))
    /\ (b = false -> fetchUrls evs = map AlgorandService.url sources /\ funded = false).
Proof.
  induction sources as [|d rest IH]; intros funded h.
  - exists funded, []. rewrite List.app_nil_r.
    split; [now destruct funded | split].
    + intros ->. right. split; [reflexivity | now left].
    + intros ->. now split.
  - rewrite blockchain_tryDispensers_step. cbv zeta.
    set (request := EFetch (AlgorandService.url d) (AlgorandService.body d)).
    assert (Hskip :
      exists (b : bool) (evs : History),
        AlgorandBlockchainService.tryDispensers w address rest funded (h ++ [request])%list
        = (Normal b, (h ++ evs)%list)
        /\ (b = true ->
            (exists pre, evs = (pre ++ [EAccountInformation address])%list
                         /\ meetsMinimum w address (h ++ pre)%list)
            \/ (fetchUrls evs = map AlgorandService.url (d :: rest)
                /\ (funded = true \/ someAcknowledged w h evs)))
        /\ (b = false ->
            fetchUrls evs = map AlgorandService.url (d :: rest) /\ funded = false)).
    { destruct (IH funded (h ++ [request])%list) as (b & evs & E & Ht & Hf).
      exists b, (request :: evs). rewrite E. split; [|split].
      - f_equal. now rewrite <- List.app_assoc.
      - intros Hb. destruct (Ht Hb) as [(pre & -> & Hm) | (U & A)].
        + left. exists (request :: pre). split; [reflexivity|].
          now rewrite <- List.app_assoc in Hm.
        + right. split.
          * change (fetchUrls (request :: evs))
              with (AlgorandService.url d :: fetchUrls evs). now rewrite U.
          * destruct A as [A|A]; [now left | right; now apply someAcknowledged_cons].
      - intros Hb. destruct (Hf Hb) as [U F]. split; [|exact F].
        change (fetchUrls (request :: evs)) with (AlgorandService.url d :: fetchUrls evs).
        now rewrite U. }
    destruct (fetch w h (AlgorandService.url d)) as [r|e] eqn:Fr; [|exact Hskip].
    destruct (acknowledged r) eqn:Ar; [|exact Hskip].
    destruct (Z.leb_spec 100000
                (balanceOf (accountInformation w (h ++ [request; ESleep 8000%N])%list address)))
      as [Hm|Hm].
    + exists true, [request; ESleep 8000%N; EAccountInformation address].
      split; [|split].
      * f_equal. now rewrite <- List.app_assoc.
      * intros _. left. exists [request; ESleep 8000%N]. split; [reflexivity | exact Hm].
      * discriminate.
    + destruct (IH true ((h ++ [request; ESleep 8000%N]) ++ [EAccountInformation address])%list)
        as (b & evs & E & Ht & Hf).
      exists b, (request :: ESleep 8000%N :: EAccountInformation address :: evs).
      rewrite E. split; [|split].
      * f_equal. now rewrite <- !List.app_assoc.
      * intros Hb. destruct (Ht Hb) as [(pre & -> & Hm') | (U & _)].
        -- left. exists (request :: ESleep 8000%N :: EAccountInformation address :: pre).
           split; [reflexivity|]. now rewrite <- !List.app_assoc in Hm'.
        -- right. split.
           ++ change (fetchUrls (request :: ESleep 8000%N
                                   :: EAccountInformation address :: evs))
                with (AlgorandService.url d :: fetchUrls evs). now rewrite U.
           ++ right. exists [], (AlgorandService.url d), (AlgorandService.body d),
                (ESleep 8000%N :: EAccountInformation address :: evs), r.
              rewrite List.app_nil_r. now repeat split.
      * intros Hb. now destruct (Hf Hb).
Qed.

(** [AlgorandBlockchainService.ensureAccountFunded]: it never throws;
    [true] is returned after a balance query that met the minimum, or
    after all dispensers were asked and one of them acknowledged. *)
Lemma blockchain_ensureAccountFunded_run (h : History) :
  exists (b : bool) (evs : History),
    AlgorandBlockchainService.ensureAccountFunded w address h = (Normal b, (h ++ evs)%list)
    /\ (b = true ->
        (exists pre, evs = (pre ++ [EAccountInformation address])%list
                     /\ meetsMinimum w address (h ++ pre)%list)
        \/ (fetchUrls evs
            = map AlgorandService.url (AlgorandBlockchainService.fundingSources address)
            /\ someAcknowledged w h evs))
    /\ (b = false ->
        fetchUrls evs
        = map AlgorandService.url (AlgorandBlockchainService.fundingSources address)
        \/ exists e, accountInformation w h address = Throw e)
    /\ (meetsMinimum w address h -> b = true /\ evs = [EAccountInformation address]).
Proof.
  assert (Hloop :
    ~ meetsMinimum w address h ->
    exists (b : bool) (evs : History),
      AlgorandBlockchainService.tryDispensers w address
        (AlgorandBlockchainService.fundingSources address) false
        (h ++ [EAccountInformation address])%list
      = (Normal b, (h ++ evs)%list)
      /\ (b = true ->
          (exists pre, evs = (pre ++ [EAccountInformation address])%list
                       /\ meetsMinimum w address (h ++ pre)%list)
          \/ (fetchUrls evs
              = map AlgorandService.url (AlgorandBlockchainService.fundingSources address)
              /\ someAcknowledged w h evs))
      /\ (b = false ->
          fetchUrls evs
          = map AlgorandService.url (AlgorandBlockchainService.fundingSources address)
          \/ exists e, accountInformation w h address = Throw e)
      /\ (meetsMinimum w address h -> b = true /\ evs = [EAccountInformation address])).
  { intros Hn.
    destruct (blockchain_tryDispensers_run
                (AlgorandBlockchainService.fundingSources address) false
                (h ++ [EAccountInformation address])%list)
      as (b & evs & E & Ht & Hf).
    exists b, (EAccountInformation address :: evs). rewrite E. split; [|split; [|split]].
    - f_equal. now rewrite <- List.app_assoc.
    - intros Hb. destruct (Ht Hb) as [(pre & -> & Hm') | (U & [A|A])].
      + left. exists (EAccountInformation address :: pre). split; [reflexivity|].
        now rewrite <- List.app_assoc in Hm'.
      + discriminate A.
      + right. split; [exact U | now apply someAcknowledged_cons].
    - intros Hb. left. now destruct (Hf Hb).
    - intros Hm. now elim Hn. }
  unfold AlgorandBlockchainService.ensureAccountFunded, tryCatch. unfold bind at 1.
  unfold AlgorandBlockchainService.getAccountInfo, tryCatch, call.
  unfold meetsMinimum in *.
  destruct (accountInformation w h address) as [info|e] eqn:Ai.
  - unfold AlgorandBlockchainService.minimumBalance.
    replace (AlgorandBlockchainService.amountOrZero info) with (balanceOf (Normal info))
      by now destruct info.
    destruct (Z.leb_spec 100000 (balanceOf (Normal info))) as [Hm|Hm].
    + exists true, [EAccountInformation address].
      split; [reflexivity | split; [|split; [discriminate | now split]]].
      intros _. left. exists []. rewrite List.app_nil_r. split; [reflexivity|].
      now rewrite Ai.
    + destruct Hloop as (b & evs & E & R); [lia|].
      exists b, evs. rewrite E. split; [reflexivity | exact R].
  - destruct (includes (message e) "account does not exist").
    + unfold ret at 1. cbn [AlgorandBlockchainService.amountOrZero].
      change (AlgorandBlockchainService.minimumBalance <=? 0)%Z with false.
      cbv iota. destruct Hloop as (b & evs & E & R); [cbn [balanceOf]; lia|].
      exists b, evs. rewrite E. split; [reflexivity | exact R].
    + exists false, [EAccountInformation address].
      split; [reflexivity | split; [discriminate | split]].
      * intros _. right. now exists e.
      * cbn [balanceOf]. lia.
Qed.

(** The acknowledgements of a run, read off its events. *)
Lemma someAcknowledged_nil (h : History) : ~ someAcknowledged w h [].
Proof. intros (pre & u & bd & post & r & E & _). now destruct pre. Qed.

Lemma someAcknowledged_uncons (h evs : History) (e : Event) :
  someAcknowledged w h (e :: evs) ->
  (exists u bd r, e = EFetch u bd /\ fetch w h u = Normal r /\ acknowledged r = true)
  \/ someAcknowledged w (h ++ [e])%list evs.
Proof.
  intros (pre & u & bd & post & r & E & F & A). destruct pre as [|e' pre].
  - left. cbn in E. injection E as -> _. rewrite List.app_nil_r in F. now exists u, bd, r.
  - right. cbn in E. injection E as <- ->. exists pre, u, bd, post, r.
    rewrite <- List.app_assoc. now repeat split.
Qed.

Lemma run_cut (h pre evs evs' : History) :
  (h ++ evs)%list = ((h ++ pre) ++ evs')%list -> evs = (pre ++ evs')%list.
Proof. rewrite <- List.app_assoc. apply List.app_inv_head. Qed.

(** An acknowledged request decides the result of the loop of
    [AlgorandBlockchainService]: the flag [funded] is set and never cleared. *)
Lemma blockchain_tryDispensers_acknowledged (sources : list AlgorandService.FundingSource) :
  forall (funded : bool) (h : History) (b : bool) (evs : History),
    AlgorandBlockchainService.tryDispensers w address sources funded h
    = (Normal b, (h ++ evs)%list) ->
    someAcknowledged w h evs -> b = true.
Proof.
  induction sources as [|d rest IH]; intros funded h b evs E A.
  - assert (evs = []) as ->.
    { destruct funded; injection E as _ Hh;
        rewrite <- (List.app_nil_r h) in Hh at 1; now apply List.app_inv_head in Hh. }
    now elim (someAcknowledged_nil h).
  - rewrite blockchain_tryDispensers_step in E. cbv zeta in E.
    set (request := EFetch (AlgorandService.url d) (AlgorandService.body d)) in *.
    assert (Hskip :
      (forall r, fetch w h (AlgorandService.url d) = Normal r -> acknowledged r = false) ->
      AlgorandBlockchainService.tryDispensers w address rest funded (h ++ [request])%list
      = (Normal b, (h ++ evs)%list) -> b = true).
    { intros Hn E0.
      destruct (blockchain_tryDispensers_run rest funded (h ++ [request])%list)
        as (b' & evs' & E' & _).
      rewrite E' in E0. injection E0 as -> Hh. symmetry in Hh. apply run_cut in Hh. subst evs.
      destruct (someAcknowledged_uncons _ _ _ A) as [(u & bd & r & Q & F & Ak) | A'].
      - injection Q as <- _. rewrite (Hn r F) in Ak. discriminate.
      - exact (IH funded _ _ _ E' A'). }
    destruct (fetch w h (AlgorandService.url d)) as [r|e] eqn:Fr;
      [|apply Hskip; [discriminate | exact E]].
    destruct (acknowledged r) eqn:Ar;
      [|apply Hskip; [now intros r' [= <-] | exact E]].
    destruct (100000 <=? _)%Z; [now injection E as <- _|].
    destruct (blockchain_tryDispensers_run rest true
                ((h ++ [request; ESleep 8000%N]) ++ [EAccountInformation address])%list)
      as (b' & evs' & E' & _ & Hf).
    rewrite E' in E. injection E as -> _.
    destruct b; [reflexivity | now destruct (Hf eq_refl)].
Qed.

(** [AlgorandBlockchainService.ensureAccountFunded], the converse facts: an
    acknowledged request gives [true]; [false] is returned after every
    dispenser was asked and none acknowledged, or at once, as the only event
    of the run, when the first balance query throws another error than
    [account does not exist]. *)
Lemma blockchain_ensureAccountFunded_exact (h : History) (b : bool) (evs : History) :
  AlgorandBlockchainService.ensureAccountFunded w address h = (Normal b, (h ++ evs)%list) ->
  (someAcknowledged w h evs -> b = true)
  /\ (b = false ->
      (fetchUrls evs
       = map AlgorandService.url (AlgorandBlockchainService.fundingSources address)
       /\ ~ someAcknowledged w h evs)
      \/ (evs = [EAccountInformation address]
          /\ exists e, accountInformation w h address = Throw e
                       /\ includes (message e) "account does not exist" = false))
  /\ (forall e, accountInformation w h address = Throw e ->
                includes (message e) "account does not exist" = false ->
                b = false /\ evs = [EAccountInformation address]).
Proof.
  intros E.
  assert (Hloop :
    AlgorandBlockchainService.tryDispensers w address
      (AlgorandBlockchainService.fundingSources address) false
      (h ++ [EAccountInformation address])%list
    = (Normal b, (h ++ evs)%list) ->
    (someAcknowledged w h evs -> b = true)
    /\ (b = false ->
        fetchUrls evs
        = map AlgorandService.url (AlgorandBlockchainService.fundingSources address)
        /\ ~ someAcknowledged w h evs)).
  { intros E0.
    destruct (blockchain_tryDispensers_run
                (AlgorandBlockchainService.fundingSources address) false
                (h ++ [EAccountInformation address])%list)
      as (b' & evs' & E' & _ & Hf).
    assert (Q := E0). rewrite E' in Q. injection Q as -> Hh. symmetry in Hh.
    apply run_cut in Hh. cbn [app] in Hh. subst evs.
    assert (Hack : someAcknowledged w h (EAccountInformation address :: evs') -> b = true).
    { intros A. destruct (someAcknowledged_uncons _ _ _ A) as [(u & bd & r & Q & _) | A'];
        [discriminate Q|].
      exact (blockchain_tryDispensers_acknowledged _ _ _ _ _ E' A'). }
    split; [exact Hack|]. intros Hb. split.
    - now destruct (Hf Hb).
    - intros A. rewrite (Hack A) in Hb. discriminate. }
  assert (Hinner :
    (let (c, h') :=
       AlgorandBlockchainService.tryDispensers w address
         (AlgorandBlockchainService.fundingSources address) false
         (h ++ [EAccountInformation address])%list in
     match c with
     | Normal a => (Normal a, h')
     | Throw _ => ret false h'
     end) = (Normal b, (h ++ evs)%list) ->
    AlgorandBlockchainService.tryDispensers w address
      (AlgorandBlockchainService.fundingSources address) false
      (h ++ [EAccountInformation address])%list
    = (Normal b, (h ++ evs)%list)).
  { destruct (blockchain_tryDispensers_run
                (AlgorandBlockchainService.fundingSources address) false
                (h ++ [EAccountInformation address])%list)
      as (b' & evs' & E' & _).
    rewrite E'. exact (fun Q => Q). }
  revert E.
  unfold AlgorandBlockchainService.ensureAccountFunded, tryCatch. unfold bind at 1.
  unfold AlgorandBlockchainService.getAccountInfo, tryCatch, call.
  destruct (accountInformation w h address) as [info|e] eqn:Ai.
  - destruct (AlgorandBlockchainService.minimumBalance
              <=? AlgorandBlockchainService.amountOrZero info)%Z.
    + unfold ret. intros [= <- Hh]. split; [reflexivity | split; [discriminate|]].
      intros e Q. discriminate Q.
    + intros E. apply Hinner in E. destruct (Hloop E) as [Ha Hf].
      split; [exact Ha | split; [|intros e Q; discriminate Q]].
      intros Hb. left. now apply Hf.
  - destruct (includes (message e) "account does not exist") eqn:Inc.
    + unfold ret at 1. cbn [AlgorandBlockchainService.amountOrZero].
      change (AlgorandBlockchainService.minimumBalance <=? 0)%Z with false. cbv iota.
      intros E. apply Hinner in E. destruct (Hloop E) as [Ha Hf].
      split; [exact Ha | split].
      * intros Hb. left. now apply Hf.
      * intros e' [= <-] Q. rewrite Q in Inc. discriminate.
    + unfold throw, ret. intros [= <- Hh].
      assert (evs = [EAccountInformation address]) as ->
        by (symmetry; now apply List.app_inv_head in Hh).
      split; [|split].
      * intros A. destruct (someAcknowledged_uncons _ _ _ A) as [(u & bd & r & Q & _) | A'];
          [discriminate Q | now elim (someAcknowledged_nil _ A')].
      * intros _. right. split; [reflexivity | now exists e].
      * now intros.
Qed.

End Funding.

(** C7, as the code has it.  The claim fails for
    [AlgorandBlockchainService]: on a ledger where the account stays empty
    and the faucets acknowledge, every dispenser is asked, the minimum is
    never met, and the function returns [true]. *)
Lemma funding_exhaustion_counterexample :
  let run := AlgorandBlockchainService.ensureAccountFunded Scenario.dryWorld "ADDR" [] in
  fst run = Normal true
  /\ fetchUrls (snd run)
     = map AlgorandService.url (AlgorandBlockchainService.fundingSources "ADDR")
  /\ forall h, balanceOf (accountInformation Scenario.dryWorld h "ADDR") = 0%Z.
Proof. vm_compute. repeat split. Qed.

(** C7, amended.  Both services return without throwing, and return [true]
    with the balance query as their only call when it already shows the
    minimum.  A failing dispenser does not end the loop: [AlgorandService]
    returns [false] only after every dispenser was asked, and [true] only
    right after a query that showed the minimum.
    [AlgorandBlockchainService] returns [true] in that case and also when
    every dispenser was asked and one acknowledged the request; whenever a
    request of the run was acknowledged it returns [true]; it returns
    [false] after every dispenser was asked and none acknowledged, or at
    once, with the balance query as the only event, when that query throws
    another error than [account does not exist], and in that case it always
    returns [false]. *)
Theorem funding_characterised (w : World) (address : string) (h : History) :
  (exists (b : bool) (evs : History),
      AlgorandService.ensureAccountFunded w address h = (Normal b, (h ++ evs)%list)
      /\ (meetsMinimum w address h -> b = true /\ fetchUrls evs = [])
      /\ (b = true ->
          exists pre, evs = (pre ++ [EAccountInformation address])%list
                      /\ meetsMinimum w address (h ++ pre)%list)
      /\ (b = false ->
          fetchUrls evs = map AlgorandService.url (AlgorandService.fundingSources address)))
  /\ (exists (b : bool) (evs : History),
         AlgorandBlockchainService.ensureAccountFunded w address h
         = (Normal b, (h ++ evs)%list)
         /\ (meetsMinimum w address h -> b = true /\ fetchUrls evs = [])
         /\ (b = true ->
             (exists pre, evs = (pre ++ [EAccountInformation address])%list
                          /\ meetsMinimum w address (h ++ pre)%list)
             \/ (fetchUrls evs
                 = map AlgorandService.url (AlgorandBlockchainService.fundingSources address)
                 /\ someAcknowledged w h evs))
         /\ (someAcknowledged w h evs -> b = true)
         /\ (b = false ->
             (fetchUrls evs
              = map AlgorandService.url (AlgorandBlockchainService.fundingSources address)
              /\ ~ someAcknowledged w h evs)
             \/ (evs = [EAccountInformation address]
                 /\ exists e, accountInformation w h address = Throw e
                              /\ includes (message e) "account does not exist" = false))
         /\ (forall e, accountInformation w h address = Throw e ->
                       includes (message e) "account does not exist" = false ->
                       b = false /\ evs = [EAccountInformation address])).
Proof.
  split.
  - destruct (ensureAccountFunded_run w address h) as (b & evs & E & Ht & Hf & Hs).
    exists b, evs. split; [exact E | split; [|split; assumption]].
    intros Hm. destruct (Hs Hm) as [-> ->]. now split.
  - destruct (blockchain_ensureAccountFunded_run w address h) as (b & evs & E & Ht & _ & Hs).
    destruct (blockchain_ensureAccountFunded_exact w address h b evs E) as (Ha & Hf & Hx).
    exists b, evs. split; [exact E | split; [|split; [exact Ht | split; [exact Ha | split]]]].
    + intros Hm. destruct (Hs Hm) as [-> ->]. now split.
    + exact Hf.
    + exact Hx.
Qed.

(** ** Verification *)

Lemma addressCheck_true (userAddress : JsVal) :
  AlgorandService.addressCheck userAddress = VBool true
  <-> truthy userAddress = true /\ field userAddress "length" = VNumber 58.
Proof.
  unfold AlgorandService.addressCheck, jsAnd. split.
  - destruct (truthy userAddress) eqn:T.
    + intros E. split; [reflexivity|].
      destruct (field userAddress "length"); try discriminate E.
      injection E as E. apply Z.eqb_eq in E. now subst.
    + intros ->. discriminate T.
  - intros [-> ->]. reflexivity.
Qed.

(** C9: without a transaction id, absent or empty, both exported
    [verifyHealthDataOnBlockchain] return the address check and leave the
    history of external calls unchanged; the result does not depend on the
    data hash, and it is [true] exactly when the address is truthy and its
    length is 58. *)
Theorem verification_without_txid
        (sdk : Sdk) (w : World) (dataHash : string) (userAddress : JsVal) (h : History) :
  AlgorandService.verifyHealthDataOnBlockchain sdk w dataHash userAddress None h
  = (Normal (AlgorandService.addressCheck userAddress), h)
  /\ AlgorandService.verifyHealthDataOnBlockchain sdk w dataHash userAddress
       (Some EmptyString) h
     = (Normal (AlgorandService.addressCheck userAddress), h)
  /\ LibAlgorand.verifyHealthDataOnBlockchain sdk w dataHash userAddress None h
     = (Normal (AlgorandService.addressCheck userAddress), h)
  /\ LibAlgorand.verifyHealthDataOnBlockchain sdk w dataHash userAddress (Some EmptyString) h
     = (Normal (AlgorandService.addressCheck userAddress), h)
  /\ (AlgorandService.addressCheck userAddress = VBool true
      <-> truthy userAddress = true /\ field userAddress "length" = VNumber 58).
Proof.
  split; [reflexivity | split; [reflexivity | split; [reflexivity | split]]];
    [reflexivity | apply addressCheck_true].
Qed.

Section VerifyOutcomes.

Variable sdk : Sdk.
Variable w : World.
Variables dataHash txId : string.

Local Abbreviation pending := (EPendingTransactionInformation txId).


Lemma fetchTxnInfo_first (h : History) (txnInfo : JsVal) :
  pendingTransactionInformation w h txId = Normal txnInfo ->
  AlgorandService.fetchTxnInfo w txId AlgorandService.maxAttempts 0 h
  = (Normal txnInfo, (h ++ [pending])%list).
Proof.
  intros E. unfold AlgorandService.maxAttempts.
  cbn [AlgorandService.fetchTxnInfo Nat.ltb Nat.leb].
  unfold AlgorandService.maxAttempts. cbn [Nat.ltb Nat.leb].
  unfold bind, tryCatch, call, ret. now rewrite E.
Qed.

(** The fallback loop when no later answer shows a note: three more
    fetches, then [false]. *)
Lemma fallbackVerification_exhausted (h : History) :
  (forall hist, match pendingTransactionInformation w hist txId with
                | Normal v => truthy (AlgorandService.findNote v) = false
                | Throw _ => True
                end) ->
  AlgorandService.fallbackVerification sdk w txId dataHash h
  = (Normal false,
     (h ++ [ESleep 5000; pending; ESleep 3000; pending; ESleep 6000; pending])%list).
Proof.
  intros Hall. unfold AlgorandService.fallbackVerification.
  cbn [AlgorandService.fallbackAttempts Nat.ltb Nat.leb].
  unfold bind, tryCatch, call, sleep, ret.
  pose proof (Hall (h ++ [ESleep 5000])%list) as H1.
  destruct (pendingTransactionInformation w (h ++ [ESleep 5000])%list txId) as [v1|e1];
    [rewrite H1|];
    (pose proof (Hall (((h ++ [ESleep 5000]) ++ [pending])
                         ++ [ESleep (3000 * N.of_nat 1)])%list) as H2;
     destruct (pendingTransactionInformation w
                 (((h ++ [ESleep 5000]) ++ [pending]) ++ [ESleep (3000 * N.of_nat 1)])%list
                 txId) as [v2|e2];
     [rewrite H2|]);
    (pose proof (Hall (((((h ++ [ESleep 5000]) ++ [pending])
                           ++ [ESleep (3000 * N.of_nat 1)]) ++ [pending])
                         ++ [ESleep (3000 * N.of_nat 2)])%list) as H3;
     destruct (pendingTransactionInformation w
                 (((((h ++ [ESleep 5000]) ++ [pending])
                      ++ [ESleep (3000 * N.of_nat 1)]) ++ [pending])
                    ++ [ESleep (3000 * N.of_nat 2)])%list txId) as [v3|e3];
     [rewrite H3|]);
    now rewrite <- !List.app_assoc.
Qed.





(** A confirmed transaction in which no note is found, now or in the
    three fetches of the fallback. *)
Lemma verify_note_missing (h : History) (txnInfo : JsVal) :
  pendingTransactionInformation w h txId = Normal txnInfo ->
  truthy txnInfo = true -> truthy (field txnInfo "confirmed-round") = true ->
  truthy (AlgorandService.extractNote txnInfo) = false ->
  (forall hist, match pendingTransactionInformation w hist txId with
                | Normal v => truthy (AlgorandService.findNote v) = false
                | Throw _ => True
                end) ->
  AlgorandService.verifyHealthData sdk w dataHash txId h
  = (Normal false,
     (h ++ [pending; ESleep 5000; pending; ESleep 3000; pending; ESleep 6000; pending])%list).
Proof.
  intros E Ht Hc Hn Hall. unfold AlgorandService.verifyHealthData, tryCatch. unfold bind at 1.
  rewrite (fetchTxnInfo_first h txnInfo E), Ht, Hc, Hn. cbn [negb].
  rewrite (fallbackVerification_exhausted _ Hall). now rewrite <- List.app_assoc.
Qed.

(** A note that decodes: the outcome is the verdict of the note codec. *)
Lemma verify_note_found (h : History) (txnInfo : JsVal) (noteString : string) :
  pendingTransactionInformation w h txId = Normal txnInfo ->
  truthy txnInfo = true -> truthy (field txnInfo "confirmed-round") = true ->
  truthy (AlgorandService.extractNote txnInfo) = true ->
  AlgorandService.decodeNote sdk (AlgorandService.extractNote txnInfo) = Normal noteString ->
  AlgorandService.verifyHealthData sdk w dataHash txId h
  = (Normal (verifyNoteString noteString dataHash), (h ++ [pending])%list).
Proof.
  intros E Ht Hc Hn Hd. unfold AlgorandService.verifyHealthData, tryCatch. unfold bind at 1.
  rewrite (fetchTxnInfo_first h txnInfo E), Ht, Hc, Hn. cbn [negb].
  unfold bind, lift. now rewrite Hd.
Qed.



(** The verification of [AlgorandBlockchainService] never throws either. *)
Lemma verifyHealthDataFromTransaction_total (h : History) :
  exists (b : bool) (h' : History),
    AlgorandBlockchainService.verifyHealthDataFromTransaction sdk w dataHash txId h
    = (Normal b, h').
Proof.
  unfold AlgorandBlockchainService.verifyHealthDataFromTransaction, tryCatch.
  match goal with
  | |- context [let (c, h') := ?m in _] => destruct m as [[b|e] h']
  end; eexists _, _; reflexivity.
Qed.

End VerifyOutcomes.


(** ** Commitment *)

(** The histories of the goal and of the hypotheses, written as one list
    of events appended to the history at the start. *)
Ltac flatten_histories :=
  repeat match goal with
         | H : context [((_ ++ _) ++ _)%list] |- _ => rewrite <- List.app_assoc in H
         | |- context [((_ ++ _) ++ _)%list] => rewrite <- List.app_assoc
         end;
  cbn [List.app] in *.

Section Commitment.

Variable sdk : Sdk.
Variable w : World.
Variable network : string.
Variable userAccount : JsVal.
Variable hash : string.

Lemma paramFetches_app (a b : History) :
  paramFetches (a ++ b)%list = paramFetches a + paramFetches b.
Proof. unfold paramFetches. now rewrite filter_app, length_app. Qed.

(** The parameters are asked for at least once, and at most three
    times; the parameters returned are the answer to the last fetch. *)
Lemma getTransactionParamsWithRetry_run (h : History) :
  exists (r : Completion JsVal) (evs : History),
    AlgorandBlockchainService.getTransactionParamsWithRetry w h = (r, (h ++ evs)%list)
    /\ 1 <= paramFetches evs
    /\ (forall params, r = Normal params ->
          exists pre, evs = (pre ++ [EGetTransactionParams])%list
                      /\ getTransactionParams w (h ++ pre)%list = Normal params).
Proof.
  unfold AlgorandBlockchainService.getTransactionParamsWithRetry,
    AlgorandBlockchainService.maxAttempts.
  cbn [AlgorandBlockchainService.paramsLoop Nat.ltb Nat.leb Nat.eqb].
  unfold AlgorandBlockchainService.maxAttempts. cbn [Nat.ltb Nat.leb Nat.eqb].
  unfold tryCatch, call, bind, sleep, throw.
  destruct (getTransactionParams w h) as [p1|e1] eqn:E1.
  { exists (Normal p1), [EGetTransactionParams].
    split; [reflexivity | split; [cbn; lia|]].
    intros params [= <-]. exists []. now rewrite List.app_nil_r. }
  destruct (getTransactionParams w
              ((h ++ [EGetTransactionParams]) ++ [ESleep (1000 * N.of_nat 1)])%list)
    as [p2|e2] eqn:E2.
  { eexists _, _. split; [rewrite <- !List.app_assoc; reflexivity | split; [cbn; lia|]].
    intros params [= <-]. eexists [_; _]. split; [reflexivity|].
    now rewrite <- !List.app_assoc in E2. }
  destruct (getTransactionParams w
              ((((h ++ [EGetTransactionParams]) ++ [ESleep (1000 * N.of_nat 1)])
                  ++ [EGetTransactionParams]) ++ [ESleep (1000 * N.of_nat 2)])%list)
    as [p3|e3] eqn:E3;
    eexists _, _; (split; [rewrite <- !List.app_assoc; reflexivity | split; [cbn; lia|]]).
  - intros params [= <-]. eexists [_; _; _; _]. split; [reflexivity|].
    now rewrite <- !List.app_assoc in E3.
  - intros params Q. discriminate Q.
Qed.

(** The funding step of an attempt never throws. *)
Lemma funding_step_run (h : History) :
  exists evs : History,
    (if String.eqb network "testnet"
     then AlgorandBlockchainService.ensureAccountFunded w
            (AlgorandService.addrOf userAccount) ;;; ret tt
     else ret tt) h
    = (Normal tt, (h ++ evs)%list).
Proof.
  destruct (String.eqb network "testnet").
  - destruct (blockchain_ensureAccountFunded_run w (AlgorandService.addrOf userAccount) h)
      as (b & evs & E & _).
    exists evs. unfold bind. now rewrite E.
  - exists []. now rewrite List.app_nil_r.
Qed.

Lemma storeAttempt_run (h : History) :
  exists (r : Completion AlgorandBlockchainService.HealthDataTransaction) (evs : History),
    AlgorandBlockchainService.storeAttempt sdk w network userAccount hash h
    = (r, (h ++ evs)%list)
    /\ 1 <= paramFetches evs
    /\ (forall t, r = Normal t ->
                  carriesConfirmation sdk w network userAccount hash h evs t).
Proof.
  unfold AlgorandBlockchainService.storeAttempt. unfold bind at 1.
  destruct (funding_step_run h) as [evs1 ->].
  unfold bind at 1.
  destruct (getTransactionParamsWithRetry_run (h ++ evs1)%list)
    as (rp & evs2 & -> & Hp & Hlast).
  assert (Hge : forall rest, 1 <= paramFetches (evs1 ++ evs2 ++ rest)%list)
    by (intros rest; rewrite !paramFetches_app; lia).
  destruct rp as [params|e].
  2:{ exists (Throw e), (evs1 ++ evs2)%list. split; [now rewrite List.app_assoc|].
      split; [rewrite <- (List.app_nil_r evs2); apply Hge | discriminate]. }
  destruct (Hlast params eq_refl) as (pre2 & Q2 & Ep). clear Hlast.
  unfold bind, call, lift, ret, AlgorandBlockchainService.waitForConfirmationWithTimeout,
    tryCatch, bind, call, lift, ret, throw.
  destruct (algosdk_makePaymentTxn sdk _) as [[]|e].
  2:{ eexists _, _. split; [rewrite <- !List.app_assoc; reflexivity|].
      split; [apply Hge | discriminate]. }
  destruct (algosdk_signTxn sdk _ _) as [signedTxn|e] eqn:Sg.
  2:{ eexists _, _. split; [rewrite <- !List.app_assoc; reflexivity|].
      split; [apply Hge | discriminate]. }
  destruct (sendRawTransaction w _ signedTxn) as [id|e] eqn:Es.
  2:{ eexists _, _. split; [rewrite <- !List.app_assoc; reflexivity|].
      split; [apply Hge | discriminate]. }
  destruct (waitForConfirmation w _ id 10) as [confirmedTxn|e] eqn:Ew.
  2:{ eexists _, _. split; [rewrite <- !List.app_assoc; reflexivity|].
      split; [apply Hge | discriminate]. }
  destruct (getField confirmedTxn "confirmed-round") as [round|e] eqn:Eg.
  2:{ eexists _, _. split; [rewrite <- !List.app_assoc; reflexivity|].
      split; [apply Hge | discriminate]. }
  assert (round = field confirmedTxn "confirmed-round") as ->
    by (destruct confirmedTxn; cbn in Eg; try discriminate Eg; now injection Eg as <-).
  rewrite Eg.
  eexists _, _. split; [rewrite <- !List.app_assoc; reflexivity|].
  split; [apply Hge|].
  intros t Et. injection Et as <-. clear Hge Hp Eg. subst evs2.
  exists (evs1 ++ pre2)%list, params, signedTxn, id, confirmedTxn. cbv zeta.
  flatten_histories. now repeat split.
Qed.

(** A commitment that succeeds ends with the attempt that succeeded: the
    events before it are those of the attempts that failed and of the
    pauses. *)
Lemma storeHealthDataInTransaction_committed
      (h hEnd : History) (t : AlgorandBlockchainService.HealthDataTransaction) :
  AlgorandBlockchainService.storeHealthDataInTransaction sdk w network userAccount hash h
  = (Normal t, hEnd) ->
  AlgorandBlockchainService.isValidAccount sdk userAccount = true
  /\ exists before evs : History,
       hEnd = (h ++ before ++ evs)%list
       /\ carriesConfirmation sdk w network userAccount hash (h ++ before)%list evs t.
Proof.
  unfold AlgorandBlockchainService.storeHealthDataInTransaction.
  destruct (AlgorandBlockchainService.isValidAccount sdk userAccount); cbn [negb];
    [|intros Q; discriminate Q].
  unfold AlgorandBlockchainService.maxAttempts.
  cbn [AlgorandBlockchainService.storeLoop Nat.ltb Nat.leb Nat.eqb].
  unfold AlgorandBlockchainService.maxAttempts. cbn [Nat.ltb Nat.leb Nat.eqb].
  unfold tryCatch, bind, sleep, throw.
  destruct (storeAttempt_run h) as (r1 & evs1 & -> & _ & C1).
  destruct r1 as [t1|e1].
  { intros [= <- <-]. split; [reflexivity|]. exists [], evs1.
    split; [reflexivity|]. rewrite List.app_nil_r. now apply C1. }
  match goal with
  | |- context [AlgorandBlockchainService.storeAttempt sdk w network userAccount hash ?hist] =>
      destruct (storeAttempt_run hist) as (r2 & evs2 & -> & _ & C2)
  end.
  destruct r2 as [t2|e2].
  { intros [= <- <-]. split; [reflexivity|].
    eexists (evs1 ++ [_])%list, evs2. specialize (C2 t2 eq_refl).
    split; [now rewrite <- !List.app_assoc|]. flatten_histories. exact C2. }
  match goal with
  | |- context [AlgorandBlockchainService.storeAttempt sdk w network userAccount hash ?hist] =>
      destruct (storeAttempt_run hist) as (r3 & evs3 & -> & _ & C3)
  end.
  destruct r3 as [t3|e3]; [|intros Q; discriminate Q].
  intros [= <- <-]. split; [reflexivity|].
  eexists (evs1 ++ [_] ++ evs2 ++ [_])%list, evs3. specialize (C3 t3 eq_refl).
  split; [now rewrite <- !List.app_assoc|]. flatten_histories. exact C3.
Qed.

End Commitment.

(** C8: for a valid account, [storeHealthDataInTransaction] retries the
    whole attempt up to three times with pauses of 2000 and 4000 ms, and
    fails after the third with its error wrapped; every attempt asks the
    node for the transaction parameters again; an attempt that succeeds has
    submitted the signed payment and waited for it, and returns the
    transaction id that the node gave to that submission and the round that
    the node gave to that wait; and so does the commitment, whose run ends
    with the attempt that succeeded. *)
Theorem commitment_retry_policy
        (sdk : Sdk) (w : World) (network : string) (userAccount : JsVal) (hash : string)
        (h : History) :
  AlgorandBlockchainService.isValidAccount sdk userAccount = true ->
  retriedThreeTimes
    (AlgorandBlockchainService.storeAttempt sdk w network userAccount hash)
    (AlgorandBlockchainService.storeHealthDataInTransaction sdk w network userAccount hash) h
  /\ (forall h' : History,
         exists (r : Completion AlgorandBlockchainService.HealthDataTransaction)
                (evs : History),
           AlgorandBlockchainService.storeAttempt sdk w network userAccount hash h'
           = (r, (h' ++ evs)%list)
           /\ 1 <= paramFetches evs
           /\ (forall t, r = Normal t ->
                         carriesConfirmation sdk w network userAccount hash h' evs t))
  /\ (forall (t : AlgorandBlockchainService.HealthDataTransaction) (hEnd : History),
         AlgorandBlockchainService.storeHealthDataInTransaction sdk w network userAccount
           hash h = (Normal t, hEnd) ->
         exists before evs : History,
           hEnd = (h ++ before ++ evs)%list
           /\ carriesConfirmation sdk w network userAccount hash (h ++ before)%list evs t).
Proof.
  intros Hvalid. split; [|split; [intros h'; apply storeAttempt_run|]].
  2:{ intros t hEnd E.
      now destruct (storeHealthDataInTransaction_committed sdk w network userAccount hash
                      h hEnd t E). }
  unfold retriedThreeTimes, AlgorandBlockchainService.storeHealthDataInTransaction.
  rewrite Hvalid. cbn [negb]. unfold AlgorandBlockchainService.maxAttempts.
  cbn [AlgorandBlockchainService.storeLoop Nat.ltb Nat.leb Nat.eqb].
  unfold AlgorandBlockchainService.maxAttempts. cbn [Nat.ltb Nat.leb Nat.eqb].
  unfold tryCatch, bind, sleep, throw.
  destruct (AlgorandBlockchainService.storeAttempt sdk w network userAccount hash h)
    as [[t1|e1] h1]; [reflexivity|].
  change (2000 * N.of_nat 1)%N with (2000 * 1)%N.
  destruct (AlgorandBlockchainService.storeAttempt sdk w network userAccount hash
              (h1 ++ [ESleep (2000 * 1)])%list) as [[t2|e2] h2]; [reflexivity|].
  change (2000 * N.of_nat 2)%N with (2000 * 2)%N.
  destruct (AlgorandBlockchainService.storeAttempt sdk w network userAccount hash
              (h2 ++ [ESleep (2000 * 2)])%list) as [[t3|e3] h3]; reflexivity.
Qed.

Lemma commitment_retry_policy_witness :
  let sdk := Scenario.noKeysSdk in
  let w := Scenario.happyWorld in
  let run := AlgorandBlockchainService.storeHealthDataInTransaction sdk w "testnet"
               Scenario.someAccount "abc123" [] in
  AlgorandBlockchainService.isValidAccount sdk Scenario.someAccount = true
  /\ exists t : AlgorandBlockchainService.HealthDataTransaction,
       fst run = Normal t
       /\ AlgorandBlockchainService.txId t = "TX1"
       /\ exists before evs : History,
            snd run = ([] ++ before ++ evs)%list
            /\ carriesConfirmation sdk w "testnet" Scenario.someAccount "abc123"
                 ([] ++ before)%list evs t.
Proof.
  split; [vm_compute; reflexivity|].
  eexists. split; [vm_compute; reflexivity|]. split; [reflexivity|].
  apply (fun V => proj2 (proj2 (commitment_retry_policy Scenario.noKeysSdk
                                  Scenario.happyWorld "testnet" Scenario.someAccount
                                  "abc123" [] V))).
  - vm_compute. reflexivity.
  - vm_compute. reflexivity.
Defined.

(** On the ledger that rejects every submission the commitment fails after
    three attempts, with the pauses of the policy between them. *)
Example commitment_fails_after_three_attempts :
  let run := AlgorandBlockchainService.storeHealthDataInTransaction Scenario.noKeysSdk
               Scenario.dryWorld "mainnet" Scenario.someAccount "abc123" [] in
  fst run = Throw {| message := "Failed to store health data after 3 attempts: overspend" |}
  /\ sleeps (snd run) = [2000; 4000]%N
  /\ paramFetches (snd run) = 3.
Proof. vm_compute. repeat split. Qed.

(** On the ledger that confirms, the commitment carries the transaction id
    and the confirmed round. *)
Example commitment_succeeds :
  exists t h',
    AlgorandBlockchainService.storeHealthDataInTransaction Scenario.noKeysSdk
      Scenario.happyWorld "testnet" Scenario.someAccount "abc123" [] = (Normal t, h')
    /\ AlgorandBlockchainService.txId t = "TX1"
    /\ AlgorandBlockchainService.blockNumber t = VNumber 42
    /\ AlgorandBlockchainService.dataHash t = "abc123"
    /\ fetchUrls h' = [] /\ sleeps h' = [].
Proof. eexists _, _. vm_compute. repeat split. Qed.

(** An invalid account is refused before the loop: no attempt is made and
    nothing is retried. *)
Example commitment_invalid_account :
  AlgorandBlockchainService.storeHealthDataInTransaction Scenario.noKeysSdk
    Scenario.happyWorld "testnet"
    (AlgorandService.createMockAccount Scenario.noKeysSdk 1) "abc123" []
  = (Throw {| message := "Invalid account provided for transaction" |}, []).
Proof. vm_compute. reflexivity. Qed.

(** * Further properties

    Properties of the same code beyond the claims of the specification:
    the exactness of the structured record, the size of the note, the
    traces of verification, funding and commitment, account generation, the
    fallback fingerprint, the mnemonics and the status kept by the store. *)

(** ** Occurrences of hexadecimal numerals *)

Section Occurrences.

Lemma append_eq_split (x z a b : string) :
  x ++ z = a ++ b ->
  exists m, (x = a ++ m /\ b = m ++ z) \/ (a = x ++ m /\ z = m ++ b).
Proof.
  revert a. induction x as [|c x IH]; intros a H.
  - exists a. right. split; [reflexivity | exact H].
  - destruct a as [|d a].
    + exists (String c x). left. cbn in H. now subst b.
    + cbn in H. injection H as -> H.
      destruct (IH a H) as [m [[-> ->]|[-> ->]]]; exists m; [left | right]; now split.
Qed.

Lemma allHex_append (a b : string) : allHex (a ++ b) = allHex a && allHex b.
Proof.
  induction a as [|c a IH]; [reflexivity|].
  cbn. rewrite IH. now rewrite andb_assoc.
Qed.

Lemma occursIn_empty (s : string) : occursIn EmptyString s.
Proof. now exists EmptyString, s. Qed.

Lemma occurs_cut (sub a b : string) (c : ascii) :
  allHex sub = true -> isLowerHex c = false ->
  occursIn sub (a ++ String c b) -> occursIn sub a \/ occursIn sub b.
Proof.
  intros Hs Hc [x [y E]]. symmetry in E.
  apply append_eq_split in E. destruct E as [m [[-> E]|[-> E]]].
  - destruct m as [|d m].
    + destruct sub as [|d sub]; [left; apply occursIn_empty|].
      cbn in E. injection E as <- _. cbn in Hs. now rewrite Hc in Hs.
    + cbn in E. injection E as _ ->. right. now exists m, y.
  - apply append_eq_split in E. destruct E as [n [[-> E]|[-> ->]]].
    + destruct n as [|d n].
      * left. exists x, EmptyString. now rewrite !append_nil_r.
      * cbn in E. injection E as <- _.
        rewrite allHex_append in Hs. cbn in Hs. rewrite Hc in Hs.
        now rewrite andb_false_r in Hs.
    + left. now exists x, n.
Qed.

Lemma occursIn_length (sub s : string) :
  occursIn sub s -> String.length sub <= String.length s.
Proof. intros [a [b ->]]. rewrite !length_append. lia. Qed.

Lemma occursIn_same_length (sub s : string) :
  occursIn sub s -> String.length sub = String.length s -> sub = s.
Proof.
  intros [a [b ->]] H. rewrite !length_append in H.
  destruct a; [|cbn in H; lia]. destruct b; [|cbn in H; lia].
  cbn. now rewrite append_nil_r.
Qed.

Lemma longestHexRun_ge (s : string) : forall cur, cur <= longestHexRun s cur.
Proof.
  induction s as [|c s IH]; intros cur; cbn; [lia|].
  destruct (isLowerHex c); [specialize (IH (S cur)) |]; lia.
Qed.

Lemma longestHexRun_prefix (sub y : string) :
  allHex sub = true ->
  forall cur, cur + String.length sub <= longestHexRun (sub ++ y) cur.
Proof.
  induction sub as [|c sub IH]; intros Hs cur.
  - cbn. pose proof (longestHexRun_ge y cur). lia.
  - cbn in Hs. apply andb_prop in Hs as [Hc Hs]. cbn. rewrite Hc.
    specialize (IH Hs (S cur)). lia.
Qed.

Lemma longestHexRun_occurs (sub : string) :
  allHex sub = true ->
  forall (s : string) (cur : nat), occursIn sub s -> String.length sub <= longestHexRun s cur.
Proof.
  intros Hs s cur [x [y ->]]. revert cur.
  induction x as [|c x IH]; intros cur.
  - cbn. pose proof (longestHexRun_prefix sub y Hs cur). lia.
  - cbn. destruct (isLowerHex c); [apply IH|].
    specialize (IH 0). lia.
Qed.

End Occurrences.
Section HexNotes.

Local Abbreviation noteHead :=
  ("{" ++ QuoteJSONString "type" ++ ":" ++ QuoteJSONString "HEALTH_DATA" ++ ","
       ++ QuoteJSONString "hash" ++ ":").
Local Abbreviation noteMid := ("," ++ QuoteJSONString "timestamp").
Local Abbreviation noteTail :=
  (QuoteJSONString "version" ++ ":" ++ QuoteJSONString "1.0" ++ ","
     ++ QuoteJSONString "app" ++ ":" ++ QuoteJSONString "HealthGuardian" ++ "}").

Lemma jsonNote_text (f : string) (ts : N) (rest : string) :
  jsonNote f ts ++ rest
  = noteHead ++ String dquote (escapeUnits f ++ String dquote
      (noteMid ++ String ":" (NumberToString ts ++ String "," (noteTail ++ rest)))).
Proof.
  unfold jsonNote, JSON_stringify, noteData, stringifyMembers, stringifyField, QuoteJSONString.
  generalize (escapeUnits f) as F, (NumberToString ts) as D. intros F D.
  cbn. repeat (rewrite append_assoc; cbn). reflexivity.
Qed.


Lemma escapeUnit_hex (c : ascii) : isLowerHex c = true -> escapeUnit c = String c EmptyString.
Proof. destruct c as [[] [] [] [] [] [] [] []]; intros H; try discriminate H; reflexivity. Qed.

Lemma escapeUnits_hex (f : string) : allHex f = true -> escapeUnits f = f.
Proof.
  induction f as [|c f IH]; [reflexivity|]. cbn [allHex escapeUnits]. intros H.
  apply andb_prop in H as [Hc Hf]. now rewrite escapeUnit_hex, IH.
Qed.

Lemma allHex_noBar (f : string) : allHex f = true -> noBar f = true.
Proof.
  induction f as [|c f IH]; [reflexivity|]. cbn [allHex noBar]. intros H.
  apply andb_prop in H as [Hc Hf]. rewrite IH by assumption.
  destruct c as [[] [] [] [] [] [] [] []]; try discriminate Hc; reflexivity.
Qed.

Lemma priority_text (f : string) (ts : N) :
  jsonNote f ts ++ separator ++ legacyNote f
  = noteHead ++ String dquote (escapeUnits f ++ String dquote
      (noteMid ++ String ":" (NumberToString ts ++ String ","
         ((noteTail ++ "|||HEALTH_DATA") ++ String ":" f)))).
Proof. rewrite jsonNote_text. reflexivity. Qed.

Lemma combined_text (f : string) (ts : N) :
  combinedNote f ts
  = noteHead ++ String dquote (escapeUnits f ++ String dquote
      (noteMid ++ String ":" (NumberToString ts ++ String ","
         ((noteTail ++ "|||HEALTH_DATA") ++ String ":"
            (f ++ String "|" ("||HG" ++ String "_" f)))))).
Proof. unfold combinedNote. rewrite jsonNote_text. reflexivity. Qed.

Ltac cut_run I H2 :=
  apply occurs_cut in I; [destruct I as [I|I] | exact H2 | reflexivity].

Ltac short_run I H2 :=
  let R := fresh "R" in
  pose proof (longestHexRun_occurs _ H2 _ 0 I) as R; cbn in R; lia.

Lemma hex_occurrence (f1 f2 : string) (ts : N) :
  allHex f1 = true -> allHex f2 = true ->
  String.length f1 = String.length f2 -> 3 <= String.length f2 -> f1 <> f2 ->
  includes (NumberToString ts) f2 = false ->
  includes (finalNote f1 ts) f2 = false.
Proof.
  intros H1 H2 Hlen H3 Hne D.
  assert (HF : occursIn f2 f1 -> False)
    by (intros O; apply Hne; symmetry; now apply occursIn_same_length).
  assert (HD : occursIn f2 (NumberToString ts) -> False)
    by (intros O; apply includes_true in O; congruence).
  destruct (includes (finalNote f1 ts) f2) eqn:I; [exfalso | reflexivity].
  apply includes_true in I. unfold finalNote in I.
  destruct (1000 <? String.length (combinedNote f1 ts))%nat.
  - rewrite priority_text, (escapeUnits_hex f1 H1) in I.
    cut_run I H2; [short_run I H2|].
    cut_run I H2; [now apply HF|].
    cut_run I H2; [short_run I H2|].
    cut_run I H2; [now apply HD|].
    cut_run I H2; [short_run I H2|].
    now apply HF.
  - rewrite combined_text, (escapeUnits_hex f1 H1) in I.
    cut_run I H2; [short_run I H2|].
    cut_run I H2; [now apply HF|].
    cut_run I H2; [short_run I H2|].
    cut_run I H2; [now apply HD|].
    cut_run I H2; [short_run I H2|].
    cut_run I H2; [now apply HF|].
    cut_run I H2; [short_run I H2|].
    now apply HF.
Qed.

Lemma digits_in_note (f : string) (ts : N) : occursIn (NumberToString ts) (finalNote f ts).
Proof.
  destruct (finalNote_keeps_json f ts) as [rest ->]. rewrite jsonNote_text.
  apply occursIn_append_l, occursIn_cons, occursIn_append_l, occursIn_cons,
        occursIn_append_l, occursIn_cons, occursIn_append_r, occursIn_refl.
Qed.

End HexNotes.

(** X1: for fingerprints that are lowercase hexadecimal numerals of one
    length (three digits or more), the note committed for one of them
    verifies another one exactly when the other one occurs in the decimal
    digits of the commit timestamp. *)
Theorem hex_fingerprints_exact (f1 f2 : string) (ts : N) :
  allHex f1 = true -> allHex f2 = true ->
  String.length f1 = String.length f2 -> 3 <= String.length f2 -> f1 <> f2 ->
  verifyNoteString (finalNote f1 ts) f2 = includes (NumberToString ts) f2.
Proof.
  intros H1 H2 Hlen H3 Hne.
  destruct (includes (NumberToString ts) f2) eqn:D.
  - apply verifyNoteString_includes, includes_true.
    apply includes_true in D. exact (occursIn_trans _ _ _ D (digits_in_note f1 ts)).
  - apply verifyNoteString_rejects; [exact Hne | now apply allHex_noBar |].
    now apply hex_occurrence.
Qed.

Lemma hex_fingerprints_exact_witness :
  verifyNoteString (finalNote "00bc614e" 1719230000000) "17192300"
  = includes (NumberToString 1719230000000) "17192300".
Proof. apply hex_fingerprints_exact; [reflexivity | reflexivity | reflexivity | cbn; lia | discriminate]. Defined.

(** ** The size of the note for hexadecimal fingerprints *)

Section NoteSize.

Lemma allAscii_append (a b : string) : allAscii (a ++ b) = allAscii a && allAscii b.
Proof.
  induction a as [|c a IH]; [reflexivity|].
  cbn. rewrite IH. now rewrite andb_assoc.
Qed.

Lemma allHex_allAscii (f : string) : allHex f = true -> allAscii f = true.
Proof.
  induction f as [|c f IH]; [reflexivity|]. cbn [allHex allAscii]. intros H.
  apply andb_prop in H as [Hc Hf]. rewrite IH by assumption.
  destruct c as [[] [] [] [] [] [] [] []]; try discriminate Hc; reflexivity.
Qed.

Lemma allDigits_allAscii (d : string) : allDigits d = true -> allAscii d = true.
Proof.
  induction d as [|c d IH]; [reflexivity|]. cbn [allDigits allAscii]. intros H.
  apply andb_prop in H as [Hc Hd]. rewrite IH by assumption.
  destruct c as [[] [] [] [] [] [] [] []]; try discriminate Hc; reflexivity.
Qed.

Lemma encode_ascii_length (s : string) :
  allAscii s = true -> List.length (TextEncoder_encode s) = String.length s.
Proof.
  induction s as [|c s IH]; [reflexivity|]. cbn [allAscii]. intros H.
  apply andb_prop in H as [Hc Hs]. cbn [TextEncoder_encode].
  unfold isAscii in Hc. rewrite Hc. cbn. now rewrite IH.
Qed.

Lemma hex_note_lengths (f : string) (ts : N) :
  allHex f = true ->
  String.length (combinedNote f ts)
  = 3 * String.length f + String.length (NumberToString ts) + 105
  /\ String.length (jsonNote f ts ++ separator ++ legacyNote f)
     = 2 * String.length f + String.length (NumberToString ts) + 99.
Proof.
  intros H. rewrite combined_text, priority_text, (escapeUnits_hex f H).
  generalize (NumberToString ts) as D. intros D.
  split; repeat (cbn; rewrite ?length_append); lia.
Qed.

Lemma hex_note_ascii (f : string) (ts : N) :
  allHex f = true -> allAscii (finalNote f ts) = true.
Proof.
  intros H. pose proof (allHex_allAscii f H) as HA.
  assert (HD : allAscii (NumberToString ts) = true)
    by (apply allDigits_allAscii, allDigits_string_of_uint).
  unfold finalNote. destruct (1000 <? String.length (combinedNote f ts))%nat.
  - rewrite priority_text, (escapeUnits_hex f H).
    repeat (cbn; rewrite ?allAscii_append, ?HA, ?HD). reflexivity.
  - rewrite combined_text, (escapeUnits_hex f H).
    repeat (cbn; rewrite ?allAscii_append, ?HA, ?HD). reflexivity.
Qed.

End NoteSize.

(** X2: the size of the payload for a fingerprint that is a lowercase
    hexadecimal numeral of [n] digits, committed at a timestamp of [d]
    decimal digits: [3n + d + 105] bytes with the three formats, and
    [2n + d + 99] bytes once the three formats pass 1000 characters.  So the
    payload stays within 1024 bytes exactly when [2n + d <= 925]. *)
Theorem hex_note_size (f : string) (ts : N) :
  allHex f = true ->
  let n := String.length f in
  let d := String.length (NumberToString ts) in
  List.length (noteBytes f ts)
  = (if (1000 <? 3 * n + d + 105)%nat then 2 * n + d + 99 else 3 * n + d + 105)
  /\ (List.length (noteBytes f ts) <= 1024 <-> 2 * n + d <= 925).
Proof.
  intros H n d. unfold noteBytes.
  rewrite (encode_ascii_length _ (hex_note_ascii f ts H)).
  destruct (hex_note_lengths f ts H) as [Ec Ep]. fold n d in Ec, Ep.
  unfold finalNote. rewrite Ec.
  destruct (1000 <? 3 * n + d + 105)%nat eqn:E.
  - rewrite Ep. apply Nat.ltb_lt in E. split; [reflexivity | lia].
  - rewrite Ec. apply Nat.ltb_ge in E. split; [reflexivity | lia].
Qed.

Lemma hex_note_size_witness :
  let f := "ba7816bf8f01cfea414140de5dae2223b00361a396177a9cb410ff61f20015ad" in
  let n := String.length f in
  let d := String.length (NumberToString 1719230000000) in
  List.length (noteBytes f 1719230000000)
  = (if (1000 <? 3 * n + d + 105)%nat then 2 * n + d + 99 else 3 * n + d + 105)
  /\ (List.length (noteBytes f 1719230000000) <= 1024 <-> 2 * n + d <= 925).
Proof. apply hex_note_size. reflexivity. Defined.

(** ** The structured record is read back exactly *)

Section StructuredRecord.

Lemma strictEqString_codes (f h : string) :
  strictEqString (Some (JString (codes f))) h = String.eqb f h.
Proof.
  unfold strictEqString.
  destruct (list_eq_dec N.eq_dec (codes f) (codes h)) as [E|E];
    destruct (String.eqb_spec f h) as [Q|Q]; try reflexivity.
  - now apply codes_inj in E.
  - now subst.
Qed.

Lemma jsonFormatMatches_own (f h : string) (ts : N) :
  jsonFormatMatches (jsonNote f ts) h = String.eqb f h.
Proof.
  unfold jsonFormatMatches, jsonNote.
  rewrite JSON_parse_stringify by discriminate.
  rewrite getProp_type, getProp_hash.
  change (strictEqString (Some (JString (codes "HEALTH_DATA"))) "HEALTH_DATA") with true.
  cbv iota. apply strictEqString_codes.
Qed.

Lemma noteIsValid_own (f h : string) (ts : N) :
  AlgorandBlockchainService.noteIsValid (AlgorandBlockchainService.noteText f ts) h
  = String.eqb f h.
Proof.
  unfold AlgorandBlockchainService.noteIsValid, AlgorandBlockchainService.noteText.
  rewrite JSON_parse_stringify by discriminate.
  change (getProp _ "type") with (Normal (A := option Json) (Some (JString (codes "HEALTH_DATA")))).
  change (getProp _ "hash") with (Normal (A := option Json) (Some (JString (codes f)))).
  change (strictEqString (Some (JString (codes "HEALTH_DATA"))) "HEALTH_DATA") with true.
  cbv iota. apply strictEqString_codes.
Qed.

Lemma noteMatches_own (f h : string) (ts : N) :
  EnhancedAlgorandService.noteMatches (EnhancedAlgorandService.noteText f ts) h
  = String.eqb f h.
Proof.
  unfold EnhancedAlgorandService.noteMatches, EnhancedAlgorandService.noteText.
  rewrite JSON_parse_stringify by discriminate.
  change (getProp _ "type") with (Normal (A := option Json) (Some (JString (codes "HEALTH_DATA")))).
  change (getProp _ "hash") with (Normal (A := option Json) (Some (JString (codes f)))).
  change (strictEqString (Some (JString (codes "HEALTH_DATA"))) "HEALTH_DATA") with true.
  cbv iota. apply strictEqString_codes.
Qed.

Lemma JSON_parse_finalNote (f : string) (ts : N) :
  exists e, JSON_parse (finalNote f ts) = Throw e.
Proof.
  assert (H : exists rest, finalNote f ts = jsonNote f ts ++ String "|" rest).
  { unfold finalNote, combinedNote, separator.
    destruct (1000 <? _)%nat; eexists; cbn [append]; reflexivity. }
  destruct H as [rest ->]. unfold jsonNote.
  apply JSON_parse_trailing; [discriminate | reflexivity].
Qed.

Lemma record_matches_own (f h : string) (ts : N) :
  jsonFormatMatches (AlgorandBlockchainService.noteText f ts) h = String.eqb f h.
Proof.
  unfold jsonFormatMatches, AlgorandBlockchainService.noteText.
  rewrite JSON_parse_stringify by discriminate.
  change (getProp _ "type") with (Normal (A := option Json) (Some (JString (codes "HEALTH_DATA")))).
  change (getProp _ "hash") with (Normal (A := option Json) (Some (JString (codes f)))).
  change (strictEqString (Some (JString (codes "HEALTH_DATA"))) "HEALTH_DATA") with true.
  cbv iota. apply strictEqString_codes.
Qed.

Lemma verifyNoteString_whole (noteString dataHash : string) :
  verifyNotePart noteString dataHash = true -> verifyNoteString noteString dataHash = true.
Proof.
  intros H. unfold verifyNoteString. rewrite H. cbv zeta.
  destruct (includes noteString separator), (includes noteString "|"),
           (anyPartVerifies (split noteString separator) dataHash),
           (anyPartVerifies (split noteString "|") dataHash); reflexivity.
Qed.

End StructuredRecord.

(** X3: the structured branch of [verifyNotePart] reads the record of a
    note back exactly: on the JSON record committed for [f] it accepts [h]
    if and only if [h] is [f], whatever code units the two hold. *)
Theorem structured_branch_exact (f h : string) (ts : N) :
  jsonFormatMatches (jsonNote f ts) h = true <-> f = h.
Proof. rewrite jsonFormatMatches_own. apply String.eqb_eq. Qed.

(** X4: the verifiers of [AlgorandBlockchainService] and of
    [EnhancedAlgorandService] are exact on the notes these services write:
    the note committed for [f] is valid for [h] if and only if [h] is [f]. *)
Theorem record_only_notes_exact (f h : string) (ts : N) :
  (AlgorandBlockchainService.noteIsValid (AlgorandBlockchainService.noteText f ts) h = true
   <-> f = h)
  /\ (EnhancedAlgorandService.noteMatches (EnhancedAlgorandService.noteText f ts) h = true
      <-> f = h).
Proof.
  rewrite noteIsValid_own, noteMatches_own. split; apply String.eqb_eq.
Qed.

(** X5: the notes of one service verify under the others.  The note that
    [AlgorandService] commits for [f] is valid for [f] under the verifiers
    of the two other services, by their fallbacks, and the record that
    these commit verifies under [AlgorandService]. *)
Theorem notes_verify_across_services (f : string) (ts : N) :
  AlgorandBlockchainService.noteIsValid (finalNote f ts) f = true
  /\ EnhancedAlgorandService.noteMatches (finalNote f ts) f = true
  /\ verifyNoteString (AlgorandBlockchainService.noteText f ts) f = true
  /\ verifyNoteString (EnhancedAlgorandService.noteText f ts) f = true.
Proof.
  destruct (JSON_parse_finalNote f ts) as [e E].
  split; [|split; [|split]].
  - unfold AlgorandBlockchainService.noteIsValid. rewrite E.
    apply includes_true. exact (finalNote_legacy f ts).
  - unfold EnhancedAlgorandService.noteMatches. rewrite E.
    apply includes_true. exact (finalNote_hash f ts).
  - apply verifyNoteString_whole. unfold verifyNotePart.
    now rewrite record_matches_own, String.eqb_refl.
  - apply verifyNoteString_whole. unfold verifyNotePart.
    change (EnhancedAlgorandService.noteText f ts)
      with (AlgorandBlockchainService.noteText f ts).
    now rewrite record_matches_own, String.eqb_refl.
Qed.

(** ** What a verification does on the ledger *)

Section TraceFacts.

Lemma pendingQueries_app (a b : History) :
  pendingQueries (a ++ b)%list = pendingQueries a + pendingQueries b.
Proof. unfold pendingQueries. now rewrite filter_app, List.length_app. Qed.

Lemma sleeps_app (a b : History) : sleeps (a ++ b)%list = (sleeps a ++ sleeps b)%list.
Proof. unfold sleeps. apply flat_map_app. Qed.

Lemma totalSleep_app (a b : History) :
  totalSleep (a ++ b)%list = (totalSleep a + totalSleep b)%N.
Proof.
  unfold totalSleep. rewrite sleeps_app.
  induction (sleeps a) as [|x l IH]; cbn; [reflexivity | rewrite IH; lia].
Qed.

Lemma submissions_app (a b : History) :
  submissions (a ++ b)%list = (submissions a ++ submissions b)%list.
Proof. unfold submissions. apply flat_map_app. Qed.

Lemma requests_app (a b : History) :
  requests (a ++ b)%list = (requests a ++ requests b)%list.
Proof. unfold requests. apply flat_map_app. Qed.

End TraceFacts.

Ltac query_or_pause :=
  match goal with
  | |- queryOrPause _ (ESleep _) => right; eexists; reflexivity
  | |- queryOrPause _ _ => left; reflexivity
  end.

Ltac all_queries := repeat (apply Forall_cons; [query_or_pause|]); apply Forall_nil.

Section VerificationTrace.

Variable sdk : Sdk.
Variable w : World.
Variables dataHash txId : string.

Local Abbreviation pending := (EPendingTransactionInformation txId).

Lemma fetchTxnInfo_run (h : History) :
  exists (r : Completion JsVal) (evs : History),
    AlgorandService.fetchTxnInfo w txId AlgorandService.maxAttempts 0 h = (r, (h ++ evs)%list)
    /\ Forall (queryOrPause txId) evs
    /\ pendingQueries evs <= 3 /\ (totalSleep evs <= 4000)%N
    /\ (forall v, r = Normal v ->
                  exists pre, evs = (pre ++ [pending])%list
                              /\ pendingTransactionInformation w (h ++ pre)%list txId
                                 = Normal v).
Proof.
  unfold AlgorandService.maxAttempts.
  cbn [AlgorandService.fetchTxnInfo Nat.ltb Nat.leb Nat.eqb].
  unfold AlgorandService.maxAttempts. cbn [Nat.ltb Nat.leb Nat.eqb].
  unfold bind, tryCatch, call, sleep, ret, throw.
  destruct (pendingTransactionInformation w h txId) as [v1|e1] eqn:E1.
  { exists (Normal v1), [pending].
    split; [reflexivity|]. split; [all_queries|]. split; [cbn; lia|]. split; [cbn; lia|].
    intros v [= <-]. exists []. now rewrite List.app_nil_r. }
  destruct (pendingTransactionInformation w ((h ++ [pending]) ++ [ESleep 2000])%list txId)
    as [v2|e2] eqn:E2.
  { exists (Normal v2), [pending; ESleep 2000; pending].
    split; [now rewrite <- !List.app_assoc|]. split; [all_queries|].
    split; [cbn; lia|]. split; [cbn; lia|].
    intros v [= <-]. exists [pending; ESleep 2000].
    split; [reflexivity | now rewrite <- !List.app_assoc in E2]. }
  destruct (pendingTransactionInformation w
              ((((h ++ [pending]) ++ [ESleep 2000]) ++ [pending]) ++ [ESleep 2000])%list txId)
    as [v3|e3] eqn:E3.
  { exists (Normal v3), [pending; ESleep 2000; pending; ESleep 2000; pending].
    split; [now rewrite <- !List.app_assoc|]. split; [all_queries|].
    split; [cbn; lia|]. split; [cbn; lia|].
    intros v [= <-]. exists [pending; ESleep 2000; pending; ESleep 2000].
    split; [reflexivity | now rewrite <- !List.app_assoc in E3]. }
  exists (Throw e3), [pending; ESleep 2000; pending; ESleep 2000; pending].
  split; [now rewrite <- !List.app_assoc|]. split; [all_queries|].
  split; [cbn; lia|]. split; [cbn; lia|]. intros v Q. discriminate Q.
Qed.

(** Whether an answer of the ledger makes the fallback loop return. *)
Local Abbreviation found v :=
  (truthy (AlgorandService.findNote v)
   && match Buffer_from_base64 sdk (AlgorandService.findNote v) with
      | Normal bytes => includes (TextDecoder_decode sdk bytes) dataHash
      | Throw _ => includes (ToString sdk (AlgorandService.findNote v)) dataHash
      end).

Lemma fallbackAttempts_step (k attempt : nat) (h : History) :
  AlgorandService.fallbackAttempts sdk w txId dataHash (S k) attempt h
  = if (attempt <=? 3)%nat then
      let next h' :=
        AlgorandService.fallbackAttempts sdk w txId dataHash k (S attempt)
          (if (attempt <? 3)%nat then (h' ++ [ESleep (3000 * N.of_nat attempt)])%list else h') in
      match pendingTransactionInformation w h txId with
      | Normal v =>
          if found v then (Normal true, (h ++ [pending])%list) else next (h ++ [pending])%list
      | Throw _ => next (h ++ [pending])%list
      end
    else (Normal false, h).
Proof.
  cbn [AlgorandService.fallbackAttempts].
  destruct (attempt <=? 3)%nat; [|reflexivity].
  unfold bind, tryCatch, call, ret, sleep.
  destruct (pendingTransactionInformation w h txId) as [v|e].
  - destruct (truthy (AlgorandService.findNote v)); cbn [andb].
    + destruct (Buffer_from_base64 sdk (AlgorandService.findNote v));
        match goal with |- context [includes ?a ?b] => destruct (includes a b) end;
        destruct (attempt <? 3)%nat; reflexivity.
    + destruct (attempt <? 3)%nat; reflexivity.
  - destruct (attempt <? 3)%nat; reflexivity.
Qed.

Lemma fallbackAttempts_last (h : History) :
  exists (b : bool) (evs : History),
    AlgorandService.fallbackAttempts sdk w txId dataHash 1 3 h = (Normal b, (h ++ evs)%list)
    /\ Forall (queryOrPause txId) evs
    /\ pendingQueries evs <= 1 /\ (totalSleep evs <= 0)%N.
Proof.
  rewrite fallbackAttempts_step. cbn [Nat.leb Nat.ltb].
  cbn [AlgorandService.fallbackAttempts].
  destruct (pendingTransactionInformation w h txId) as [v|e]; [destruct (found v)|];
    (eexists; exists [pending]; split; [reflexivity|]; split; [all_queries|];
     split; cbn; lia).
Qed.

Lemma fallbackAttempts_second (h : History) :
  exists (b : bool) (evs : History),
    AlgorandService.fallbackAttempts sdk w txId dataHash 2 2 h = (Normal b, (h ++ evs)%list)
    /\ Forall (queryOrPause txId) evs
    /\ pendingQueries evs <= 2 /\ (totalSleep evs <= 6000)%N.
Proof.
  rewrite fallbackAttempts_step. cbn [Nat.leb Nat.ltb]. cbv zeta.
  change (3000 * N.of_nat 2)%N with 6000%N.
  assert (Hnext : exists (b : bool) (evs : History),
             AlgorandService.fallbackAttempts sdk w txId dataHash 1 3
               ((h ++ [pending]) ++ [ESleep 6000])%list
             = (Normal b, (h ++ evs)%list)
             /\ Forall (queryOrPause txId) evs
             /\ pendingQueries evs <= 2 /\ (totalSleep evs <= 6000)%N).
  { destruct (fallbackAttempts_last ((h ++ [pending]) ++ [ESleep 6000])%list)
      as (b & evs & E & F & Q & S).
    exists b, ([pending; ESleep 6000] ++ evs)%list.
    split; [now rewrite E, <- !List.app_assoc|].
    split; [apply Forall_app; split; [all_queries | exact F]|].
    rewrite pendingQueries_app, totalSleep_app.
    split; [cbn; lia | change (totalSleep [pending; ESleep 6000]) with 6000%N; lia]. }
  destruct (pendingTransactionInformation w h txId) as [v|e]; [destruct (found v)|];
    try exact Hnext.
  exists true, [pending]. split; [reflexivity|]. split; [all_queries|]. split; cbn; lia.
Qed.

Lemma fallbackAttempts_run (h : History) :
  exists (b : bool) (evs : History),
    AlgorandService.fallbackAttempts sdk w txId dataHash 3 1 h = (Normal b, (h ++ evs)%list)
    /\ Forall (queryOrPause txId) evs
    /\ pendingQueries evs <= 3 /\ (totalSleep evs <= 9000)%N.
Proof.
  rewrite fallbackAttempts_step. cbn [Nat.leb Nat.ltb]. cbv zeta.
  change (3000 * N.of_nat 1)%N with 3000%N.
  assert (Hnext : exists (b : bool) (evs : History),
             AlgorandService.fallbackAttempts sdk w txId dataHash 2 2
               ((h ++ [pending]) ++ [ESleep 3000])%list
             = (Normal b, (h ++ evs)%list)
             /\ Forall (queryOrPause txId) evs
             /\ pendingQueries evs <= 3 /\ (totalSleep evs <= 9000)%N).
  { destruct (fallbackAttempts_second ((h ++ [pending]) ++ [ESleep 3000])%list)
      as (b & evs & E & F & Q & S).
    exists b, ([pending; ESleep 3000] ++ evs)%list.
    split; [now rewrite E, <- !List.app_assoc|].
    split; [apply Forall_app; split; [all_queries | exact F]|].
    rewrite pendingQueries_app, totalSleep_app.
    split; [cbn; lia | change (totalSleep [pending; ESleep 3000]) with 3000%N; lia]. }
  destruct (pendingTransactionInformation w h txId) as [v|e]; [destruct (found v)|];
    try exact Hnext.
  exists true, [pending]. split; [reflexivity|]. split; [all_queries|]. split; cbn; lia.
Qed.

Lemma fallbackVerification_run (h : History) :
  exists (b : bool) (evs : History),
    AlgorandService.fallbackVerification sdk w txId dataHash h = (Normal b, (h ++ evs)%list)
    /\ Forall (queryOrPause txId) evs
    /\ pendingQueries evs <= 3 /\ (totalSleep evs <= 14000)%N.
Proof.
  unfold AlgorandService.fallbackVerification, tryCatch, bind, sleep.
  destruct (fallbackAttempts_run (h ++ [ESleep 5000])%list) as (b & evs & E & F & Q & S).
  rewrite E. exists b, (ESleep 5000 :: evs).
  split; [now rewrite <- List.app_assoc|].
  split; [apply Forall_cons; [query_or_pause | exact F]|].
  change (ESleep 5000 :: evs) with ([ESleep 5000] ++ evs)%list.
  rewrite pendingQueries_app, totalSleep_app.
  split; [cbn; lia | change (totalSleep [ESleep 5000]) with 5000%N; lia].
Qed.

Lemma verifyHealthData_trace (h : History) :
  exists (b : bool) (evs : History),
    AlgorandService.verifyHealthData sdk w dataHash txId h = (Normal b, (h ++ evs)%list)
    /\ Forall (queryOrPause txId) evs
    /\ pendingQueries evs <= 6 /\ (totalSleep evs <= 18000)%N
    /\ (b = true -> answeredConfirmed w txId h evs).
Proof.
  unfold AlgorandService.verifyHealthData, tryCatch at 1. unfold bind at 1.
  destruct (fetchTxnInfo_run h) as (r & evs & E & F & Q & S & P). rewrite E.
  assert (Hfalse : exists (b : bool) (evs0 : History),
             (Normal false, (h ++ evs)%list) = (Normal b, (h ++ evs0)%list)
             /\ Forall (queryOrPause txId) evs0
             /\ pendingQueries evs0 <= 6 /\ (totalSleep evs0 <= 18000)%N
             /\ (b = true -> answeredConfirmed w txId h evs0)).
  { exists false, evs. split; [reflexivity|]. split; [exact F|].
    split; [lia|]. split; [lia|]. intros Q0. discriminate Q0. }
  destruct r as [txnInfo|e]; [|exact Hfalse].
  destruct (truthy txnInfo) eqn:T; cbn [negb]; [|exact Hfalse].
  destruct (truthy (field txnInfo "confirmed-round")) eqn:C; cbn [negb]; [|exact Hfalse].
  destruct (P txnInfo eq_refl) as (pre & Hevs & Hpre).
  destruct (truthy (AlgorandService.extractNote txnInfo)) eqn:Nn; cbn [negb].
  - unfold tryCatch, bind, lift, ret.
    destruct (AlgorandService.decodeNote sdk (AlgorandService.extractNote txnInfo));
      [|exact Hfalse].
    eexists; exists evs. split; [reflexivity|]. split; [exact F|].
    split; [lia|]. split; [lia|]. intros _. now exists pre, [], txnInfo.
  - unfold tryCatch.
    destruct (fallbackVerification_run (h ++ evs)%list) as (b & evs2 & E2 & F2 & Q2 & S2).
    rewrite E2. exists b, (evs ++ evs2)%list.
    split; [now rewrite List.app_assoc|].
    split; [apply Forall_app; now split|].
    rewrite pendingQueries_app, totalSleep_app.
    split; [lia|]. split; [lia|]. intros _. exists pre, evs2, txnInfo.
    split; [rewrite Hevs, <- List.app_assoc; reflexivity | now split].
Qed.

End VerificationTrace.

(** ** The two searches for a note *)

Section NoteSearch.

Lemma findNote_search :
  forall v : JsVal,
    truthy (AlgorandService.findNote v) = true ->
    truthy (AlgorandService.searchForNote v) = true.
Proof.
  fix IH 1. intros [ | | b | z | s | bytes | items | fields]; try (intros H; discriminate H).
  - (* array *)
    cbn [AlgorandService.findNote AlgorandService.searchForNote].
    induction items as [|x xs IHxs]; [intros H; discriminate H|].
    destruct (truthy x && isObjectType x) eqn:Hx.
    + apply andb_prop in Hx as [_ Ho]. rewrite Ho.
      destruct (truthy (AlgorandService.findNote x)) eqn:Hf.
      * rewrite (IH x Hf). intros _. exact (IH x Hf).
      * destruct (truthy (AlgorandService.searchForNote x)) eqn:Hs; [intros _; exact Hs|].
        exact IHxs.
    + destruct (isObjectType x) eqn:Ho; [|exact IHxs].
      destruct (truthy (AlgorandService.searchForNote x)) eqn:Hs; [intros _; exact Hs|].
      exact IHxs.
  - (* object *)
    cbn [AlgorandService.findNote AlgorandService.searchForNote].
    destruct (truthy (lookupField "note" fields)) eqn:Hn.
    + intros _. clear IH.
      induction fields as [|[k x] rest IHr]; [discriminate Hn|].
      cbn [lookupField] in Hn.
      destruct (String.eqb k "note") eqn:Hk.
      * rewrite Hn. exact Hn.
      * cbn [andb].
        destruct (isObjectType x); [|exact (IHr Hn)].
        destruct (truthy (AlgorandService.searchForNote x)) eqn:Hs;
          [exact Hs | exact (IHr Hn)].
    + clear Hn.
      induction fields as [|[k x] rest IHr]; [intros H; discriminate H|].
      destruct (String.eqb k "note" && truthy x) eqn:Hk.
      * intros _. now apply andb_prop in Hk as [_ Hk].
      * destruct (truthy x && isObjectType x) eqn:Hx.
        -- apply andb_prop in Hx as [_ Ho]. rewrite Ho.
           destruct (truthy (AlgorandService.findNote x)) eqn:Hf.
           ++ rewrite (IH x Hf). intros _. exact (IH x Hf).
           ++ destruct (truthy (AlgorandService.searchForNote x)) eqn:Hs;
                [intros _; exact Hs | exact IHr].
        -- destruct (isObjectType x) eqn:Ho; [|exact IHr].
           destruct (truthy (AlgorandService.searchForNote x)) eqn:Hs;
             [intros _; exact Hs | exact IHr].
Qed.

Lemma extractNote_missing (txnInfo : JsVal) :
  truthy (AlgorandService.extractNote txnInfo) = false ->
  truthy (AlgorandService.findNote txnInfo) = false.
Proof.
  intros H. destruct (truthy (AlgorandService.findNote txnInfo)) eqn:F; [|reflexivity].
  apply findNote_search in F. unfold AlgorandService.extractNote in H.
  cbv zeta in H.
  match type of H with
  | truthy (if negb (truthy ?n) then _ else _) = false => destruct (truthy n) eqn:T
  end; cbn [negb] in H; congruence.
Qed.

End NoteSearch.

(** ** Verification, from the answer of the ledger to the verdict *)

Section Verdicts.

Variable sdk : Sdk.
Variable w : World.

Lemma truthy_field (v : JsVal) (name : string) :
  truthy (field v name) = true ->
  truthy v = true /\ getField v name = Normal (field v name).
Proof.
  destruct v as [ | | b | z | s | bytes | items | fields]; cbn; intros H;
    try discriminate H; try (split; reflexivity).
  destruct (String.eqb name "length"); [|discriminate H].
  destruct s; [discriminate H | split; reflexivity].
Qed.

Lemma verifyHealthDataFromTransaction_confirmed
      (hash id : string) (h : History) (txnInfo : JsVal) (bytes : list N) :
  pendingTransactionInformation w h id = Normal txnInfo ->
  truthy (field txnInfo "confirmed-round") = true ->
  truthy (field (field txnInfo "txn") "note") = true ->
  Buffer_from_base64 sdk (field (field txnInfo "txn") "note") = Normal bytes ->
  AlgorandBlockchainService.verifyHealthDataFromTransaction sdk w hash id h
  = (Normal (AlgorandBlockchainService.noteIsValid (TextDecoder_decode sdk bytes) hash),
     (h ++ [EPendingTransactionInformation id])%list).
Proof.
  intros E C Nn B.
  destruct (truthy_field _ _ C) as [_ G].
  destruct (truthy_field _ _ Nn) as [T _].
  assert (G' : getField txnInfo "txn" = Normal (field txnInfo "txn"))
    by (destruct txnInfo; try reflexivity; discriminate G).
  unfold AlgorandBlockchainService.verifyHealthDataFromTransaction.
  unfold tryCatch, bind, call, lift, ret.
  now rewrite E, G', T, C, Nn, B.
Qed.

Lemma enhanced_verifyHealthData_confirmed
      (hash id : string) (h : History) (txnInfo : JsVal) (bytes : list N) :
  pendingTransactionInformation w h id = Normal txnInfo ->
  truthy (field txnInfo "confirmed-round") = true ->
  truthy (field (field txnInfo "txn") "note") = true ->
  Buffer_from_base64 sdk (field (field txnInfo "txn") "note") = Normal bytes ->
  EnhancedAlgorandService.verifyHealthData sdk w hash id h
  = (Normal (EnhancedAlgorandService.noteMatches (TextDecoder_decode sdk bytes) hash),
     (h ++ [EPendingTransactionInformation id])%list).
Proof.
  intros E C Nn B.
  destruct (truthy_field _ _ C) as [_ G].
  unfold EnhancedAlgorandService.verifyHealthData.
  unfold tryCatch, bind, call, lift, ret.
  now rewrite E, G, C, Nn, B.
Qed.

(** A verdict [true] of the two single-query verifiers comes from a
    confirmed transaction that carries a note. *)
Lemma single_query_verified (hash id : string) (h h' : History) :
  AlgorandBlockchainService.verifyHealthDataFromTransaction sdk w hash id h = (Normal true, h')
  \/ EnhancedAlgorandService.verifyHealthData sdk w hash id h = (Normal true, h') ->
  exists txnInfo,
    pendingTransactionInformation w h id = Normal txnInfo
    /\ truthy (field txnInfo "confirmed-round") = true
    /\ truthy (field (field txnInfo "txn") "note") = true.
Proof.
  unfold AlgorandBlockchainService.verifyHealthDataFromTransaction,
         EnhancedAlgorandService.verifyHealthData.
  unfold tryCatch, bind, call, lift, ret.
  destruct (pendingTransactionInformation w h id) as [txnInfo|e].
  - intros [H|H]; exists txnInfo.
    + destruct (getField txnInfo "txn") as [txn|e] eqn:G; [|discriminate H].
      assert (txn = field txnInfo "txn")
        by (destruct txnInfo; try discriminate G; now injection G as <-).
      subst txn.
      destruct (truthy (field txnInfo "txn")); cbn [negb] in H; [|discriminate H].
      destruct (truthy (field txnInfo "confirmed-round")); cbn [negb] in H; [|discriminate H].
      destruct (truthy (field (field txnInfo "txn") "note")); cbn [negb] in H;
        [|discriminate H].
      now repeat split.
    + destruct (getField txnInfo "confirmed-round") as [c|e] eqn:G; [|discriminate H].
      assert (c = field txnInfo "confirmed-round")
        by (destruct txnInfo; try discriminate G; now injection G as <-).
      subst c.
      destruct (truthy (field txnInfo "confirmed-round")); cbn [negb] in H; [|discriminate H].
      destruct (truthy (field (field txnInfo "txn") "note")); cbn [negb] in H;
        [|discriminate H].
      now repeat split.
  - intros [H|H]; discriminate H.
Qed.

End Verdicts.

(** X6: a verification of [AlgorandService] asks the ledger for the
    transaction at most six times, pauses for at most 18 seconds in all,
    makes no other external call, and returns a verdict. *)
Theorem verification_is_bounded
        (sdk : Sdk) (w : World) (dataHash txId : string) (h : History) :
  exists (b : bool) (evs : History),
    AlgorandService.verifyHealthData sdk w dataHash txId h = (Normal b, (h ++ evs)%list)
    /\ Forall (queryOrPause txId) evs
    /\ pendingQueries evs <= 6
    /\ (totalSleep evs <= 18000)%N.
Proof.
  destruct (verifyHealthData_trace sdk w dataHash txId h) as (b & evs & E & F & Q & S & _).
  now exists b, evs.
Qed.

(** X7: no verifier reports an unconfirmed transaction as verified.  A
    verdict [true] of [AlgorandService.verifyHealthData] means that one of
    the queries of this run was answered by the ledger with a transaction
    that has a confirmed round; for the two verifiers that query once, the
    answer to their query also carries a note. *)
Theorem verified_implies_confirmed
        (sdk : Sdk) (w : World) (dataHash txId : string) (h h' : History) :
  (AlgorandService.verifyHealthData sdk w dataHash txId h = (Normal true, h') ->
   exists evs : History, h' = (h ++ evs)%list /\ answeredConfirmed w txId h evs)
  /\ (AlgorandBlockchainService.verifyHealthDataFromTransaction sdk w dataHash txId h
      = (Normal true, h')
      \/ EnhancedAlgorandService.verifyHealthData sdk w dataHash txId h = (Normal true, h') ->
      exists txnInfo,
        pendingTransactionInformation w h txId = Normal txnInfo
        /\ truthy (field txnInfo "confirmed-round") = true
        /\ truthy (field (field txnInfo "txn") "note") = true).
Proof.
  split.
  - intros H.
    destruct (verifyHealthData_trace sdk w dataHash txId h) as (b & evs & E & _ & _ & _ & P).
    rewrite E in H. injection H as -> <-. exists evs. split; [reflexivity | now apply P].
  - apply single_query_verified.
Qed.

Lemma verified_implies_confirmed_witness :
  let sdk := Scenario.plainTransportSdk in
  let w := Scenario.notedWorld (finalNote "abc123" 1719230000000) in
  exists evs : History,
    [EPendingTransactionInformation "TX1"] = ([] ++ evs)%list
    /\ answeredConfirmed w "TX1" [] evs.
Proof.
  exact (proj1 (verified_implies_confirmed Scenario.plainTransportSdk
                  (Scenario.notedWorld (finalNote "abc123" 1719230000000))
                  "abc123" "TX1" [] [EPendingTransactionInformation "TX1"])
               eq_refl).
Defined.

(** X8: the round trip through the ledger, for [AlgorandService].  When
    the ledger answers the first query with the confirmed transaction and
    the note decodes to the text that [storeHealthData] built for the
    fingerprint, the verification returns [true] after that single query,
    without a pause. *)
Theorem stored_note_verifies_at_once
        (sdk : Sdk) (w : World) (f txId : string) (ts : N) (h : History) (txnInfo : JsVal) :
  pendingTransactionInformation w h txId = Normal txnInfo ->
  truthy (field txnInfo "confirmed-round") = true ->
  truthy (AlgorandService.extractNote txnInfo) = true ->
  AlgorandService.decodeNote sdk (AlgorandService.extractNote txnInfo)
  = Normal (finalNote f ts) ->
  AlgorandService.verifyHealthData sdk w f txId h
  = (Normal true, (h ++ [EPendingTransactionInformation txId])%list).
Proof.
  intros E C Nn Dn.
  destruct (truthy_field _ _ C) as [T _].
  rewrite (verify_note_found sdk w f txId h txnInfo (finalNote f ts) E T C Nn Dn).
  now rewrite (verifyNoteString_includes _ _ (proj2 (includes_true _ _) (finalNote_hash f ts))).
Qed.

Lemma stored_note_verifies_at_once_witness :
  AlgorandService.verifyHealthData Scenario.plainTransportSdk
    (Scenario.notedWorld (finalNote "abc123" 1719230000000)) "abc123" "TX1" []
  = (Normal true, ([] ++ [EPendingTransactionInformation "TX1"])%list).
Proof.
  apply (stored_note_verifies_at_once Scenario.plainTransportSdk
           (Scenario.notedWorld (finalNote "abc123" 1719230000000))
           "abc123" "TX1" 1719230000000 []
           (VObject [("confirmed-round", VNumber 42);
                     ("txn", VObject [("note", VString (finalNote "abc123" 1719230000000))])]));
    reflexivity.
Defined.

(** X9: the round trip through the ledger for the services that commit
    the record alone.  When the ledger answers with the confirmed
    transaction and its note decodes to the record committed for [f], the
    verdict for [h] is [true] if [h] is [f] and [false] otherwise, after one
    query. *)
Theorem record_round_trip_exact
        (sdk : Sdk) (w : World) (f hash id : string) (ts : N) (h : History)
        (txnInfo : JsVal) (bytes : list N) :
  pendingTransactionInformation w h id = Normal txnInfo ->
  truthy (field txnInfo "confirmed-round") = true ->
  truthy (field (field txnInfo "txn") "note") = true ->
  Buffer_from_base64 sdk (field (field txnInfo "txn") "note") = Normal bytes ->
  TextDecoder_decode sdk bytes = AlgorandBlockchainService.noteText f ts ->
  AlgorandBlockchainService.verifyHealthDataFromTransaction sdk w hash id h
  = (Normal (String.eqb f hash), (h ++ [EPendingTransactionInformation id])%list)
  /\ EnhancedAlgorandService.verifyHealthData sdk w hash id h
     = (Normal (String.eqb f hash), (h ++ [EPendingTransactionInformation id])%list).
Proof.
  intros E C Nn B D. split.
  - rewrite (verifyHealthDataFromTransaction_confirmed sdk w hash id h txnInfo bytes E C Nn B).
    now rewrite D, noteIsValid_own.
  - rewrite (enhanced_verifyHealthData_confirmed sdk w hash id h txnInfo bytes E C Nn B).
    rewrite D. change (AlgorandBlockchainService.noteText f ts)
      with (EnhancedAlgorandService.noteText f ts).
    now rewrite noteMatches_own.
Qed.

Lemma record_round_trip_exact_witness :
  let sdk := Scenario.plainTransportSdk in
  let w := Scenario.notedWorld (AlgorandBlockchainService.noteText "abc123" 1719230000000) in
  AlgorandBlockchainService.verifyHealthDataFromTransaction sdk w "abc124" "TX1" []
  = (Normal (String.eqb "abc123" "abc124"), ([] ++ [EPendingTransactionInformation "TX1"])%list)
  /\ EnhancedAlgorandService.verifyHealthData sdk w "abc124" "TX1" []
     = (Normal (String.eqb "abc123" "abc124"),
        ([] ++ [EPendingTransactionInformation "TX1"])%list).
Proof.
  apply (record_round_trip_exact Scenario.plainTransportSdk
           (Scenario.notedWorld (AlgorandBlockchainService.noteText "abc123" 1719230000000))
           "abc123" "abc124" "TX1" 1719230000000 []
           (VObject [("confirmed-round", VNumber 42);
                     ("txn", VObject [("note", VString (AlgorandBlockchainService.noteText
                                                          "abc123" 1719230000000))])])
           (codes (AlgorandBlockchainService.noteText "abc123" 1719230000000)));
    reflexivity.
Defined.

(** X10: the second search finds no note where the first found none, so
    the fallback of [verifyHealthData] cannot succeed on an unchanged
    answer.  When the ledger gives the same confirmed transaction to every
    query and the three extraction methods find no note in it, the
    verification returns [false] after three further queries and 14 seconds
    of pauses. *)
Theorem fallback_cannot_recover
        (sdk : Sdk) (w : World) (dataHash txId : string) (h : History) (txnInfo : JsVal) :
  alwaysAnswers w txId txnInfo ->
  truthy (field txnInfo "confirmed-round") = true ->
  truthy (AlgorandService.extractNote txnInfo) = false ->
  truthy (AlgorandService.findNote txnInfo) = false
  /\ AlgorandService.verifyHealthData sdk w dataHash txId h
     = (Normal false,
        (h ++ [EPendingTransactionInformation txId; ESleep 5000;
               EPendingTransactionInformation txId; ESleep 3000;
               EPendingTransactionInformation txId; ESleep 6000;
               EPendingTransactionInformation txId])%list).
Proof.
  intros A C Nn. pose proof (extractNote_missing txnInfo Nn) as F.
  split; [exact F|].
  destruct (truthy_field _ _ C) as [T _].
  apply (verify_note_missing sdk w dataHash txId h txnInfo (A h) T C Nn).
  intros hist. now rewrite (A hist).
Qed.

Lemma fallback_cannot_recover_witness :
  let txnInfo := VObject [("confirmed-round", VNumber 42);
                          ("txn", VObject [("note", VString EmptyString)])] in
  truthy (AlgorandService.findNote txnInfo) = false
  /\ AlgorandService.verifyHealthData Scenario.plainTransportSdk
       (Scenario.notedWorld EmptyString) "abc123" "TX1" []
     = (Normal false,
        ([] ++ [EPendingTransactionInformation "TX1"; ESleep 5000;
                EPendingTransactionInformation "TX1"; ESleep 3000;
                EPendingTransactionInformation "TX1"; ESleep 6000;
                EPendingTransactionInformation "TX1"])%list).
Proof.
  apply (fallback_cannot_recover Scenario.plainTransportSdk (Scenario.notedWorld EmptyString)
           "abc123" "TX1" []);
    [intros hist; reflexivity | reflexivity | reflexivity].
Defined.

(** ** What account generation returns *)

Section GeneratedAccounts.

Variable sdk : Sdk.

Lemma validateAccount_fields (a b : JsVal) :
  field b "addr" = field a "addr" -> field b "sk" = field a "sk" ->
  AlgorandService.validateAccount sdk a = true ->
  AlgorandService.validateAccount sdk b = true.
Proof.
  intros Ha Hs H. apply validateAccount_spec in H as (x & bytes & A & L & D & S & B).
  apply validateAccount_spec. exists x, bytes. rewrite Ha, Hs. now repeat split.
Qed.

Lemma validateAccount_plain (a : JsVal) :
  AlgorandService.validateAccount sdk a = true ->
  AlgorandService.validateAccount sdk (AlgorandService.plainAccount a) = true.
Proof. now apply validateAccount_fields. Qed.

Lemma validateAccount_mnemonic (a : JsVal) (m : string) :
  AlgorandService.validateAccount sdk a = true ->
  AlgorandService.validateAccount sdk (AlgorandService.mnemonicAccount a m) = true.
Proof. now apply validateAccount_fields. Qed.

Lemma mockSk_length (tick : nat) : List.length (AlgorandService.mockSk sdk tick) = 64.
Proof. unfold AlgorandService.mockSk. now rewrite length_map, length_seq. Qed.

Lemma validateAccount_mock (tick : nat) :
  AlgorandService.validateAccount sdk (AlgorandService.createMockAccount sdk tick) = true.
Proof.
  apply validateAccount_spec.
  exists AlgorandService.mockAddr, (AlgorandService.mockSk sdk tick).
  repeat split; first [reflexivity | now left | apply mockSk_length].
Qed.

Lemma directGeneration_validates (account : JsVal) :
  AlgorandService.directGeneration sdk = Some account ->
  AlgorandService.validateAccount sdk account = true.
Proof.
  unfold AlgorandService.directGeneration.
  destruct (algosdk_generateAccount sdk) as [a|e]; [|intros Q; discriminate Q].
  destruct (AlgorandService.validateAccount sdk a) eqn:V; [|intros Q; discriminate Q].
  intros [= <-]. now apply validateAccount_plain.
Qed.

Lemma generateAccountFallback_validates :
  exists account,
    AlgorandService.generateAccountFallback sdk = Normal account
    /\ AlgorandService.validateAccount sdk account = true.
Proof.
  unfold AlgorandService.generateAccountFallback.
  destruct (algosdk_mnemonicToSecretKey sdk (AlgorandService.fallbackMnemonic sdk)) as [a|e].
  - destruct (AlgorandService.validateAccount sdk a) eqn:V; eexists; (split; [reflexivity|]);
      [now apply validateAccount_mnemonic | apply validateAccount_mock].
  - eexists. split; [reflexivity | apply validateAccount_mock].
Qed.

End GeneratedAccounts.

(** X11: [generateAccount] of [AlgorandService] never throws, and the
    account it returns passes the validator of the service, the mock account
    included; [generateAccount] of [EnhancedAlgorandService] never throws
    either, and what it returns passes the validator or is the mock
    account. *)
Theorem generated_account_validates (sdk : Sdk) :
  (exists account,
      AlgorandService.generateAccount sdk = Normal account
      /\ AlgorandService.validateAccount sdk account = true)
  /\ (exists account,
         EnhancedAlgorandService.generateAccount sdk = Normal account
         /\ (EnhancedAlgorandService.validateAccount sdk account = true
             \/ account = EnhancedAlgorandService.createMockAccount sdk 1)).
Proof.
  split.
  - unfold AlgorandService.generateAccount.
    destruct (AlgorandService.directGeneration sdk) as [a|] eqn:D.
    { exists a. split; [reflexivity | now apply directGeneration_validates]. }
    destruct (AlgorandService.mnemonicGeneration sdk) as [a|] eqn:M.
    { exists a. split; [reflexivity|].
      unfold AlgorandService.mnemonicGeneration in M.
      destruct (generateSecureMnemonic sdk 0) as [m|e]; [|discriminate M].
      destruct (algosdk_mnemonicToSecretKey sdk m) as [c|e]; [|discriminate M].
      destruct (AlgorandService.validateAccount sdk c) eqn:V; [|discriminate M].
      injection M as <-. now apply validateAccount_mnemonic. }
    destruct (AlgorandService.generateAccountManually sdk) as [a|e] eqn:G.
    { exists a. split; [reflexivity|].
      unfold AlgorandService.generateAccountManually in G.
      destruct (generateSecureMnemonic sdk 1) as [m|e]; [|discriminate G].
      destruct (algosdk_mnemonicToSecretKey sdk m) as [c|e]; [|discriminate G].
      destruct (AlgorandService.validateAccount sdk c) eqn:V; [|discriminate G].
      injection G as <-. now apply validateAccount_mnemonic. }
    destruct (generateAccountFallback_validates sdk) as (a & -> & V).
    now exists a.
  - unfold EnhancedAlgorandService.generateAccount.
    destruct (AlgorandService.directGeneration sdk) as [a|] eqn:D.
    { exists a. split; [reflexivity | left; now apply directGeneration_validates]. }
    destruct (EnhancedAlgorandService.mnemonicGeneration sdk) as [a|] eqn:M.
    { exists a. split; [reflexivity | left].
      unfold EnhancedAlgorandService.mnemonicGeneration in M.
      destruct (EnhancedAlgorandService.generateMnemonic sdk) as [m|e]; [|discriminate M].
      destruct (algosdk_mnemonicToSecretKey sdk m) as [c|e]; [|discriminate M].
      destruct (EnhancedAlgorandService.validateAccount sdk c) eqn:V; [|discriminate M].
      injection M as <-. now apply validateAccount_mnemonic. }
    destruct (EnhancedAlgorandService.generateAccountManually sdk) as [a|e] eqn:G.
    { exists a. split; [reflexivity | left].
      unfold EnhancedAlgorandService.generateAccountManually in G.
      destruct (algosdk_accountFromPrivateKey sdk (getSecureRandomBytes sdk 32)) as [c|e'];
        [|discriminate G].
      destruct (EnhancedAlgorandService.validateAccount sdk c) eqn:V; [|discriminate G].
      injection G as <-. now apply validateAccount_plain. }
    unfold EnhancedAlgorandService.generateAccountFallback.
    destruct (algosdk_accountFromPrivateKey sdk _) as [c|e'].
    + destruct (EnhancedAlgorandService.validateAccount sdk c) eqn:V; eexists;
        (split; [reflexivity|]); [left; now apply validateAccount_plain | now right].
    + eexists. split; [reflexivity | now right].
Qed.

(** X12: an account that [generateAccount] of [AlgorandBlockchainService]
    returns is a valid one, and the exported [generateAlgorandAccount]
    returns the same account: reading the lengths for the log never fails on
    it.  An error of the service reaches the caller with one more prefix. *)
Theorem exported_generation_agrees (sdk : Sdk) :
  (forall account,
      AlgorandBlockchainService.generateAccount sdk = Normal account ->
      AlgorandBlockchainService.isValidAccount sdk account = true
      /\ LibAlgorand.generateAlgorandAccount sdk = Normal account)
  /\ (forall e,
         AlgorandBlockchainService.generateAccount sdk = Throw e ->
         LibAlgorand.generateAlgorandAccount sdk
         = Throw {| message := "Failed to generate Algorand account: Error: " ++ message e |}).
Proof.
  assert (V : forall account,
             AlgorandBlockchainService.generateAccount sdk = Normal account ->
             AlgorandBlockchainService.isValidAccount sdk account = true).
  { intros account. unfold AlgorandBlockchainService.generateAccount,
                           AlgorandBlockchainService.generateAccountFromMnemonic.
    destruct (algosdk_generateAccount sdk) as [a|e].
    - destruct (AlgorandBlockchainService.isValidAccount sdk a) eqn:Va.
      + now intros [= <-].
      + destruct (algosdk_generateMnemonic sdk) as [m|e]; [|intros Q; discriminate Q].
        destruct (algosdk_mnemonicToSecretKey sdk m) as [c|e]; [|intros Q; discriminate Q].
        destruct (AlgorandBlockchainService.isValidAccount sdk c) eqn:Vc;
          [now intros [= <-] | intros Q; discriminate Q].
    - destruct (algosdk_generateMnemonic sdk) as [m|e']; [|intros Q; discriminate Q].
      destruct (algosdk_mnemonicToSecretKey sdk m) as [c|e']; [|intros Q; discriminate Q].
      destruct (AlgorandBlockchainService.isValidAccount sdk c) eqn:Vc;
        [now intros [= <-] | intros Q; discriminate Q]. }
  split.
  - intros account G. split; [now apply V|].
    pose proof (V account G) as Va.
    apply isValidAccount_spec in Va as (a & bytes & A & _ & _ & S & _).
    unfold LibAlgorand.generateAlgorandAccount. rewrite G.
    destruct account; try discriminate A. cbn [getField]. now rewrite A, S.
  - intros e G. unfold LibAlgorand.generateAlgorandAccount. now rewrite G.
Qed.

(** ** The deterministic mnemonic *)

Section FallbackMnemonic.

Lemma selectedWords_window (z : Z) :
  exists z' : Z,
    (-23 <= z' <= 11)%Z /\ AlgorandService.selectedWords z = AlgorandService.selectedWords z'.
Proof.
  assert (Hext : forall z', (forall i, (0 <= i < 12)%Z ->
                                       (Z.abs (z + i) mod 12 = Z.abs (z' + i) mod 12)%Z) ->
                            AlgorandService.selectedWords z = AlgorandService.selectedWords z').
  { intros z' H. unfold AlgorandService.selectedWords. apply map_ext_in.
    intros i Hi. apply in_seq in Hi. now rewrite H by lia. }
  destruct (Z_le_gt_dec 0 z) as [Hpos|Hneg].
  - exists (z mod 12)%Z. split; [pose proof (Z.mod_pos_bound z 12); lia|].
    apply Hext. intros i Hi.
    pose proof (Z.mod_pos_bound z 12 ltac:(lia)).
    rewrite !Z.abs_eq by lia. now rewrite Zplus_mod_idemp_l.
  - destruct (Z_le_gt_dec z (-12)) as [Hlow|Hmid].
    + exists (- 12 - (- z) mod 12)%Z.
      pose proof (Z.mod_pos_bound (- z) 12 ltac:(lia)).
      split; [lia|]. apply Hext. intros i Hi.
      rewrite !Z.abs_neq by lia.
      replace (- (- 12 - (- z) mod 12 + i))%Z with ((- z) mod 12 + (- i + 1 * 12))%Z by lia.
      replace (- (z + i))%Z with (- z + (- i + 1 * 12) - 1 * 12)%Z by lia.
      rewrite Zplus_mod_idemp_l.
      replace (- z + (- i + 1 * 12) - 1 * 12)%Z with (- z + (- i + 1 * 12) + (-1) * 12)%Z by lia.
      now rewrite Z.mod_add by lia.
    + exists z. split; [lia | reflexivity].
Qed.

End FallbackMnemonic.

(** X13: the deterministic mnemonic of [generateAccountFallback] takes one
    of 35 values, whatever the clock, the random number and the platform
    are: the twelve words are consecutive words of the list, so the hash of
    the seed matters only through its sign and its remainder modulo 12. *)
Theorem fallback_mnemonic_among_35 :
  exists candidates : list string,
    List.length candidates = 35
    /\ forall sdk : Sdk, In (AlgorandService.fallbackMnemonic sdk) candidates.
Proof.
  exists (map (fun i => AlgorandService.join " "
                          (AlgorandService.selectedWords (Z.of_nat i - 23)))
              (seq 0 35)).
  split; [now rewrite length_map, length_seq|].
  intros sdk. unfold AlgorandService.fallbackMnemonic.
  destruct (selectedWords_window
              (AlgorandService.seedHash (AlgorandService.fallbackSeed sdk) 0))
    as (z' & Hz & ->).
  apply in_map_iff. exists (Z.to_nat (z' + 23)). split.
  - do 2 f_equal. lia.
  - apply in_seq. lia.
Qed.

(** ** The fallback fingerprint *)

Section FallbackHash.

Import HealthDataHash.













End FallbackHash.


(** ** The requests of a funding run *)

Section FundingRequests.

Variable w : World.
Variable address : string.

Lemma initialSegment_nil {A : Type} (l : list A) : initialSegment [] l.
Proof. now exists l. Qed.

Lemma initialSegment_cons {A : Type} (x : A) (l1 l2 : list A) :
  initialSegment l1 l2 -> initialSegment (x :: l1) (x :: l2).
Proof. intros [r ->]. now exists r. Qed.

Lemma initialSegment_length {A : Type} (l1 l2 : list A) :
  initialSegment l1 l2 -> List.length l1 <= List.length l2.
Proof. intros [r ->]. rewrite List.length_app. lia. Qed.

Lemma tryDispensers_requests (sources : list AlgorandService.FundingSource) :
  forall h : History,
  exists (b : bool) (evs : History),
    AlgorandService.tryDispensers w address sources h = (Normal b, (h ++ evs)%list)
    /\ initialSegment (requests evs) (map requestOf sources)
    /\ (totalSleep evs <= 5000 * N.of_nat (List.length sources))%N
    /\ Forall fundingEvent evs.
Proof.
  induction sources as [|d rest IH]; intros h.
  - exists false, []. cbn. rewrite List.app_nil_r.
    split; [reflexivity|]. split; [apply initialSegment_nil|]. split; [lia | apply Forall_nil].
  - rewrite tryDispensers_step. cbv zeta.
    set (request := EFetch (AlgorandService.url d) (AlgorandService.body d)).
    assert (Hskip : exists (b : bool) (evs : History),
               AlgorandService.tryDispensers w address rest (h ++ [request])%list
               = (Normal b, (h ++ evs)%list)
               /\ initialSegment (requests evs) (map requestOf (d :: rest))
               /\ (totalSleep evs <= 5000 * N.of_nat (List.length (d :: rest)))%N
               /\ Forall fundingEvent evs).
    { destruct (IH (h ++ [request])%list) as (b & evs & E & Hseg & S & F).
      exists b, (request :: evs). split; [now rewrite E, <- List.app_assoc|].
      split; [apply initialSegment_cons; exact Hseg|].
      split; [|apply Forall_cons; [exact I | exact F]].
      change (request :: evs) with ([request] ++ evs)%list.
      rewrite totalSleep_app. cbn [List.length]. change (totalSleep [request]) with 0%N. lia. }
    destruct (fetch w h (AlgorandService.url d)) as [r|e]; [|exact Hskip].
    destruct (ok r); [|exact Hskip].
    destruct (100000 <=? balanceOf
                (accountInformation w (h ++ [request; ESleep 5000])%list address))%Z.
    + exists true, [request; ESleep 5000; EAccountInformation address].
      split; [now rewrite <- List.app_assoc|].
      split; [apply initialSegment_cons, initialSegment_nil|].
      split; [|repeat (apply Forall_cons; [exact I|]); apply Forall_nil].
      cbn [List.length]. change (totalSleep _) with 5000%N. lia.
    + destruct (IH ((h ++ [request; ESleep 5000]) ++ [EAccountInformation address])%list)
        as (b & evs & E & Hseg & S & F).
      exists b, ([request; ESleep 5000; EAccountInformation address] ++ evs)%list.
      split; [now rewrite E, <- !List.app_assoc|].
      split; [apply initialSegment_cons; exact Hseg|].
      split; [|apply Forall_app; split;
                 [repeat (apply Forall_cons; [exact I|]); apply Forall_nil | exact F]].
      rewrite totalSleep_app. cbn [List.length].
      change (totalSleep [request; ESleep 5000; EAccountInformation address]) with 5000%N.
      lia.
Qed.

Lemma blockchain_tryDispensers_requests (sources : list AlgorandService.FundingSource) :
  forall (funded : bool) (h : History),
  exists (b : bool) (evs : History),
    AlgorandBlockchainService.tryDispensers w address sources funded h
    = (Normal b, (h ++ evs)%list)
    /\ initialSegment (requests evs) (map requestOf sources)
    /\ (totalSleep evs <= 8000 * N.of_nat (List.length sources))%N
    /\ Forall fundingEvent evs.
Proof.
  induction sources as [|d rest IH]; intros funded h.
  - cbn [AlgorandBlockchainService.tryDispensers].
    exists funded, []. rewrite List.app_nil_r.
    split; [now destruct funded|]. split; [apply initialSegment_nil|].
    split; [cbn; lia | apply Forall_nil].
  - rewrite blockchain_tryDispensers_step. cbv zeta.
    set (request := EFetch (AlgorandService.url d) (AlgorandService.body d)).
    assert (Hskip : forall funded', exists (b : bool) (evs : History),
               AlgorandBlockchainService.tryDispensers w address rest funded'
                 (h ++ [request])%list
               = (Normal b, (h ++ evs)%list)
               /\ initialSegment (requests evs) (map requestOf (d :: rest))
               /\ (totalSleep evs <= 8000 * N.of_nat (List.length (d :: rest)))%N
               /\ Forall fundingEvent evs).
    { intros funded'.
      destruct (IH funded' (h ++ [request])%list) as (b & evs & E & Hseg & S & F).
      exists b, (request :: evs). split; [now rewrite E, <- List.app_assoc|].
      split; [apply initialSegment_cons; exact Hseg|].
      split; [|apply Forall_cons; [exact I | exact F]].
      change (request :: evs) with ([request] ++ evs)%list.
      rewrite totalSleep_app. cbn [List.length]. change (totalSleep [request]) with 0%N. lia. }
    destruct (fetch w h (AlgorandService.url d)) as [r|e]; [|apply Hskip].
    destruct (acknowledged r); [|apply Hskip].
    destruct (100000 <=? balanceOf
                (accountInformation w (h ++ [request; ESleep 8000])%list address))%Z.
    + exists true, [request; ESleep 8000; EAccountInformation address].
      split; [now rewrite <- List.app_assoc|].
      split; [apply initialSegment_cons, initialSegment_nil|].
      split; [|repeat (apply Forall_cons; [exact I|]); apply Forall_nil].
      cbn [List.length]. change (totalSleep _) with 8000%N. lia.
    + destruct (IH true ((h ++ [request; ESleep 8000]) ++ [EAccountInformation address])%list)
        as (b & evs & E & Hseg & S & F).
      exists b, ([request; ESleep 8000; EAccountInformation address] ++ evs)%list.
      split; [now rewrite E, <- !List.app_assoc|].
      split; [apply initialSegment_cons; exact Hseg|].
      split; [|apply Forall_app; split;
                 [repeat (apply Forall_cons; [exact I|]); apply Forall_nil | exact F]].
      rewrite totalSleep_app. cbn [List.length].
      change (totalSleep [request; ESleep 8000; EAccountInformation address]) with 8000%N.
      lia.
Qed.

Lemma ensureAccountFunded_requests (h : History) :
  exists (b : bool) (evs : History),
    AlgorandService.ensureAccountFunded w address h = (Normal b, (h ++ evs)%list)
    /\ initialSegment (requests evs) (map requestOf (AlgorandService.fundingSources address))
    /\ (totalSleep evs <= 10000)%N
    /\ Forall fundingEvent evs.
Proof.
  unfold AlgorandService.ensureAccountFunded, tryCatch, bind.
  rewrite getAccountBalance_run.
  destruct (AlgorandService.minimumBalance <=? _)%Z.
  - exists true, [EAccountInformation address].
    split; [reflexivity|]. split; [apply initialSegment_nil|].
    split; [cbn; lia | apply Forall_cons; [exact I | apply Forall_nil]].
  - destruct (tryDispensers_requests (AlgorandService.fundingSources address)
                (h ++ [EAccountInformation address])%list) as (b & evs & E & Hseg & S & F).
    rewrite E. exists b, (EAccountInformation address :: evs).
    split; [now rewrite <- List.app_assoc|]. split; [exact Hseg|].
    split; [|apply Forall_cons; [exact I | exact F]].
    change (EAccountInformation address :: evs)
      with ([EAccountInformation address] ++ evs)%list.
    rewrite totalSleep_app. cbn in S |- *. lia.
Qed.

Lemma blockchain_getAccountInfo_run (h : History) :
  exists r : Completion (option Z),
    AlgorandBlockchainService.getAccountInfo w address h
    = (r, (h ++ [EAccountInformation address])%list).
Proof.
  unfold AlgorandBlockchainService.getAccountInfo, tryCatch, call.
  destruct (accountInformation w h address) as [info|e]; [now eexists|].
  destruct (includes (message e) "account does not exist"); now eexists.
Qed.

Lemma blockchain_ensureAccountFunded_requests (h : History) :
  exists (b : bool) (evs : History),
    AlgorandBlockchainService.ensureAccountFunded w address h = (Normal b, (h ++ evs)%list)
    /\ initialSegment (requests evs)
         (map requestOf (AlgorandBlockchainService.fundingSources address))
    /\ (totalSleep evs <= 24000)%N
    /\ Forall fundingEvent evs.
Proof.
  unfold AlgorandBlockchainService.ensureAccountFunded, tryCatch, bind.
  destruct (blockchain_getAccountInfo_run h) as (r & ->).
  destruct r as [info|e].
  - destruct (AlgorandBlockchainService.minimumBalance <=? _)%Z.
    + exists true, [EAccountInformation address].
      split; [reflexivity|]. split; [apply initialSegment_nil|].
      split; [cbn; lia | apply Forall_cons; [exact I | apply Forall_nil]].
    + destruct (blockchain_tryDispensers_requests
                  (AlgorandBlockchainService.fundingSources address) false
                  (h ++ [EAccountInformation address])%list)
        as (b & evs & E & Hseg & S & F).
      rewrite E. exists b, (EAccountInformation address :: evs).
      split; [now rewrite <- List.app_assoc|]. split; [exact Hseg|].
      split; [|apply Forall_cons; [exact I | exact F]].
      change (EAccountInformation address :: evs)
        with ([EAccountInformation address] ++ evs)%list.
      rewrite totalSleep_app. cbn in S |- *. lia.
  - exists false, [EAccountInformation address].
    split; [reflexivity|]. split; [apply initialSegment_nil|].
    split; [cbn; lia | apply Forall_cons; [exact I | apply Forall_nil]].
Qed.

Lemma blockchain_getAccountBalance_run (h : History) :
  AlgorandBlockchainService.getAccountBalance w address h
  = (Normal (balanceOf (accountInformation w h address)),
     (h ++ [EAccountInformation address])%list).
Proof.
  unfold AlgorandBlockchainService.getAccountBalance, tryCatch, bind, ret.
  unfold AlgorandBlockchainService.getAccountInfo, tryCatch, call, ret, throw.
  destruct (accountInformation w h address) as [[z|]|e]; try reflexivity.
  now destruct (includes (message e) "account does not exist").
Qed.

End FundingRequests.

(** X15: a funding run contacts the faucets in the order of the list, each
    at most once and with the body of the list; it makes no external call
    other than balance queries and these requests, and it pauses for at most
    10 seconds in all in [AlgorandService] and 24 seconds in
    [AlgorandBlockchainService]. *)
Theorem funding_requests_in_order (w : World) (address : string) (h : History) :
  (exists (b : bool) (evs : History),
      AlgorandService.ensureAccountFunded w address h = (Normal b, (h ++ evs)%list)
      /\ initialSegment (requests evs)
           (map requestOf (AlgorandService.fundingSources address))
      /\ (totalSleep evs <= 10000)%N
      /\ Forall fundingEvent evs)
  /\ (exists (b : bool) (evs : History),
         AlgorandBlockchainService.ensureAccountFunded w address h
         = (Normal b, (h ++ evs)%list)
         /\ initialSegment (requests evs)
              (map requestOf (AlgorandBlockchainService.fundingSources address))
         /\ (totalSleep evs <= 24000)%N
         /\ Forall fundingEvent evs).
Proof.
  split; [apply ensureAccountFunded_requests | apply blockchain_ensureAccountFunded_requests].
Qed.

(** X16: the three services report the same balance.  The special case of
    [getAccountInfo] for an account that does not exist makes no difference:
    [getAccountBalance] of [AlgorandBlockchainService] returns what the one
    of [AlgorandService] returns, the amount of the answer and 0 when there
    is none or when the query fails, after one query. *)
Theorem balance_queries_agree (w : World) (address : string) (h : History) :
  AlgorandBlockchainService.getAccountBalance w address h
  = AlgorandService.getAccountBalance w address h
  /\ EnhancedAlgorandService.getAccountBalance w address h
     = AlgorandService.getAccountBalance w address h
  /\ AlgorandService.getAccountBalance w address h
     = (Normal (balanceOf (accountInformation w h address)),
        (h ++ [EAccountInformation address])%list).
Proof.
  rewrite blockchain_getAccountBalance_run, getAccountBalance_run.
  split; [reflexivity | split; [|reflexivity]].
  unfold EnhancedAlgorandService.getAccountBalance. apply getAccountBalance_run.
Qed.

(** ** Commitment *)

Section QuietEvents.

Lemma funding_quiet (evs : History) :
  Forall fundingEvent evs ->
  paramFetches evs = 0 /\ submissions evs = [] /\ pendingQueries evs = 0.
Proof.
  induction 1 as [|e evs He _ (P & S & Q)]; [now repeat split|].
  destruct e; try contradiction; cbn; now repeat split.
Qed.

Lemma queries_quiet (txId : string) (evs : History) :
  Forall (queryOrPause txId) evs ->
  paramFetches evs = 0 /\ submissions evs = [] /\ requests evs = [].
Proof.
  induction 1 as [|e evs He _ (P & S & Q)]; [now repeat split|].
  destruct He as [->|[ms ->]]; cbn; now repeat split.
Qed.

End QuietEvents.

Section StoredOnce.

Variable sdk : Sdk.
Variable w : World.
Variable account : JsVal.
Variable dataHash : string.

Lemma storeHealthData_committed (h h' : History) (id : string) :
  AlgorandService.storeHealthData sdk w account dataHash h = (Normal id, h') ->
  AlgorandService.validateAccount sdk account = true
  /\ exists evs after : History,
       h' = (h ++ evs)%list
       /\ committedOnce sdk w account (noteBytes dataHash) 15 h evs id (ESleep 3000 :: after)
       /\ Forall (queryOrPause id) after.
Proof.
  unfold AlgorandService.storeHealthData. unfold bind at 1. unfold lift at 1.
  destruct (getField account "addr") as [addr|e]; [|intros Q; discriminate Q].
  unfold tryCatch at 1.
  destruct (AlgorandService.validateAccount sdk account) eqn:V; cbn [negb];
    [|intros Q; discriminate Q].
  unfold bind at 1.
  destruct (ensureAccountFunded_requests w (AlgorandService.addrOf account) h)
    as (b & evs1 & -> & _ & _ & F1).
  destruct (funding_quiet evs1 F1) as (_ & S1 & _).
  unfold bind at 1. unfold call at 1.
  destruct (getTransactionParams w (h ++ evs1)%list) as [params|e] eqn:Ep;
    [|intros Q; discriminate Q].
  unfold bind at 1. unfold call at 1.
  unfold bind at 1. unfold lift at 1.
  destruct (algosdk_makePaymentTxn sdk _) as [[]|e]; [|intros Q; discriminate Q].
  unfold bind at 1. unfold lift at 1.
  destruct (algosdk_signTxn sdk _ (field account "sk")) as [signedTxn|e] eqn:Sg;
    [|intros Q; discriminate Q].
  unfold bind at 1. unfold call at 1.
  destruct (sendRawTransaction w _ signedTxn) as [txId|e] eqn:Sd; [|intros Q; discriminate Q].
  unfold bind at 1. unfold call at 1.
  destruct (waitForConfirmation w _ txId 15) as [confirmedTxn|e] eqn:Wt;
    [|intros Q; discriminate Q].
  unfold bind at 1. unfold lift at 1.
  destruct (getField confirmedTxn "confirmed-round") as [round|e]; [|intros Q; discriminate Q].
  unfold bind at 1. unfold tryCatch at 1. unfold bind at 1. unfold sleep at 1.
  unfold bind at 1.
  match goal with
  | |- context [AlgorandService.verifyHealthData sdk w dataHash txId ?hist] =>
      destruct (verifyHealthData_trace sdk w dataHash txId hist) as (vb & evs2 & -> & F2 & _)
  end.
  destruct (queries_quiet txId evs2 F2) as (_ & S2 & _).
  unfold ret. intros [= <- <-].
  split; [reflexivity|].
  assert (Hone :
    submissions (evs1 ++ [EGetTransactionParams; EDateNow; ESendRawTransaction signedTxn;
                          EWaitForConfirmation txId 15] ++ ESleep 3000 :: evs2)%list
    = [signedTxn]).
  { change (ESleep 3000%N :: evs2) with ([ESleep 3000%N] ++ evs2)%list.
    now rewrite !submissions_app, S1, S2. }
  eexists _, evs2. split; [|split; [|exact F2]].
  2:{ exists evs1, params, signedTxn, confirmedTxn. cbv zeta.
      split; [reflexivity|]. unfold selfPayment. flatten_histories. now repeat split. }
  now rewrite <- !List.app_assoc.
Qed.

Lemma enhanced_storeHealthData_committed (h h' : History) (id : string) :
  EnhancedAlgorandService.storeHealthData sdk w account dataHash h = (Normal id, h') ->
  AlgorandService.validateAccount sdk account = true
  /\ exists evs : History,
       h' = (h ++ evs)%list
       /\ committedOnce sdk w account
            (fun ts => TextEncoder_encode (EnhancedAlgorandService.noteText dataHash ts))
            10 h evs id [].
Proof.
  unfold EnhancedAlgorandService.storeHealthData. unfold bind at 1. unfold lift at 1.
  destruct (getField account "addr") as [addr|e]; [|intros Q; discriminate Q].
  unfold tryCatch at 1. unfold EnhancedAlgorandService.validateAccount.
  destruct (AlgorandService.validateAccount sdk account) eqn:V; cbn [negb];
    [|intros Q; discriminate Q].
  cbv zeta. unfold bind at 1. unfold EnhancedAlgorandService.ensureAccountFunded.
  destruct (ensureAccountFunded_requests w (AlgorandService.addrOf account) h)
    as (b & evs1 & -> & _ & _ & F1).
  destruct (funding_quiet evs1 F1) as (_ & S1 & _).
  unfold bind at 1. unfold call at 1.
  destruct (getTransactionParams w (h ++ evs1)%list) as [params|e] eqn:Ep;
    [|intros Q; discriminate Q].
  unfold bind at 1. unfold call at 1.
  unfold bind at 1. unfold lift at 1.
  destruct (algosdk_makePaymentTxn sdk _) as [[]|e]; [|intros Q; discriminate Q].
  unfold bind at 1. unfold lift at 1.
  destruct (algosdk_signTxn sdk _ (field account "sk")) as [signedTxn|e] eqn:Sg;
    [|intros Q; discriminate Q].
  unfold bind at 1. unfold call at 1.
  destruct (sendRawTransaction w _ signedTxn) as [txId|e] eqn:Sd; [|intros Q; discriminate Q].
  unfold bind at 1. unfold call at 1.
  destruct (waitForConfirmation w _ txId 10) as [confirmedTxn|e] eqn:Wt;
    [|intros Q; discriminate Q].
  unfold bind at 1. unfold lift at 1.
  destruct (getField confirmedTxn "confirmed-round") as [round|e]; [|intros Q; discriminate Q].
  unfold ret. intros [= <- <-].
  split; [reflexivity|].
  assert (Hone :
    submissions (evs1 ++ [EGetTransactionParams; EDateNow; ESendRawTransaction signedTxn;
                          EWaitForConfirmation txId 10] ++ [])%list
    = [signedTxn])
    by now rewrite !submissions_app, S1.
  eexists. split.
  2:{ exists evs1, params, signedTxn, confirmedTxn. cbv zeta.
      split; [reflexivity|]. unfold selfPayment. flatten_histories. now repeat split. }
  now rewrite <- !List.app_assoc.
Qed.

(** The result of [AlgorandService.storeHealthData] is the same whatever
    the ledger answers to the queries of the verification that follows the
    confirmation. *)
Lemma storeHealthData_ignores_verification
      (answers : History -> string -> Completion JsVal) (h : History) :
  fst (AlgorandService.storeHealthData sdk (withPending w answers) account dataHash h)
  = fst (AlgorandService.storeHealthData sdk w account dataHash h).
Proof.
  unfold AlgorandService.storeHealthData.
  change (AlgorandService.ensureAccountFunded (withPending w answers))
    with (AlgorandService.ensureAccountFunded w).
  unfold withPending.
  cbn [getTransactionParams dateNow sendRawTransaction waitForConfirmation].
  unfold bind, lift, tryCatch, call, sleep, ret, throw.
  destruct (getField account "addr") as [addr|e]; [|reflexivity].
  destruct (AlgorandService.validateAccount sdk account); cbn [negb]; [|reflexivity].
  destruct (ensureAccountFunded_requests w (AlgorandService.addrOf account) h)
    as (b & evs1 & -> & _).
  destruct (getTransactionParams w (h ++ evs1)%list) as [params|e]; [|reflexivity].
  destruct (algosdk_makePaymentTxn sdk _) as [[]|e]; [|reflexivity].
  destruct (algosdk_signTxn sdk _ (field account "sk")) as [signedTxn|e]; [|reflexivity].
  destruct (sendRawTransaction w _ signedTxn) as [txId|e]; [|reflexivity].
  destruct (waitForConfirmation w _ txId 15) as [confirmedTxn|e]; [|reflexivity].
  destruct (getField confirmedTxn "confirmed-round") as [round|e]; [|reflexivity].
  repeat match goal with
         | |- context [AlgorandService.verifyHealthData sdk ?w0 dataHash txId ?hist] =>
             destruct (verifyHealthData_trace sdk w0 dataHash txId hist) as (? & ? & -> & _)
         end.
  reflexivity.
Qed.

End StoredOnce.

Section BoundedCommitment.

Variable sdk : Sdk.
Variable w : World.
Variable network : string.
Variable userAccount : JsVal.
Variable hash : string.

Lemma paramsLoop_bounded (h : History) :
  exists (r : Completion JsVal) (evs : History),
    AlgorandBlockchainService.getTransactionParamsWithRetry w h = (r, (h ++ evs)%list)
    /\ paramFetches evs <= 3 /\ (totalSleep evs <= 3000)%N
    /\ submissions evs = [] /\ requests evs = []
    /\ (forall e, r = Throw e ->
                  exists pre, getTransactionParams w (h ++ pre)%list = Throw e
                              /\ paramFetches evs = 3).
Proof.
  unfold AlgorandBlockchainService.getTransactionParamsWithRetry,
         AlgorandBlockchainService.maxAttempts.
  cbn [AlgorandBlockchainService.paramsLoop Nat.ltb Nat.leb Nat.eqb].
  unfold AlgorandBlockchainService.maxAttempts. cbn [Nat.ltb Nat.leb Nat.eqb].
  unfold tryCatch, bind, call, sleep, throw.
  change (1000 * N.of_nat 1)%N with 1000%N. change (1000 * N.of_nat 2)%N with 2000%N.
  destruct (getTransactionParams w h) as [p1|e1].
  { exists (Normal p1), [EGetTransactionParams]. split; [reflexivity|].
    repeat split; try (cbn; lia). intros e Q. discriminate Q. }
  destruct (getTransactionParams w ((h ++ [EGetTransactionParams]) ++ [ESleep 1000])%list)
    as [p2|e2].
  { exists (Normal p2), [EGetTransactionParams; ESleep 1000; EGetTransactionParams].
    split; [now rewrite <- !List.app_assoc|].
    repeat split; try (cbn; lia). intros e Q. discriminate Q. }
  destruct (getTransactionParams w
              ((((h ++ [EGetTransactionParams]) ++ [ESleep 1000]) ++ [EGetTransactionParams])
                 ++ [ESleep 2000])%list) as [p3|e3] eqn:E3.
  { exists (Normal p3),
      [EGetTransactionParams; ESleep 1000; EGetTransactionParams; ESleep 2000;
       EGetTransactionParams].
    split; [now rewrite <- !List.app_assoc|].
    repeat split; try (cbn; lia). intros e Q. discriminate Q. }
  exists (Throw e3),
    [EGetTransactionParams; ESleep 1000; EGetTransactionParams; ESleep 2000;
     EGetTransactionParams].
  split; [now rewrite <- !List.app_assoc|].
  repeat split; try (cbn; lia). intros e [= <-].
  exists [EGetTransactionParams; ESleep 1000; EGetTransactionParams; ESleep 2000].
  split; [now rewrite <- !List.app_assoc in E3 | reflexivity].
Qed.

Lemma funding_step_bounded (h : History) :
  exists evs : History,
    (if String.eqb network "testnet"
     then AlgorandBlockchainService.ensureAccountFunded w
            (AlgorandService.addrOf userAccount) ;;; ret tt
     else ret tt) h
    = (Normal tt, (h ++ evs)%list)
    /\ paramFetches evs = 0 /\ submissions evs = []
    /\ List.length (requests evs) <= 3 /\ (totalSleep evs <= 24000)%N.
Proof.
  destruct (String.eqb network "testnet").
  - unfold bind.
    destruct (blockchain_ensureAccountFunded_requests w (AlgorandService.addrOf userAccount) h)
      as (b & evs & -> & Hseg & S & F).
    destruct (funding_quiet evs F) as (P & Sb & _).
    apply initialSegment_length in Hseg. cbn in Hseg.
    exists evs. now repeat split.
  - exists []. rewrite List.app_nil_r. repeat split; cbn; lia.
Qed.

Ltac tally P1 S1 S2 R2 :=
  rewrite ?paramFetches_app, ?submissions_app, ?requests_app, ?totalSleep_app,
          ?List.length_app, ?P1, ?S1, ?S2, ?R2;
  cbn; lia.

Lemma storeAttempt_bounded (h : History) :
  exists (r : Completion AlgorandBlockchainService.HealthDataTransaction) (evs : History),
    AlgorandBlockchainService.storeAttempt sdk w network userAccount hash h
    = (r, (h ++ evs)%list)
    /\ paramFetches evs <= 3
    /\ List.length (submissions evs) <= 1
    /\ List.length (requests evs) <= 3
    /\ (totalSleep evs <= 27000)%N.
Proof.
  unfold AlgorandBlockchainService.storeAttempt. unfold bind at 1.
  destruct (funding_step_bounded h) as (evs1 & -> & P1 & S1 & R1 & T1).
  unfold bind at 1.
  destruct (paramsLoop_bounded (h ++ evs1)%list) as (rp & evs2 & -> & P2 & T2 & S2 & R2 & _).
  destruct rp as [params|e].
  2:{ exists (Throw e), (evs1 ++ evs2)%list. split; [now rewrite List.app_assoc|].
      repeat split; tally P1 S1 S2 R2. }
  unfold bind, call, lift, ret, AlgorandBlockchainService.waitForConfirmationWithTimeout,
    tryCatch, bind, call, lift, ret, throw.
  destruct (algosdk_makePaymentTxn sdk _) as [[]|e].
  2:{ eexists _, _. split; [rewrite <- !List.app_assoc; reflexivity|].
      repeat split; tally P1 S1 S2 R2. }
  destruct (algosdk_signTxn sdk _ _) as [signedTxn|e].
  2:{ eexists _, _. split; [rewrite <- !List.app_assoc; reflexivity|].
      repeat split; tally P1 S1 S2 R2. }
  destruct (sendRawTransaction w _ signedTxn) as [id|e] eqn:Es.
  2:{ eexists _, _. split; [rewrite <- !List.app_assoc; reflexivity|].
      repeat split; tally P1 S1 S2 R2. }
  destruct (waitForConfirmation w _ id 10) as [confirmedTxn|e] eqn:Ew.
  2:{ eexists _, _. split; [rewrite <- !List.app_assoc; reflexivity|].
      repeat split; tally P1 S1 S2 R2. }
  destruct (getField confirmedTxn "confirmed-round") as [round|e] eqn:Eg; rewrite ?Eg.
  2:{ eexists _, _. split; [rewrite <- !List.app_assoc; reflexivity|].
      repeat split; tally P1 S1 S2 R2. }
  eexists _, _. split; [rewrite <- !List.app_assoc; reflexivity|].
  repeat split; tally P1 S1 S2 R2.
Qed.

Lemma storeHealthDataInTransaction_bounded (h : History) :
  exists (r : Completion AlgorandBlockchainService.HealthDataTransaction) (evs : History),
    AlgorandBlockchainService.storeHealthDataInTransaction sdk w network userAccount hash h
    = (r, (h ++ evs)%list)
    /\ paramFetches evs <= 9
    /\ List.length (submissions evs) <= 3
    /\ List.length (requests evs) <= 9
    /\ (totalSleep evs <= 87000)%N
    /\ (AlgorandBlockchainService.isValidAccount sdk userAccount = false -> evs = []).
Proof.
  unfold AlgorandBlockchainService.storeHealthDataInTransaction.
  destruct (AlgorandBlockchainService.isValidAccount sdk userAccount) eqn:V; cbn [negb].
  2:{ eexists _, []. rewrite List.app_nil_r. split; [reflexivity|].
      repeat split; try (cbn; lia); easy. }
  unfold AlgorandBlockchainService.maxAttempts.
  cbn [AlgorandBlockchainService.storeLoop Nat.ltb Nat.leb Nat.eqb].
  unfold AlgorandBlockchainService.maxAttempts. cbn [Nat.ltb Nat.leb Nat.eqb].
  unfold tryCatch, bind, sleep, throw.
  change (2000 * N.of_nat 1)%N with 2000%N. change (2000 * N.of_nat 2)%N with 4000%N.
  destruct (storeAttempt_bounded h) as (r1 & evs1 & -> & P1 & S1 & R1 & T1).
  destruct r1 as [t1|e1].
  { exists (Normal t1), evs1. split; [reflexivity|].
    repeat split; try lia; try discriminate. }
  destruct (storeAttempt_bounded ((h ++ evs1) ++ [ESleep 2000])%list)
    as (r2 & evs2 & -> & P2 & S2 & R2 & T2).
  destruct r2 as [t2|e2].
  { eexists _, _. split; [rewrite <- !List.app_assoc; reflexivity|].
    rewrite ?paramFetches_app, ?submissions_app, ?requests_app, ?totalSleep_app,
            ?List.length_app.
    change (totalSleep [ESleep 2000]) with 2000%N. cbn [paramFetches submissions requests
      flat_map filter List.length List.app].
    repeat split; try lia; try discriminate. }
  destruct (storeAttempt_bounded ((((h ++ evs1) ++ [ESleep 2000]) ++ evs2) ++ [ESleep 4000])%list)
    as (r3 & evs3 & -> & P3 & S3 & R3 & T3).
  assert (Hall : paramFetches (evs1 ++ [ESleep 2000] ++ evs2 ++ [ESleep 4000] ++ evs3)%list <= 9
                 /\ List.length (submissions
                                   (evs1 ++ [ESleep 2000] ++ evs2 ++ [ESleep 4000] ++ evs3)%list)
                    <= 3
                 /\ List.length (requests
                                   (evs1 ++ [ESleep 2000] ++ evs2 ++ [ESleep 4000] ++ evs3)%list)
                    <= 9
                 /\ (totalSleep (evs1 ++ [ESleep 2000] ++ evs2 ++ [ESleep 4000] ++ evs3)%list
                     <= 87000)%N).
  { rewrite ?paramFetches_app, ?submissions_app, ?requests_app, ?totalSleep_app,
            ?List.length_app.
    change (totalSleep [ESleep 2000]) with 2000%N.
    change (totalSleep [ESleep 4000]) with 4000%N.
    cbn [paramFetches submissions requests flat_map filter List.length List.app].
    repeat split; lia. }
  destruct Hall as (HP & HS & HR & HT).
  destruct r3 as [t3|e3].
  - eexists _, _. split; [rewrite <- !List.app_assoc; reflexivity|].
    repeat split; try assumption; try discriminate.
  - eexists _, _. split; [rewrite <- !List.app_assoc; reflexivity|].
    repeat split; try assumption; try discriminate.
Qed.

End BoundedCommitment.

Section Resubmission.

Variable sdk : Sdk.
Variable w : World.
Variable network : string.
Variable userAccount : JsVal.
Variable hash : string.

Hypothesis params_available : forall hist, exists p, getTransactionParams w hist = Normal p.
Hypothesis payment_built : forall txn, algosdk_makePaymentTxn sdk txn = Normal tt.
Hypothesis payment_signed : forall txn sk, exists s, algosdk_signTxn sdk txn sk = Normal s.
Hypothesis always_accepted : forall hist s, exists id, sendRawTransaction w hist s = Normal id.
Hypothesis never_confirmed :
  forall hist id rounds, exists e, waitForConfirmation w hist id rounds = Throw e.

Lemma storeAttempt_unconfirmed (h : History) :
  exists (e : JsError) (evs : History),
    AlgorandBlockchainService.storeAttempt sdk w network userAccount hash h
    = (Throw e, (h ++ evs)%list)
    /\ List.length (submissions evs) = 1
    /\ exists m, message e = "Transaction confirmation failed: " ++ m.
Proof.
  unfold AlgorandBlockchainService.storeAttempt. unfold bind at 1.
  destruct (funding_step_bounded w network userAccount h) as (evs1 & -> & P1 & S1 & R1 & T1).
  unfold bind at 1.
  destruct (paramsLoop_bounded w (h ++ evs1)%list) as (rp & evs2 & -> & P2 & T2 & S2 & R2 & Hthrow).
  destruct rp as [params|e].
  2:{ exfalso. destruct (Hthrow e eq_refl) as (pre & Q & _).
      destruct (params_available ((h ++ evs1) ++ pre)%list) as [p Hp]. congruence. }
  unfold bind, call, lift, ret, AlgorandBlockchainService.waitForConfirmationWithTimeout,
    tryCatch, bind, call, lift, ret, throw.
  rewrite payment_built.
  match goal with
  | |- context [algosdk_signTxn sdk ?txn ?sk] =>
      destruct (payment_signed txn sk) as [s ->]
  end.
  match goal with
  | |- context [sendRawTransaction w ?hist s] =>
      destruct (always_accepted hist s) as [id ->]
  end.
  match goal with
  | |- context [waitForConfirmation w ?hist id 10] =>
      destruct (never_confirmed hist id 10) as [e ->]
  end.
  eexists _, _. split; [rewrite <- !List.app_assoc; reflexivity|].
  split; [|now eexists].
  rewrite !submissions_app, !List.length_app, S1, S2. reflexivity.
Qed.

Lemma storeLoop_unconfirmed (h : History) :
  AlgorandBlockchainService.isValidAccount sdk userAccount = true ->
  exists (e : JsError) (evs : History),
    AlgorandBlockchainService.storeHealthDataInTransaction sdk w network userAccount hash h
    = (Throw e, (h ++ evs)%list)
    /\ List.length (submissions evs) = 3
    /\ exists m,
         message e
         = "Failed to store health data after 3 attempts: Transaction confirmation failed: "
             ++ m.
Proof.
  intros V. unfold AlgorandBlockchainService.storeHealthDataInTransaction.
  rewrite V. cbn [negb]. unfold AlgorandBlockchainService.maxAttempts.
  cbn [AlgorandBlockchainService.storeLoop Nat.ltb Nat.leb Nat.eqb].
  unfold AlgorandBlockchainService.maxAttempts. cbn [Nat.ltb Nat.leb Nat.eqb].
  unfold tryCatch, bind, sleep, throw.
  destruct (storeAttempt_unconfirmed h) as (e1 & evs1 & -> & S1 & _).
  match goal with
  | |- context [AlgorandBlockchainService.storeAttempt sdk w network userAccount hash ?hist] =>
      destruct (storeAttempt_unconfirmed hist) as (e2 & evs2 & -> & S2 & _)
  end.
  match goal with
  | |- context [AlgorandBlockchainService.storeAttempt sdk w network userAccount hash ?hist] =>
      destruct (storeAttempt_unconfirmed hist) as (e3 & evs3 & -> & S3 & m & Hm)
  end.
  eexists _, _. split; [rewrite <- !List.app_assoc; reflexivity|].
  split; [rewrite !submissions_app, !List.length_app, S1, S2, S3; reflexivity|].
  exists m. cbn [message]. now rewrite Hm.
Qed.

End Resubmission.

(** X17: a commitment of [AlgorandBlockchainService] is bounded: whatever
    the ledger and the faucets answer, it returns or throws after at most 9
    fetches of the transaction parameters, 3 submissions, 9 requests to
    faucets and 87 seconds of pauses. *)
Theorem commitment_is_bounded
        (sdk : Sdk) (w : World) (network : string) (userAccount : JsVal) (hash : string)
        (h : History) :
  exists (r : Completion AlgorandBlockchainService.HealthDataTransaction) (evs : History),
    AlgorandBlockchainService.storeHealthDataInTransaction sdk w network userAccount hash h
    = (r, (h ++ evs)%list)
    /\ paramFetches evs <= 9
    /\ List.length (submissions evs) <= 3
    /\ List.length (requests evs) <= 9
    /\ (totalSleep evs <= 87000)%N.
Proof.
  destruct (storeHealthDataInTransaction_bounded sdk w network userAccount hash h)
    as (r & evs & E & P & S & R & T & _).
  now exists r, evs.
Qed.

(** X18: a transaction that the ledger accepts and does not confirm in
    time is submitted again by the retry.  Where the parameters are
    available, the payment can be built and signed, every submission is
    accepted and no confirmation arrives, a commitment with a valid account
    throws after three submissions. *)
Theorem unconfirmed_commitment_resubmits
        (sdk : Sdk) (w : World) (network : string) (userAccount : JsVal) (hash : string)
        (h : History) :
  AlgorandBlockchainService.isValidAccount sdk userAccount = true ->
  (forall hist, exists p, getTransactionParams w hist = Normal p) ->
  (forall txn, algosdk_makePaymentTxn sdk txn = Normal tt) ->
  (forall txn sk, exists s, algosdk_signTxn sdk txn sk = Normal s) ->
  (forall hist s, exists id, sendRawTransaction w hist s = Normal id) ->
  (forall hist id rounds, exists e, waitForConfirmation w hist id rounds = Throw e) ->
  exists (e : JsError) (evs : History),
    AlgorandBlockchainService.storeHealthDataInTransaction sdk w network userAccount hash h
    = (Throw e, (h ++ evs)%list)
    /\ List.length (submissions evs) = 3
    /\ exists m,
         message e
         = "Failed to store health data after 3 attempts: Transaction confirmation failed: "
             ++ m.
Proof.
  intros V H1 H2 H3 H4 H5. now apply storeLoop_unconfirmed.
Qed.

Lemma unconfirmed_commitment_resubmits_witness :
  exists (e : JsError) (evs : History),
    AlgorandBlockchainService.storeHealthDataInTransaction Scenario.plainTransportSdk
      Scenario.stalledWorld "testnet" Scenario.someAccount "abc123" []
    = (Throw e, ([] ++ evs)%list)
    /\ List.length (submissions evs) = 3
    /\ exists m,
         message e
         = "Failed to store health data after 3 attempts: Transaction confirmation failed: "
             ++ m.
Proof.
  apply unconfirmed_commitment_resubmits.
  - vm_compute. reflexivity.
  - intros hist. eexists. reflexivity.
  - intros txn. reflexivity.
  - intros txn sk. eexists. reflexivity.
  - intros hist s. eexists. reflexivity.
  - intros hist id rounds. eexists. reflexivity.
Defined.

(** X19: what the exported [storeHealthDataOnBlockchain] gives back.  When
    it returns an id, the account is valid and the run ends with an attempt
    that submitted the signed payment of this commitment and waited for it:
    the id is the one that the ledger gave to that submission, and the
    ledger confirmed it in that wait.  An error is one of three messages;
    at most three transactions are submitted; and for an account that is
    not valid it throws without an external call. *)
Theorem exported_commitment_outcomes
        (sdk : Sdk) (w : World) (network : string) (userAccount : JsVal) (dataHash : string)
        (h : History) :
  exists (r : Completion string) (evs : History),
    LibAlgorand.storeHealthDataOnBlockchain sdk w network userAccount dataHash h
    = (r, (h ++ evs)%list)
    /\ List.length (submissions evs) <= 3
    /\ (forall id, r = Normal id ->
                   AlgorandBlockchainService.isValidAccount sdk userAccount = true
                   /\ exists (before attempt : History)
                             (t : AlgorandBlockchainService.HealthDataTransaction),
                        evs = (before ++ attempt)%list
                        /\ carriesConfirmation sdk w network userAccount dataHash
                             (h ++ before)%list attempt t
                        /\ AlgorandBlockchainService.txId t = id)
    /\ (forall e, r = Throw e ->
                  message e = "Insufficient funds in account. Please run: npm run fund-account"
                  \/ message e = "Network error. Please check connection and try again."
                  \/ exists m,
                       message e = "Failed to store health data on blockchain: Error: " ++ m)
    /\ (AlgorandBlockchainService.isValidAccount sdk userAccount = false -> evs = []).
Proof.
  assert (Hmsg : forall error,
             message (LibAlgorand.storageError error)
             = "Insufficient funds in account. Please run: npm run fund-account"
             \/ message (LibAlgorand.storageError error)
                = "Network error. Please check connection and try again."
             \/ exists m,
                  message (LibAlgorand.storageError error)
                  = "Failed to store health data on blockchain: Error: " ++ m).
  { intros error. unfold LibAlgorand.storageError.
    destruct (includes (message error) "insufficient funds"); [now left|].
    destruct (includes (message error) "network"); [now right; left|].
    right; right. now eexists. }
  unfold LibAlgorand.storeHealthDataOnBlockchain, tryCatch.
  destruct (negb (truthy userAccount) || negb (truthy (field userAccount "addr"))
            || negb (LibAlgorand.lengthIs58 (LibAlgorand.addrLength userAccount))).
  - unfold throw. eexists _, []. rewrite List.app_nil_r. split; [reflexivity|].
    split; [cbn; lia|]. split; [intros id Q; discriminate Q|].
    split; [intros e [= <-]; apply Hmsg | reflexivity].
  - unfold bind.
    destruct (storeHealthDataInTransaction_bounded sdk w network userAccount dataHash h)
      as (r & evs & E & _ & S & _ & _ & Hinv).
    rewrite E. destruct r as [t|e].
    + exists (Normal (AlgorandBlockchainService.txId t)), evs. split; [reflexivity|].
      split; [exact S|]. split.
      * intros id [= <-].
        destruct (storeHealthDataInTransaction_committed sdk w network userAccount dataHash
                    h _ t E) as (V & before & attempt & Hh & C).
        apply List.app_inv_head in Hh. split; [exact V | now exists before, attempt, t].
      * split; [intros e Q; discriminate Q | exact Hinv].
    + unfold throw. eexists _, evs. split; [reflexivity|].
      split; [exact S|]. split; [intros id Q; discriminate Q|].
      split; [intros e' [= <-]; apply Hmsg | exact Hinv].
Qed.

(** X20: an account that the validator rejects never reaches the ledger.
    [storeHealthData] of [AlgorandService] and of [EnhancedAlgorandService],
    [storeHealthDataInTransaction] and the exported wrapper all throw before
    any external call. *)
Theorem invalid_account_never_reaches_ledger
        (sdk : Sdk) (w : World) (network : string) (account : JsVal) (dataHash : string)
        (h : History) :
  (AlgorandService.validateAccount sdk account = false ->
   exists e1 e2,
     AlgorandService.storeHealthData sdk w account dataHash h = (Throw e1, h)
     /\ EnhancedAlgorandService.storeHealthData sdk w account dataHash h = (Throw e2, h))
  /\ (AlgorandBlockchainService.isValidAccount sdk account = false ->
      AlgorandBlockchainService.storeHealthDataInTransaction sdk w network account dataHash h
      = (Throw {| message := "Invalid account provided for transaction" |}, h)
      /\ exists e,
           LibAlgorand.storeHealthDataOnBlockchain sdk w network account dataHash h
           = (Throw e, h)).
Proof.
  split.
  - intros V.
    unfold AlgorandService.storeHealthData, EnhancedAlgorandService.storeHealthData,
           EnhancedAlgorandService.validateAccount.
    unfold bind, lift, tryCatch, throw. rewrite V. cbn [negb].
    destruct (getField account "addr"); eexists _, _; split; reflexivity.
  - intros V.
    assert (E : AlgorandBlockchainService.storeHealthDataInTransaction sdk w network account
                  dataHash h
                = (Throw {| message := "Invalid account provided for transaction" |}, h)).
    { unfold AlgorandBlockchainService.storeHealthDataInTransaction. now rewrite V. }
    split; [exact E|].
    unfold LibAlgorand.storeHealthDataOnBlockchain, tryCatch, bind, throw.
    destruct (negb (truthy account) || _ || _); [now eexists|].
    rewrite E. now eexists.
Qed.

(** X21: what a successful [storeHealthData] has done.  When it returns a
    transaction id, the account passed the validator, and the calls of the
    run are: the funding, the fetch of the parameters, the reading of the
    clock, one submission and the wait for its confirmation, of 15 rounds
    in [AlgorandService] and of 10 in [EnhancedAlgorandService].  What was
    submitted is the payment of 0 from the account to itself that carries
    the note built for the fingerprint at that reading of the clock, signed
    with the key of the account; the id returned is the one that the ledger
    gave to that submission, and the ledger confirmed it in that wait.  In
    [AlgorandService] a pause of 3 seconds and the queries of the immediate
    verification follow, and they have no part in the result: it is the
    same whatever the ledger answers to those queries. *)
Theorem commitment_is_one_zero_value_payment
        (sdk : Sdk) (w : World) (account : JsVal) (dataHash : string) (h : History) :
  (forall id h',
      AlgorandService.storeHealthData sdk w account dataHash h = (Normal id, h') ->
      AlgorandService.validateAccount sdk account = true
      /\ exists evs after : History,
           h' = (h ++ evs)%list
           /\ committedOnce sdk w account (noteBytes dataHash) 15 h evs id
                (ESleep 3000 :: after)
           /\ Forall (queryOrPause id) after)
  /\ (forall id h',
         EnhancedAlgorandService.storeHealthData sdk w account dataHash h = (Normal id, h') ->
         AlgorandService.validateAccount sdk account = true
         /\ exists evs : History,
              h' = (h ++ evs)%list
              /\ committedOnce sdk w account
                   (fun ts =>
                      TextEncoder_encode (EnhancedAlgorandService.noteText dataHash ts))
                   10 h evs id [])
  /\ (forall answers : History -> string -> Completion JsVal,
         fst (AlgorandService.storeHealthData sdk (withPending w answers) account dataHash h)
         = fst (AlgorandService.storeHealthData sdk w account dataHash h)).
Proof.
  split; [|split].
  - intros id h'. apply storeHealthData_committed.
  - intros id h'. apply enhanced_storeHealthData_committed.
  - intros answers. apply storeHealthData_ignores_verification.
Qed.

Lemma commitment_is_one_zero_value_payment_witness :
  let sdk := Scenario.plainTransportSdk in
  let w := Scenario.happyWorld in
  let run := AlgorandService.storeHealthData sdk w Scenario.someAccount "abc123" [] in
  AlgorandService.validateAccount sdk Scenario.someAccount = true
  /\ exists evs after : History,
       snd run = ([] ++ evs)%list
       /\ committedOnce sdk w Scenario.someAccount (noteBytes "abc123") 15 [] evs "TX1"
            (ESleep 3000 :: after)
       /\ Forall (queryOrPause "TX1") after.
Proof.
  apply (proj1 (commitment_is_one_zero_value_payment Scenario.plainTransportSdk
                  Scenario.happyWorld Scenario.someAccount "abc123" [])).
  vm_compute. reflexivity.
Defined.

(** ** The verification status that the store records *)

Section StoreStatus.

Import UseHealthStore.

Lemma hasTransactionId_true (id : option string) :
  truthy (toJs id) = true -> hasTransactionId id = VBool true.
Proof.
  destruct id as [s|]; [|intros Q; discriminate Q].
  destruct s as [|c s]; [intros Q; discriminate Q|]. reflexivity.
Qed.

Lemma hasTransactionId_false (id : option string) :
  truthy (toJs id) = false -> truthy (hasTransactionId id) = false.
Proof.
  destruct id as [s|]; [|reflexivity].
  destruct s as [|c s]; [reflexivity | intros Q; discriminate Q].
Qed.

End StoreStatus.

(** X22: the status that [verifyBlockchainData] records.  For a record
    with a fingerprint, an address and a transaction id, the result is
    truthy and the status is [success] whatever the verification answers,
    also when it answers [false] or throws.  For a record without a
    transaction id, the verdict is the one of the verification, and
    [false] when it throws. *)
Theorem stored_id_marks_record_verified
        (verify : string -> JsVal -> option string -> M JsVal)
        (healthRecord : UseHealthStore.HealthRecord) (st : UseHealthStore.HealthState)
        (h : History) :
  truthy (UseHealthStore.toJs (UseHealthStore.data_hash healthRecord)) = true ->
  truthy (UseHealthStore.toJs (UseHealthStore.user_algorand_address healthRecord)) = true ->
  exists (v : JsVal) (st' : UseHealthStore.HealthState) (h' : History),
    UseHealthStore.verifyBlockchainData verify healthRecord st h = (Normal (v, st'), h')
    /\ UseHealthStore.blockchainStatus st' = (if truthy v then "success" else "error")
    /\ (truthy (UseHealthStore.toJs (UseHealthStore.algorand_tx_id healthRecord)) = true ->
        truthy v = true)
    /\ (truthy (UseHealthStore.toJs (UseHealthStore.algorand_tx_id healthRecord)) = false ->
        truthy v
        = match fst (verify (UseHealthStore.text (UseHealthStore.data_hash healthRecord))
                       (UseHealthStore.toJs (UseHealthStore.user_algorand_address healthRecord))
                       (UseHealthStore.algorand_tx_id healthRecord) h) with
          | Normal isVerified => truthy isVerified
          | Throw _ => false
          end).
Proof.
  intros Hh Ha. unfold UseHealthStore.verifyBlockchainData. rewrite Hh, Ha. cbn [negb orb].
  unfold tryCatch, bind, ret.
  destruct (verify _ _ _ h) as [[isVerified|e] h1]; cbn [fst].
  - unfold jsOr. destruct (truthy isVerified) eqn:T.
    + eexists _, _, _. split; [reflexivity|]. rewrite T. now repeat split.
    + destruct (truthy (UseHealthStore.toJs (UseHealthStore.algorand_tx_id healthRecord)))
        eqn:Ti.
      * rewrite (hasTransactionId_true _ Ti).
        eexists _, _, _. split; [reflexivity|]. repeat split; easy.
      * pose proof (hasTransactionId_false _ Ti) as Hf.
        eexists _, _, _. split; [reflexivity|]. rewrite Hf. repeat split; easy.
  - destruct (truthy (UseHealthStore.toJs (UseHealthStore.algorand_tx_id healthRecord)))
      eqn:Ti.
    + rewrite (hasTransactionId_true _ Ti). cbn [truthy].
      eexists _, _, _. split; [reflexivity|]. repeat split; easy.
    + rewrite (hasTransactionId_false _ Ti).
      eexists _, _, _. split; [reflexivity|]. repeat split; easy.
Qed.

Lemma stored_id_marks_record_verified_witness :
  let healthRecord :=
    {| UseHealthStore.data_hash := Some "abc123";
       UseHealthStore.user_algorand_address := Some "ADDR";
       UseHealthStore.algorand_tx_id := Some "TX1" |} in
  let st := {| UseHealthStore.loading := false; UseHealthStore.qrCodeData := None;
               UseHealthStore.blockchainStatus := "idle" |} in
  let verify := LibAlgorand.verifyHealthDataOnBlockchain Scenario.noKeysSdk Scenario.dryWorld in
  fst (verify "abc123" (VString "ADDR") (Some "TX1") []) = Normal (VBool false)
  /\ exists (v : JsVal) (st' : UseHealthStore.HealthState) (h' : History),
       UseHealthStore.verifyBlockchainData verify healthRecord st [] = (Normal (v, st'), h')
       /\ UseHealthStore.blockchainStatus st' = (if truthy v then "success" else "error")
       /\ (truthy (VString "TX1") = true -> truthy v = true)
       /\ (truthy (VString "TX1") = false ->
           truthy v
           = match fst (verify "abc123" (VString "ADDR") (Some "TX1") []) with
             | Normal isVerified => truthy isVerified
             | Throw _ => false
             end).
Proof.
  split; [reflexivity|].
  apply (stored_id_marks_record_verified
           (LibAlgorand.verifyHealthDataOnBlockchain Scenario.noKeysSdk Scenario.dryWorld)
           {| UseHealthStore.data_hash := Some "abc123";
              UseHealthStore.user_algorand_address := Some "ADDR";
              UseHealthStore.algorand_tx_id := Some "TX1" |});
    reflexivity.
Defined.

(** ** Mnemonics *)

Section Mnemonics.

Lemma split_go_word (a t cur : string) :
  noSpace a = true ->
  split_go " " (a ++ t) 0 cur = split_go " " t 0 (cur ++ a).
Proof.
  revert cur. induction a as [|c a IH]; intros cur H.
  - now rewrite append_nil_r.
  - cbn [noSpace] in H. apply andb_prop in H as [Hc Ha].
    cbn [append split_go String.prefix].
    destruct (ascii_dec " " c) as [<-|_]; [discriminate Hc|].
    rewrite (IH _ Ha), append_assoc. reflexivity.
Qed.

Lemma split_join_words (ws : list string) :
  forall cur : string,
    Forall (fun x => isWord x = true) ws -> ws <> [] ->
    split_go " " (AlgorandService.join " " ws) 0 cur
    = match ws with
      | [] => []
      | x :: rest => (cur ++ x) :: rest
      end.
Proof.
  induction ws as [|x rest IH]; intros cur Hall Hne; [contradiction|].
  apply Forall_cons_iff in Hall as [Hx Hrest].
  apply andb_prop in Hx as [_ Hx].
  destruct rest as [|y rest].
  - cbn [AlgorandService.join]. rewrite <- (append_nil_r x) at 1.
    now rewrite split_go_word.
  - change (AlgorandService.join " " (x :: y :: rest))
      with (x ++ String " " (AlgorandService.join " " (y :: rest))).
    rewrite split_go_word by assumption.
    assert (Hstep : forall (j c' : string),
               split_go " " (String " " j) 0 c' = c' :: split_go " " j 0 EmptyString)
      by (intros j c'; destruct j; reflexivity).
    rewrite Hstep, (IH EmptyString Hrest) by discriminate. reflexivity.
Qed.

Lemma nth_word (l : list string) (i : nat) :
  Forall (fun x => isWord x = true) l -> i < List.length l ->
  isWord (nth i l EmptyString) = true /\ In (nth i l EmptyString) l.
Proof.
  intros Hall Hi. split; [|now apply nth_In].
  rewrite Forall_forall in Hall. now apply Hall, nth_In.
Qed.

End Mnemonics.

Section MnemonicWords.

Lemma wordList_words : Forall (fun x => isWord x = true) CryptoPolyfill.wordList.
Proof. apply Forall_forall, forallb_forall. vm_compute. reflexivity. Qed.

Lemma fallbackWords_words : Forall (fun x => isWord x = true) AlgorandService.fallbackWords.
Proof. apply Forall_forall, forallb_forall. vm_compute. reflexivity. Qed.

Lemma chosen_from (l : list string) (pick : nat -> nat) :
  Forall (fun x => isWord x = true) l ->
  (forall i, pick i < List.length l) ->
  let ws := map (fun i => nth (pick i) l EmptyString) (seq 0 12) in
  split (AlgorandService.join " " ws) " " = ws
  /\ List.length ws = 12
  /\ Forall (fun x => In x l) ws.
Proof.
  intros Hall Hpick ws.
  assert (Hws : Forall (fun x => isWord x = true /\ In x l) ws).
  { apply Forall_forall. intros x Hx. apply in_map_iff in Hx as (i & <- & _).
    now apply nth_word. }
  split; [|split].
  - unfold split. rewrite split_join_words.
    + reflexivity.
    + eapply Forall_impl; [|exact Hws]. now intros x [Hx _].
    + discriminate.
  - reflexivity.
  - eapply Forall_impl; [|exact Hws]. now intros x [_ Hx].
Qed.

End MnemonicWords.

(** X23: the mnemonics that the repository builds itself have twelve
    words.  [generateSecureMnemonic] joins twelve words of its list of 128
    with single spaces, so that the text splits back into these twelve
    words, and a byte matters only through its seven low bits; the
    deterministic mnemonic of [generateAccountFallback] has twelve words of
    its list of twelve. *)
Theorem mnemonics_have_twelve_words (draw : nat -> N) (sdk : Sdk) :
  split (CryptoPolyfill.generateSecureMnemonic draw) " " = CryptoPolyfill.chosenWords draw
  /\ List.length (CryptoPolyfill.chosenWords draw) = 12
  /\ Forall (fun x => In x CryptoPolyfill.wordList) (CryptoPolyfill.chosenWords draw)
  /\ CryptoPolyfill.generateSecureMnemonic draw
     = CryptoPolyfill.generateSecureMnemonic (fun i => (draw i mod 128)%N)
  /\ List.length (split (AlgorandService.fallbackMnemonic sdk) " ") = 12
  /\ Forall (fun x => In x AlgorandService.fallbackWords)
            (split (AlgorandService.fallbackMnemonic sdk) " ").
Proof.
  destruct (chosen_from CryptoPolyfill.wordList
              (fun i => N.to_nat (draw i mod N.of_nat (List.length CryptoPolyfill.wordList)))
              wordList_words) as (A1 & A2 & A3).
  { intros i. change (List.length CryptoPolyfill.wordList) with 128.
    pose proof (N.mod_lt (draw i) (N.of_nat 128) ltac:(lia)). lia. }
  destruct (chosen_from AlgorandService.fallbackWords
              (fun i => Z.to_nat
                          (Z.abs (AlgorandService.seedHash (AlgorandService.fallbackSeed sdk) 0
                                  + Z.of_nat i) mod 12)%Z)
              fallbackWords_words) as (B1 & B2 & B3).
  { intros i. change (List.length AlgorandService.fallbackWords) with 12.
    pose proof (Z.mod_pos_bound
                  (Z.abs (AlgorandService.seedHash (AlgorandService.fallbackSeed sdk) 0
                          + Z.of_nat i)) 12 ltac:(lia)). lia. }
  split; [exact A1|]. split; [exact A2|]. split; [exact A3|]. split.
  - unfold CryptoPolyfill.generateSecureMnemonic, CryptoPolyfill.chosenWords. f_equal.
    apply map_ext. intros i. now rewrite N.Div0.mod_mod.
  - unfold AlgorandService.fallbackMnemonic, AlgorandService.selectedWords.
    rewrite B1. split; [exact B2 | exact B3].
Qed.

(** ** The retry of the parameters, and the order of the verifiers *)


(** X25: the verifier of [EnhancedAlgorandService] accepts every note
    that the verifier of [AlgorandBlockchainService] accepts: the two read a
    JSON record in the same way, and where the first falls back to the
    bare fingerprint the second asks for the fingerprint after
    [HEALTH_DATA:]. *)
Theorem enhanced_accepts_what_blockchain_accepts (noteString hash : string) :
  AlgorandBlockchainService.noteIsValid noteString hash = true ->
  EnhancedAlgorandService.noteMatches noteString hash = true.
Proof.
  unfold AlgorandBlockchainService.noteIsValid, EnhancedAlgorandService.noteMatches.
  cbv zeta.
  assert (L : includes noteString ("HEALTH_DATA:" ++ hash) = true ->
              includes noteString hash = true).
  { intros H. apply includes_true. apply includes_true in H.
    refine (occursIn_trans _ _ _ _ H). now exists "HEALTH_DATA:", EmptyString;
      rewrite append_nil_r. }
  destruct (JSON_parse noteString) as [parsed|e]; [|exact L].
  destruct (getProp parsed "type") as [t|e]; [|exact L].
  destruct (strictEqString t "HEALTH_DATA"); [|intros Q; exact Q].
  destruct (getProp parsed "hash") as [x|e]; [intros Q; exact Q | exact L].
Qed.

Lemma enhanced_accepts_what_blockchain_accepts_witness :
  EnhancedAlgorandService.noteMatches "HEALTH_DATA:abc123" "abc123" = true.
Proof. apply enhanced_accepts_what_blockchain_accepts. reflexivity. Defined.

(** ** The deterministic private key of [EnhancedAlgorandService] *)

Section SimpleHash.

Lemma weightedSum_linear (input : string) :
  exists t : N,
    forall i j : N,
      EnhancedAlgorandService.weightedSum input i j
      = (EnhancedAlgorandService.weightedSum input 0 j + i * t)%N.
Proof.
  induction input as [|c rest [t IH]].
  - exists 0%N. intros i j. cbn. lia.
  - exists (N_of_ascii c + t)%N. intros i j.
    cbn [EnhancedAlgorandService.weightedSum].
    rewrite (IH i (j + 1)%N). lia.
Qed.

End SimpleHash.

(** X26: the private key that [generateAccountFallback] of
    [EnhancedAlgorandService] derives from its seed is an arithmetic
    progression modulo 256: its 32 bytes are [(a + i * b) mod 256] for two
    bytes [a] and [b], so that the seed selects one of at most 65536
    keys. *)
Theorem fallback_key_is_progression (input : string) :
  exists a b : N,
    (a < 256)%N /\ (b < 256)%N
    /\ EnhancedAlgorandService.simpleHash input
       = map (fun i => ((a + N.of_nat i * b) mod 256)%N) (seq 0 32).
Proof.
  destruct (weightedSum_linear input) as [t Ht].
  exists (EnhancedAlgorandService.weightedSum input 0 0 mod 256)%N, ((t + 7) mod 256)%N.
  split; [apply N.mod_lt; lia|]. split; [apply N.mod_lt; lia|].
  unfold EnhancedAlgorandService.simpleHash. apply map_ext. intros i. cbv zeta.
  rewrite (Ht (N.of_nat i) 0%N).
  replace (EnhancedAlgorandService.weightedSum input 0 0 + N.of_nat i * t + N.of_nat i * 7)%N
    with (EnhancedAlgorandService.weightedSum input 0 0 + N.of_nat i * (t + 7))%N by lia.
  rewrite (N.Div0.add_mod (EnhancedAlgorandService.weightedSum input 0 0)).
  rewrite (N.Div0.mul_mod (N.of_nat i) (t + 7)).
  rewrite (N.Div0.add_mod (_ mod 256) (N.of_nat i * ((t + 7) mod 256))).
  rewrite (N.Div0.mul_mod (N.of_nat i) ((t + 7) mod 256)).
  now rewrite !N.Div0.mod_mod.
Qed.

(** ** The verifiers that query once *)

(** X27: the verifiers that query once are total.  On every ledger,
    [verifyHealthDataFromTransaction] and [verifyHealthData] of
    [EnhancedAlgorandService] return a boolean after exactly one query for
    the transaction, and the exported [verifyHealthDataOnBlockchain] of
    [lib/algorand.ts] returns a value: no error of the ledger, of the
    decoder or of [JSON.parse] reaches the caller. *)
Theorem single_query_verifiers_total
        (sdk : Sdk) (w : World) (dataHash txId : string) (userAddress : JsVal)
        (id : option string) (h : History) :
  (exists b : bool,
      AlgorandBlockchainService.verifyHealthDataFromTransaction sdk w dataHash txId h
      = (Normal b, (h ++ [EPendingTransactionInformation txId])%list))
  /\ (exists b : bool,
         EnhancedAlgorandService.verifyHealthData sdk w dataHash txId h
         = (Normal b, (h ++ [EPendingTransactionInformation txId])%list))
  /\ (exists (v : JsVal) (h' : History),
         LibAlgorand.verifyHealthDataOnBlockchain sdk w dataHash userAddress id h
         = (Normal v, h')).
Proof.
  assert (B : forall hash tx hist, exists b : bool,
             AlgorandBlockchainService.verifyHealthDataFromTransaction sdk w hash tx hist
             = (Normal b, (hist ++ [EPendingTransactionInformation tx])%list)).
  { intros hash tx hist.
    unfold AlgorandBlockchainService.verifyHealthDataFromTransaction.
    unfold tryCatch, bind, call, lift, ret.
    destruct (pendingTransactionInformation w hist tx) as [txnInfo|e]; [|now eexists].
    destruct (getField txnInfo "txn") as [txn|e]; [|now eexists].
    destruct (truthy txn); cbn [negb]; [|now eexists].
    destruct (truthy (field txnInfo "confirmed-round")); cbn [negb]; [|now eexists].
    destruct (truthy (field txn "note")); cbn [negb]; [|now eexists].
    destruct (Buffer_from_base64 sdk (field txn "note")); now eexists. }
  split; [apply B|]. split.
  - unfold EnhancedAlgorandService.verifyHealthData.
    unfold tryCatch, bind, call, lift, ret.
    destruct (pendingTransactionInformation w h txId) as [txnInfo|e]; [|now eexists].
    destruct (getField txnInfo "confirmed-round") as [c|e]; [|now eexists].
    destruct (truthy c); cbn [negb]; [|now eexists].
    destruct (truthy (field (field txnInfo "txn") "note")); cbn [negb]; [|now eexists].
    destruct (Buffer_from_base64 sdk _); now eexists.
  - unfold LibAlgorand.verifyHealthDataOnBlockchain, tryCatch, bind, ret.
    destruct id as [tx|]; [|now eexists _, _].
    destruct (negb (String.eqb tx EmptyString)); [|now eexists _, _].
    destruct (B dataHash tx h) as [b ->]. now eexists _, _.
Qed.
